(** * Harmonia booking backend (server.js): model and verified properties

    A shallow embedding of the Express handlers of the clinic booking
    server: the bookings file and its two accessors, the slot check, the
    two notification mails and the four /api routes.  The handlers are
    written in a small state monad over the world they touch (the bookings
    file, the console, the mail transport); what the world answers (clock,
    disk write, mail delivery, process.env) is read from an explicit
    environment. *)

From Stdlib Require Import ZArith List String Ascii Bool Lia.
From Stdlib Require Import DecimalString DecimalZ Permutation.
Import ListNotations.

Local Open Scope string_scope.
Local Open Scope Z_scope.

(* ================================================================== *)
(** ** JavaScript values reaching the handlers *)

(** A value that [JSON.parse] returns ([express.json()] hands the parsed
    body to the handler as it is), or [undefined] for a property that is
    absent.  A number is held by its rendering, the text that
    [Number.prototype.toString] gives for it ([20250310], [1.5], [1e+21],
    [Infinity] for a literal too large for a double): two numbers are
    equal exactly when they render alike, [0] and [-0] included, which
    both render as [0].  [NaN] is not JSON. *)
#[local] Set Warnings "-register-all".
Inductive jsval :=
| JUndefined
| JNull
| JBool (b : bool)
| JNumber (repr : string)
| JString (s : string)
| JArray (items : list jsval)
| JObject (properties : list (string * jsval)).
#[local] Set Warnings "register-all".

(** ToBoolean: [undefined], [null], [false], [0] and the empty string are
    falsy; every array and every object is truthy, the empty ones too. *)
Definition ToBoolean (v : jsval) : bool :=
  match v with
  | JUndefined | JNull => false
  | JBool b => b
  | JNumber repr => negb (repr =? "0")%string
  | JString s => negb (s =? "")%string
  | JArray _ | JObject _ => true
  end.

(** [v || d]. *)
Definition logical_or (v d : jsval) : jsval :=
  if ToBoolean v then v else d.

(** [a === b] for two values that were parsed apart (one read from the
    bookings file, the other taken from the request): values of different
    types differ, primitives are compared by content, and an array or an
    object is equal to itself only, so to nothing that another
    [JSON.parse] returned. *)
Definition strict_eq (a b : jsval) : bool :=
  match a, b with
  | JUndefined, JUndefined => true
  | JNull, JNull => true
  | JBool x, JBool y => Bool.eqb x y
  | JNumber x, JNumber y => (x =? y)%string
  | JString x, JString y => (x =? y)%string
  | _, _ => false
  end.

(** The renderings of the two numbers that JSON text cannot hold. *)
Definition finite (repr : string) : bool :=
  negb ((repr =? "Infinity")%string || (repr =? "-Infinity")%string).

(** What [JSON.parse] reads back from the text that [JSON.stringify]
    wrote for a value: the value itself, except that an infinite number
    is written as [null].  (A property that is [undefined] is left out
    and so reads as [undefined] again.) *)
Fixpoint reread (v : jsval) : jsval :=
  match v with
  | JNumber repr => if finite repr then v else JNull
  | JArray items => JArray (map reread items)
  | JObject properties =>
      JObject (map (fun '(key, x) => (key, reread x)) properties)
  | _ => v
  end.

(** Induction on a value, with the property at hand for the items of an
    array and for the values of the properties of an object. *)
Section Structural.

Variable P : jsval -> Prop.
Hypothesis undefined_case : P JUndefined.
Hypothesis null_case : P JNull.
Hypothesis bool_case : forall b, P (JBool b).
Hypothesis number_case : forall repr, P (JNumber repr).
Hypothesis string_case : forall s, P (JString s).
Hypothesis array_case : forall items, Forall P items -> P (JArray items).
Hypothesis object_case :
  forall properties,
    Forall (fun p => P (snd p)) properties -> P (JObject properties).

Fixpoint jsval_structural (v : jsval) : P v :=
  match v with
  | JUndefined => undefined_case
  | JNull => null_case
  | JBool b => bool_case b
  | JNumber repr => number_case repr
  | JString s => string_case s
  | JArray items =>
      array_case items
        ((fix all (l : list jsval) : Forall P l :=
            match l with
            | [] => Forall_nil P
            | x :: r => Forall_cons x (jsval_structural x) (all r)
            end) items)
  | JObject properties =>
      object_case properties
        ((fix all (l : list (string * jsval))
            : Forall (fun p => P (snd p)) l :=
            match l with
            | [] => Forall_nil _
            | (key, x) :: r =>
                Forall_cons (key, x) (jsval_structural x) (all r)
            end) properties)
  end.

End Structural.

(** A value that is a string or is not there: a variable of
    [process.env] ([undefined] when unset), a selection of the booking
    widget ([null] until it is made).  Here [None]. *)
Definition jsstring := option string.

(** ToBoolean on such a value: only the missing one and the empty
    string are falsy. *)
Definition truthy (v : jsstring) : bool :=
  match v with
  | None => false
  | Some s => negb (s =? "")%string
  end.

(** [v || d] with a string default. *)
Definition or_else (v : jsstring) (d : string) : string :=
  match v with
  | Some s => if truthy v then s else d
  | None => d
  end.

(** [Array.prototype.find], [filter], [map] are [List.find], [List.filter]
    and [List.map]; a [find] that comes back [undefined] is [None]. *)

(** [Array.prototype.findIndex]: the first index whose element passes,
    or -1. *)
Fixpoint findIndex_from {A} (p : A -> bool) (l : list A) (i : Z) : Z :=
  match l with
  | [] => -1
  | x :: r => if p x then i else findIndex_from p r (i + 1)
  end.

Definition findIndex {A} (p : A -> bool) (l : list A) : Z :=
  findIndex_from p l 0.

(** [Array.prototype.includes]: SameValueZero, which is [===] where no
    [NaN] is about. *)
Definition includes (l : list jsval) (v : jsval) : bool :=
  existsb (fun x => strict_eq x v) l.

(** [arr.splice(i, 1)] for an index [0 <= i]: the array without its
    [i]-th element (unchanged when [i] is past the end). *)
Fixpoint remove_nth {A} (n : nat) (l : list A) : list A :=
  match n, l with
  | _, [] => []
  | O, _ :: r => r
  | S k, x :: r => x :: remove_nth k r
  end.

Definition splice1 {A} (i : Z) (l : list A) : list A :=
  remove_nth (Z.to_nat i) l.

(** [push] appends at the end. *)
Definition push {A} (l : list A) (x : A) : list A := l ++ [x].

(* ------------------------------------------------------------------ *)
(** *** Exceptions *)

Inductive error :=
| FsError (code : string)
| SyntaxError (raw : string)
| TransportError
| TypeError.

(** Outcome of an expression that may throw. *)
Inductive completion (A : Type) :=
| Normal (a : A)
| Throw (e : error).
Arguments Normal {A} a.
Arguments Throw {A} e.

(** Evaluation in sequence: the first exception ends it. *)
Definition and_then {A B} (c : completion A) (k : A -> completion B)
  : completion B :=
  match c with
  | Normal a => k a
  | Throw err => Throw err
  end.

Declare Scope completion_scope.
Delimit Scope completion_scope with completion.
Notation "x <~ c ;; k" := (and_then c (fun x => k))
  (at level 100, c at next level, right associativity) : completion_scope.

(* ------------------------------------------------------------------ *)
(** *** Number and date rendering *)

(** [Number.prototype.toString] on an integer: decimal digits, a leading
    minus sign for negatives. *)
Definition toString (n : Z) : string :=
  NilZero.string_of_int (Z.to_int n).

Fixpoint zeros (n : nat) : string :=
  match n with
  | O => ""
  | S k => String "0" (zeros k)
  end.

(** Decimal digits of a non-negative integer, left-padded with zeros to
    [w] characters. *)
Definition padded (w : nat) (n : Z) : string :=
  let s := toString n in
  (zeros (w - String.length s) ++ s)%string.

(** Proleptic Gregorian (year, month, day) of a day count since
    1970-01-01. *)
Definition civil_from_days (days : Z) : Z * Z * Z :=
  let z := days + 719468 in
  let era := z / 146097 in
  let doe := z - era * 146097 in
  let yoe := (doe - doe / 1460 + doe / 36524 - doe / 146096) / 365 in
  let doy := doe - (365 * yoe + yoe / 4 - yoe / 100) in
  let mp := (5 * doy + 2) / 153 in
  let d := doy - (153 * mp + 2) / 5 + 1 in
  let m := if mp <? 10 then mp + 3 else mp - 9 in
  let y := yoe + era * 400 + (if m <=? 2 then 1 else 0) in
  (y, m, d).

(** [Date.prototype.toISOString] of an instant given in milliseconds
    since the epoch: [YYYY-MM-DDTHH:mm:ss.sssZ], with the signed six-digit
    year outside 0..9999. *)
Definition toISOString (t : Z) : string :=
  let '(y, m, d) := civil_from_days (t / 86400000)%Z in
  let r := (t mod 86400000)%Z in
  let year :=
    if ((0 <=? y) && (y <=? 9999))%Z then padded 4 y
    else ((if (y <? 0)%Z then "-" else "+") ++ padded 6 (Z.abs y))%string in
  (year ++ "-" ++ padded 2 m ++ "-" ++ padded 2 d ++ "T"
   ++ padded 2 (r / 3600000)%Z ++ ":" ++ padded 2 (r / 60000 mod 60)%Z ++ ":"
   ++ padded 2 (r / 1000 mod 60)%Z ++ "." ++ padded 3 (r mod 1000)%Z ++ "Z")%string.

(** The object has an own property of this name. *)
Definition has_own (key : string) (properties : list (string * jsval))
  : bool :=
  existsb (fun p => (fst p =? key)%string) properties.

(** ToString, as a template literal applies it to [${v}].  An array is
    joined with commas, [null] and [undefined] elements giving the empty
    text.  An object renders as [[object Object]] through
    [Object.prototype.toString]; when it has an own property [toString]
    (a JSON value, so not callable) the conversion falls through to
    [valueOf], finds no primitive and throws a TypeError. *)
Fixpoint ToString (v : jsval) : completion string :=
  match v with
  | JUndefined => Normal "undefined"
  | JNull => Normal "null"
  | JBool true => Normal "true"
  | JBool false => Normal "false"
  | JNumber repr => Normal repr
  | JString s => Normal s
  | JArray items =>
      (fix join (l : list jsval) : completion string :=
         match l with
         | [] => Normal ""
         | x :: r =>
             match
               match x with
               | JUndefined | JNull => Normal ""
               | _ => ToString x
               end
             with
             | Throw err => Throw err
             | Normal s =>
                 match r with
                 | [] => Normal s
                 | _ :: _ =>
                     match join r with
                     | Normal rest => Normal (s ++ "," ++ rest)%string
                     | Throw err => Throw err
                     end
                 end
             end
         end) items
  | JObject properties =>
      if has_own "toString" properties then Throw TypeError
      else Normal "[object Object]"
  end.

(* ================================================================== *)
(** ** Data model *)

(** One stored booking, as [POST /api/bookings] builds it: the id and the
    creation time are strings that the handler makes, the other
    properties are the values of the request. *)
Record booking := mkBooking {
  id : string;
  firstName : jsval;
  lastName : jsval;
  email : jsval;
  phone : jsval;
  service : jsval;
  date : jsval;
  time : jsval;
  notes : jsval;
  price : jsval;
  createdAt : string
}.

(** The JSON document of the bookings file: [{ bookings: [...] }]. *)
Record data := mkData { bookings : list booking }.

(** [req.body] of [POST /api/bookings], after destructuring. *)
Module Body.
Record t := mk {
  firstName : jsval;
  lastName : jsval;
  email : jsval;
  phone : jsval;
  service : jsval;
  date : jsval;
  time : jsval;
  notes : jsval;
  price : jsval
}.
End Body.

(** The (date, time) pair a booking occupies. *)
Definition slot (b : booking) : jsval * jsval := (date b, time b).

(** A booking as it is read back from the file it was written to. *)
Definition reread_booking (b : booking) : booking := {|
  id := id b;
  firstName := reread (firstName b);
  lastName := reread (lastName b);
  email := reread (email b);
  phone := reread (phone b);
  service := reread (service b);
  date := reread (date b);
  time := reread (time b);
  notes := reread (notes b);
  price := reread (price b);
  createdAt := createdAt b
|}.

(* ================================================================== *)
(** ** The world of the handlers *)

(** The text of the bookings file, by what [JSON.parse] makes of it:
    either it is the text that [JSON.stringify] gives for a bookings
    document, or it is not JSON at all. *)
Inductive text :=
| Document (d : data)
| Garbage (raw : string).

(** [BOOKINGS_FILE] on disk. *)
Inductive file :=
| Missing
| Unreadable (code : string)
| Contents (t : text).

Inductive log :=
| console_log (msg : string)
| console_error (msg : string).

(** [mailOptions] handed to the transporter. *)
Record mail := mkMail {
  from : string;
  to : jsval;
  subject : string;
  html : string
}.

Record world := mkWorld {
  disk : file;
  console : list log;
  outbox : list mail
}.

(** What the surroundings answer during one request.  A write that
    throws has either failed to open the file (a read-only file system, a
    missing permission), or it has failed later (a full disk, an I/O
    error): the file was then emptied on opening and holds the part of
    the text that got written, [cut_off]. *)
Record env := mkEnv {
  now : Z;                      (* Date.now() *)
  clock : Z;                    (* new Date(), in milliseconds *)
  write_error : option string;  (* errno of fs.writeFileSync, if it throws *)
  cut_off : option string;      (* what a write that threw left in the file *)
  clinic_delivered : bool;      (* does sendMail resolve, clinic mail *)
  client_delivered : bool;      (* does sendMail resolve, client mail *)
  EMAIL_USER : jsstring;        (* process.env.EMAIL_USER *)
  CLINIC_EMAIL : jsstring       (* process.env.CLINIC_EMAIL *)
}.

(** State monad over the world. *)
Definition M (A : Type) : Type := world -> A * world.

Definition ret {A} (a : A) : M A := fun w => (a, w).

Definition bind {A B} (m : M A) (k : A -> M B) : M B :=
  fun w => let (a, w') := m w in k a w'.

Declare Scope js_scope.
Delimit Scope js_scope with js.
Notation "x <- m ;; k" := (bind m (fun x => k))
  (at level 100, m at next level, right associativity) : js_scope.
Notation "m ;; k" := (bind m (fun _ => k))
  (at level 100, right associativity) : js_scope.
Local Open Scope js_scope.

Definition print (l : log) : M unit :=
  fun w => (tt, mkWorld (disk w) (console w ++ [l]) (outbox w)).

(* ------------------------------------------------------------------ *)
(** *** fs and JSON *)

Definition fs_readFileSync (f : file) : completion text :=
  match f with
  | Missing => Throw (FsError "ENOENT")
  | Unreadable code => Throw (FsError code)
  | Contents t => Normal t
  end.

(** Parsing the text written for a document gives the document as the
    text holds it. *)
Definition JSON_parse (t : text) : completion data :=
  match t with
  | Document d => Normal (mkData (map reread_booking (bookings d)))
  | Garbage raw => Throw (SyntaxError raw)
  end.

Definition JSON_stringify (d : data) : text := Document d.

(** The file after a write that threw: as it was when the file could
    not be opened, and holding the cut-off text otherwise.  The cut-off
    text is a proper part of the text of a JSON object, which is never
    JSON itself. *)
Definition after_failed_write (e : env) (f : file) : file :=
  match cut_off e with
  | Some raw => Contents (Garbage raw)
  | None => f
  end.

Definition fs_writeFileSync (e : env) (t : text) : M (completion unit) :=
  fun w =>
    match write_error e with
    | Some code =>
        (Throw (FsError code),
         mkWorld (after_failed_write e (disk w)) (console w) (outbox w))
    | None => (Normal tt, mkWorld (Contents t) (console w) (outbox w))
    end.

(* ================================================================== *)
(** ** Helper functions of server.js *)

(** The [try] block of [readBookings]. *)
Definition readBookings_try (f : file) : completion data :=
  match fs_readFileSync f with
  | Normal t => JSON_parse t
  | Throw e => Throw e
  end.

Definition readBookings : M data :=
  fun w =>
    match readBookings_try (disk w) with
    | Normal d => (d, w)
    | Throw _ =>
        (print (console_error "Error reading bookings:") ;;
         ret (mkData [])) w
    end.

Definition saveBookings (e : env) (d : data) : M bool :=
  r <- fs_writeFileSync e (JSON_stringify d) ;;
  match r with
  | Normal _ => ret true
  | Throw _ =>
      print (console_error "Error saving bookings:") ;;
      ret false
  end.

Definition isTimeSlotAvailable (d t : jsval) : M bool :=
  data <- readBookings ;;
  let existingBooking :=
    find (fun booking => strict_eq (date booking) d
                         && strict_eq (time booking) t)
         (bookings data) in
  ret (match existingBooking with Some _ => false | None => true end).

(* ------------------------------------------------------------------ *)
(** *** Notification mails *)

Definition newline : string := String "010" "".

(** A template literal whose text starts on the line after the backquote,
    holds its lines at six spaces and closes at four. *)
Definition template (lines : list string) : string :=
  (newline
   ++ String.concat "" (map (fun l => "      " ++ l ++ newline) lines)
   ++ "    ")%string.

(** [await transporter.sendMail(mailOptions)]: the mail leaves, or the
    transport rejects. *)
Definition transporter_sendMail (delivered : bool) (m : mail)
  : M (completion unit) :=
  fun w =>
    if delivered
    then (Normal tt, mkWorld (disk w) (console w) (outbox w ++ [m]))
    else (Throw TransportError, w).

Definition emailConfig_auth_user (e : env) : string :=
  or_else (EMAIL_USER e) "xgod7x@gmail.com".

(** The [mailOptions] of [sendClinicNotification]: the properties of the
    booking are converted to text where the templates name them, in that
    order. *)
Definition clinic_mailOptions (e : env) (booking : booking)
  : completion mail :=
  (subject_ <~ ToString (service booking) ;;
   firstName_ <~ ToString (firstName booking) ;;
   lastName_ <~ ToString (lastName booking) ;;
   email_ <~ ToString (email booking) ;;
   phone_ <~ ToString (phone booking) ;;
   service_ <~ ToString (service booking) ;;
   date_ <~ ToString (date booking) ;;
   time_ <~ ToString (time booking) ;;
   price_ <~ ToString (price booking) ;;
   notes_ <~ (if ToBoolean (notes booking)
              then (n <~ ToString (notes booking) ;;
                    Normal ("<p><strong>Notatki:</strong> " ++ n ++ "</p>")%string)
              else Normal "") ;;
   Normal {|
     from := emailConfig_auth_user e;
     to := JString (or_else (CLINIC_EMAIL e) "harmonia.sibo@gmail.com");
     subject := ("Nowa rezerwacja: " ++ subject_)%string;
     html := template [
       "<h2>Nowa rezerwacja wizyty</h2>";
       "<p><strong>Pacjent:</strong> " ++ firstName_ ++ " "
         ++ lastName_ ++ "</p>";
       "<p><strong>Email:</strong> " ++ email_ ++ "</p>";
       "<p><strong>Telefon:</strong> " ++ phone_ ++ "</p>";
       "<p><strong>Usługa:</strong> " ++ service_ ++ "</p>";
       "<p><strong>Data:</strong> " ++ date_ ++ "</p>";
       "<p><strong>Godzina:</strong> " ++ time_ ++ "</p>";
       "<p><strong>Cena:</strong> " ++ price_ ++ "</p>";
       notes_;
       "<hr>";
       "<p><small>ID rezerwacji: " ++ id booking ++ "</small></p>"
     ]%string
   |})%completion.

(** An async function: what is returned is how its promise settles.  An
    exception thrown while [mailOptions] is built, before the [try],
    rejects it. *)
Definition sendClinicNotification (e : env) (booking : booking)
  : M (completion bool) :=
  match clinic_mailOptions e booking with
  | Throw err => ret (Throw err)
  | Normal mailOptions =>
      r <- transporter_sendMail (clinic_delivered e) mailOptions ;;
      match r with
      | Normal _ =>
          print (console_log "✅ Clinic notification sent successfully") ;;
          ret (Normal true)
      | Throw _ =>
          print (console_error "❌ Error sending clinic notification:") ;;
          ret (Normal false)
      end
  end.

Definition client_mailOptions (e : env) (booking : booking)
  : completion mail :=
  (firstName_ <~ ToString (firstName booking) ;;
   lastName_ <~ ToString (lastName booking) ;;
   service_ <~ ToString (service booking) ;;
   date_ <~ ToString (date booking) ;;
   time_ <~ ToString (time booking) ;;
   price_ <~ ToString (price booking) ;;
   Normal {|
     from := emailConfig_auth_user e;
     to := email booking;
     subject := "Potwierdzenie rezerwacji - HARMONIA";
     html := template [
       "<h2>Dziękujemy za rezerwację!</h2>";
       "<p>Szanowny/a " ++ firstName_ ++ " " ++ lastName_ ++ ",</p>";
       "<p>Potwierdzamy Twoją rezerwację:</p>";
       "<ul>";
       "  <li><strong>Usługa:</strong> " ++ service_ ++ "</li>";
       "  <li><strong>Data:</strong> " ++ date_ ++ "</li>";
       "  <li><strong>Godzina:</strong> " ++ time_ ++ "</li>";
       "  <li><strong>Cena:</strong> " ++ price_ ++ "</li>";
       "</ul>";
       "<p><strong>Adres:</strong> ul. Zacisze 16/1, 31-156 Kraków</p>";
       "<p>Prosimy o przybycie 5 minut przed umówioną godziną.</p>";
       "<p>W razie pytań prosimy o kontakt:</p>";
       "<ul>";
       "  <li>Tel: 692 922 926</li>";
       "  <li>Email: harmonia.sibo@gmail.com</li>";
       "</ul>";
       "<hr>";
       "<p><small>Numer rezerwacji: " ++ id booking ++ "</small></p>"
     ]%string
   |})%completion.

Definition sendClientConfirmation (e : env) (booking : booking)
  : M (completion bool) :=
  match client_mailOptions e booking with
  | Throw err => ret (Throw err)
  | Normal mailOptions =>
      r <- transporter_sendMail (client_delivered e) mailOptions ;;
      match r with
      | Normal _ =>
          print (console_log "✅ Client confirmation sent successfully") ;;
          ret (Normal true)
      | Throw _ =>
          print (console_error "❌ Error sending client confirmation:") ;;
          ret (Normal false)
      end
  end.

(** [promise.catch(err => console.error(msg, err))]. *)
Definition catch {A} (settled : completion A) (msg : string) : M unit :=
  match settled with
  | Normal _ => ret tt
  | Throw _ => print (console_error msg)
  end.

(* ================================================================== *)
(** ** API endpoints *)

(** The [booking] object of the 201 reply. *)
Module Confirmation.
Record t := mk {
  id : string;
  date : jsval;
  time : jsval;
  service : jsval
}.
End Confirmation.

(** The JSON bodies of the replies. *)
Inductive json :=
| Error (error : string)
| Available (date : jsval) (availableTimes : list string)
    (bookedTimes : list jsval)
| Created (success : bool) (message : string) (booking : Confirmation.t)
| Listing (all : list booking)
| Deleted (success : bool) (message : string).

Record response := mkResponse {
  status : Z;
  body : json
}.

(** A value handed to [res.json] as the caller parses it: it travels as
    the text that [JSON.stringify] gives for it. *)
Definition sent (b : json) : json :=
  match b with
  | Available date availableTimes bookedTimes =>
      Available (reread date) availableTimes (map reread bookedTimes)
  | Created success message c =>
      Created success message
        {| Confirmation.id := Confirmation.id c;
           Confirmation.date := reread (Confirmation.date c);
           Confirmation.time := reread (Confirmation.time c);
           Confirmation.service := reread (Confirmation.service c) |}
  | Listing all => Listing (map reread_booking all)
  | Error _ | Deleted _ _ => b
  end.

(** [res.status(code).json(body)]; [res.json(body)] answers 200. *)
Definition res_status_json (code : Z) (b : json) : M response :=
  ret (mkResponse code (sent b)).

Definition res_json (b : json) : M response := res_status_json 200 b.

Definition allTimeSlots : list string :=
  ["08:00"; "09:00"; "10:00"; "11:00"; "12:00";
   "13:00"; "14:00"; "15:00"; "16:00"; "17:00"; "18:00"]%string.

(** [GET /api/available-times], on [req.query.date]: the spec's
    [availableSlots]. *)
Definition GET_api_available_times (date_ : jsval) : M response :=
  if negb (ToBoolean date_) then
    res_status_json 400 (Error "Date parameter is required")
  else
    data <- readBookings ;;
    let bookedTimes :=
      map (fun booking => time booking)
          (filter (fun booking => strict_eq (date booking) date_)
                  (bookings data)) in
    let availableTimes :=
      filter (fun time => negb (includes bookedTimes (JString time)))
             allTimeSlots in
    res_json (Available date_ availableTimes bookedTimes).

(** The [newBooking] object of [POST /api/bookings]. *)
Definition newBooking (e : env) (b : Body.t) : booking := {|
  id := toString (now e);
  firstName := Body.firstName b;
  lastName := Body.lastName b;
  email := Body.email b;
  phone := Body.phone b;
  service := Body.service b;
  date := Body.date b;
  time := Body.time b;
  notes := logical_or (Body.notes b) (JString "");
  price := logical_or (Body.price b) (JString "");
  createdAt := toISOString (clock e)
|}.

(** [POST /api/bookings], on [req.body]: the spec's [createBooking].  The
    two notifications are started once the booking is saved and are not
    awaited: they settle after the reply, and what they return is never
    read.  The effects of the two sends are those left in the world. *)
Definition POST_api_bookings (e : env) (b : Body.t) : M response :=
  if negb (ToBoolean (Body.firstName b)) || negb (ToBoolean (Body.lastName b))
     || negb (ToBoolean (Body.email b)) || negb (ToBoolean (Body.phone b))
     || negb (ToBoolean (Body.service b)) || negb (ToBoolean (Body.date b))
     || negb (ToBoolean (Body.time b))
  then
    res_status_json 400 (Error "Wszystkie wymagane pola muszą być wypełnione")
  else
    available <- isTimeSlotAvailable (Body.date b) (Body.time b) ;;
    if negb available then
      res_status_json 409
        (Error "Ten termin jest już zajęty. Proszę wybrać inny.")
    else
      let newBooking := newBooking e b in
      data <- readBookings ;;
      let data := mkData (push (bookings data) newBooking) in
      saved <- saveBookings e data ;;
      if negb saved then
        res_status_json 500 (Error "Błąd podczas zapisywania rezerwacji")
      else
        clinic <- sendClinicNotification e newBooking ;;
        catch clinic "Failed to send clinic notification:" ;;
        client <- sendClientConfirmation e newBooking ;;
        catch client "Failed to send client confirmation:" ;;
        res_status_json 201
          (Created true "Rezerwacja została pomyślnie utworzona"
             {| Confirmation.id := id newBooking;
                Confirmation.date := date newBooking;
                Confirmation.time := time newBooking;
                Confirmation.service := service newBooking |}).

(** [GET /api/bookings]: the listing. *)
Definition GET_api_bookings : M response :=
  data <- readBookings ;;
  res_json (Listing (bookings data)).

(** [DELETE /api/bookings/:id], on [req.params.id]: the spec's [delete].
    The result of [saveBookings] is dropped. *)
Definition DELETE_api_bookings (e : env) (id_ : string) : M response :=
  data <- readBookings ;;
  let bookingIndex :=
    findIndex (fun b => (id b =? id_)%string) (bookings data) in
  if bookingIndex =? -1 then
    res_status_json 404 (Error "Rezerwacja nie znaleziona")
  else
    let data := mkData (splice1 bookingIndex (bookings data)) in
    saveBookings e data ;;
    res_json (Deleted true "Rezerwacja została usunięta").

Arguments toString : simpl never.
Arguments toISOString : simpl never.
Arguments template : simpl never.

(* ================================================================== *)
(** ** Vocabulary of the specification *)

(** The stored collection: what a handler reads from the bookings file
    ([GET /api/bookings] lists it). *)
Definition stored (w : world) : list booking :=
  bookings (fst (readBookings w)).

(** A field is missing or empty, in the words of section 4.2. *)
Definition missing_or_empty (v : jsval) : Prop :=
  v = JUndefined \/ v = JString ""%string.

(** A field is missing, [null], [false], zero or the empty string. *)
Definition falsy (v : jsval) : Prop :=
  v = JUndefined \/ v = JNull \/ v = JBool false
  \/ v = JNumber "0"%string \/ v = JString ""%string.

(** A field is non-empty. *)
Definition filled (v : jsval) : Prop := ~ falsy v.

(** The required fields of a booking request. *)
Definition required (b : Body.t) : list jsval :=
  [Body.firstName b; Body.lastName b; Body.email b; Body.phone b;
   Body.service b; Body.date b; Body.time b].

(** All required fields are non-empty. *)
Definition complete (b : Body.t) : Prop := Forall filled (required b).

(** The (date, time) pair a request asks for. *)
Definition requested_slot (b : Body.t) : jsval * jsval :=
  (Body.date b, Body.time b).

(** At most one booking for any (date, time) pair. *)
Definition one_booking_per_slot (l : list booking) : Prop :=
  NoDup (map slot l).

(** A string, a number or a boolean. *)
Definition plain (v : jsval) : bool :=
  match v with
  | JString _ | JNumber _ | JBool _ => true
  | _ => false
  end.

Definition plain_slot (s : jsval * jsval) : bool :=
  plain (fst s) && plain (snd s).

(** At most one booking for any (date, time) pair of strings, numbers or
    booleans. *)
Definition one_booking_per_plain_slot (l : list booking) : Prop :=
  NoDup (filter plain_slot (map slot l)).

(** The slot check of [POST /api/bookings] finds a stored booking with
    the date and the time of the request. *)
Definition taken (d t : jsval) (l : list booking) : bool :=
  existsb (fun booking => strict_eq (date booking) d
                          && strict_eq (time booking) t) l.

(** Some booking of [l] holds the label [t] on the date [d]. *)
Definition booked_on (d : string) (l : list booking) (t : string) : bool :=
  existsb (fun b =>
             match date b, time b with
             | JString d', JString t' => (d' =? d)%string && (t' =? t)%string
             | _, _ => false
             end) l.

(** The availability of section 4.1, in the spec's words: the fixed
    ordered list, less every label present among the bookings whose date
    is [d]. *)
Definition spec_availableSlots (d : string) (l : list booking) : list string :=
  filter (fun t => negb (booked_on d l t)) allTimeSlots.

(** The spec's contract [availableSlots(date)]: the [availableTimes] of
    the reply to [GET /api/available-times?date=d], when there is one. *)
Definition availableSlots (d : string) (w : world) : option (list string) :=
  match body (fst (GET_api_available_times (JString d) w)) with
  | Available _ availableTimes _ => Some availableTimes
  | _ => None
  end.

(** The file cannot be read as a bookings document. *)
Definition broken (f : file) : Prop :=
  f = Missing \/ (exists code, f = Unreadable code)
  \/ (exists raw, f = Contents (Garbage raw)).

(** The same surroundings, with other mail deliveries. *)
Definition with_delivery (e : env) (clinic client : bool) : env :=
  mkEnv (now e) (clock e) (write_error e) (cut_off e) clinic client
        (EMAIL_USER e) (CLINIC_EMAIL e).

(** The requests that change the collection, and a server taking them one
    at a time. *)
Inductive mutation :=
| createBooking (e : env) (b : Body.t)
| delete (e : env) (id_ : string).

Definition handle (m : mutation) : M response :=
  match m with
  | createBooking e b => POST_api_bookings e b
  | delete e id_ => DELETE_api_bookings e id_
  end.

Fixpoint serve (ms : list mutation) (w : world) : world :=
  match ms with
  | [] => w
  | m :: r => serve r (snd (handle m w))
  end.

(** A list without the first of its elements that passes [p]. *)
Fixpoint remove_first {A} (p : A -> bool) (l : list A) : list A :=
  match l with
  | [] => []
  | x :: r => if p x then r else x :: remove_first p r
  end.

(** The test of [DELETE /api/bookings/:id] on a stored booking. *)
Definition has_id (id_ : string) (b : booking) : bool := (id b =? id_)%string.

(** The world with the same console and mails and an empty collection on
    disk. *)
Definition no_bookings (w : world) : world :=
  mkWorld (Contents (Document (mkData []))) (console w) (outbox w).

(** The id of the booking that a request creates, when it creates one: the
    [booking.id] of its 201 reply. *)
Definition created_id (e : env) (b : Body.t) (w : world) : option string :=
  match body (fst (POST_api_bookings e b w)) with
  | Created _ _ c => Some (Confirmation.id c)
  | _ => None
  end.

(** The mail that the transport takes over from a send: none when
    building it threw, or when the transport rejects it. *)
Definition handed_over (delivered : bool) (m : completion mail) : list mail :=
  match m with
  | Normal mailOptions => if delivered then [mailOptions] else []
  | Throw _ => []
  end.

(** Concrete requests and surroundings, after the scenarios of the
    specification (section 8). *)
Module Sample.

(** The bookings file as the server creates it at start-up. *)
Definition fresh : world :=
  mkWorld (Contents (Document (mkData []))) [] [].

Definition at_9 : Body.t :=
  Body.mk (JString "Anna") (JString "Nowak") (JString "anna@example.com")
    (JString "600100200") (JString "Konsultacja") (JString "2025-03-10")
    (JString "09:00") JUndefined (JString "200 zl").

Definition at_10 : Body.t :=
  Body.mk (JString "Jan") (JString "Kowalski") (JString "jan@example.com")
    (JString "600300400") (JString "Terapia") (JString "2025-03-10")
    (JString "10:00") (JString "pierwsza wizyta") JUndefined.

(** The form sent without a phone number. *)
Definition no_phone : Body.t :=
  Body.mk (JString "Anna") (JString "Nowak") (JString "anna@example.com")
    (JString "") (JString "Konsultacja") (JString "2025-03-10")
    (JString "09:00") JUndefined JUndefined.

(** A body with [phone: 0]. *)
Definition phone_zero : Body.t :=
  Body.mk (JString "Anna") (JString "Nowak") (JString "anna@example.com")
    (JNumber "0") (JString "Konsultacja") (JString "2025-03-10")
    (JString "09:00") JUndefined JUndefined.

(** A body with [date: 20250310]. *)
Definition numeric_date : Body.t :=
  Body.mk (JString "Anna") (JString "Nowak") (JString "anna@example.com")
    (JString "600100200") (JString "Konsultacja") (JNumber "20250310")
    (JString "09:00") JUndefined JUndefined.

(** A body with [time: ["09:00"]]. *)
Definition time_in_array : Body.t :=
  Body.mk (JString "Anna") (JString "Nowak") (JString "anna@example.com")
    (JString "600100200") (JString "Konsultacja") (JString "2025-03-10")
    (JArray [JString "09:00"]) JUndefined JUndefined.

(** 2025-03-08T12:00:00.000Z, disk and mail working. *)
Definition noon : env :=
  mkEnv 1741435200000 1741435200000 None None true true None None.

(** One second later. *)
Definition later : env :=
  mkEnv 1741435201000 1741435201000 None None true true None None.

(** The same instant on a read-only file system: the file cannot be
    opened for writing. *)
Definition read_only : env :=
  mkEnv 1741435200000 1741435200000 (Some "EROFS") None true true None None.

(** The collection after Anna's booking. *)
Definition one_booking : world :=
  snd (POST_api_bookings noon at_9 fresh).

(** The collection after two bookings made within one millisecond. *)
Definition same_millisecond : world :=
  serve [createBooking noon at_9; createBooking noon at_10] fresh.

(** A bookings file cut short in the middle of a write. *)
Definition corrupt : world :=
  mkWorld (Contents (Garbage "{ bookings: [")) [] [].

End Sample.
(* ================================================================== *)
(** ** The rest of the server *)

(** The [bookedTimes] of the reply to [GET /api/available-times?date=d],
    when there is one. *)
Definition bookedTimes (d : string) (w : world) : option (list jsval) :=
  match body (fst (GET_api_available_times (JString d) w)) with
  | Available _ _ bookedTimes => Some bookedTimes
  | _ => None
  end.

(** The request asks for a slot that the slot check can tell is taken:
    its date and time are strings, numbers or booleans, and some stored
    booking has that date and that time. *)
Definition slot_taken (b : Body.t) (w : world) : Prop :=
  plain (Body.date b) = true /\ plain (Body.time b) = true
  /\ In (requested_slot b) (map slot (stored w)).

(** The value has a text: converting it to a string does not throw. *)
Definition renders (v : jsval) : Prop := exists s, ToString v = Normal s.

(* ------------------------------------------------------------------ *)
(** *** Start-up: the data directory and the bookings file *)

(** [DATA_DIR] and [BOOKINGS_FILE] on disk. *)
Record volume := mkVolume {
  data_dir : bool;
  bookings_file : file
}.

(** [fs.existsSync(BOOKINGS_FILE)]: an unreadable file exists. *)
Definition fs_existsSync (f : file) : bool :=
  match f with
  | Missing => false
  | _ => true
  end.

(** The two guarded statements that server.js runs when it is loaded.
    [mkdir_error] and [write_error] are the errno of [fs.mkdirSync] and
    [fs.writeFileSync] should they throw; nothing catches them. *)
Definition startup (mkdir_error write_error : option string) (v : volume)
  : completion volume :=
  let made :=
    if negb (data_dir v) then
      match mkdir_error with
      | Some code => Throw (FsError code)
      | None => Normal (mkVolume true (bookings_file v))
      end
    else Normal v in
  match made with
  | Throw err => Throw err
  | Normal v1 =>
      if negb (fs_existsSync (bookings_file v1)) then
        match write_error with
        | Some code => Throw (FsError code)
        | None =>
            Normal (mkVolume (data_dir v1)
                      (Contents (JSON_stringify (mkData []))))
        end
      else Normal v1
  end.

(** The collection that [readBookings] finds on a volume. *)
Definition collection (v : volume) : list booking :=
  stored (mkWorld (bookings_file v) [] []).

(* ------------------------------------------------------------------ *)
(** *** The first version of the server (no process.env) *)

Module Legacy.

Definition emailConfig_auth_user : string := "xgod7x@gmail.com".

Definition clinic_mailOptions (booking : booking) : completion mail :=
  (subject_ <~ ToString (service booking) ;;
   firstName_ <~ ToString (firstName booking) ;;
   lastName_ <~ ToString (lastName booking) ;;
   email_ <~ ToString (email booking) ;;
   phone_ <~ ToString (phone booking) ;;
   service_ <~ ToString (service booking) ;;
   date_ <~ ToString (date booking) ;;
   time_ <~ ToString (time booking) ;;
   price_ <~ ToString (price booking) ;;
   notes_ <~ (if ToBoolean (notes booking)
              then (n <~ ToString (notes booking) ;;
                    Normal ("<p><strong>Notatki:</strong> " ++ n ++ "</p>")%string)
              else Normal "") ;;
   Normal {|
     from := emailConfig_auth_user;
     to := JString "harmonia.sibo@gmail.com";
     subject := ("Nowa rezerwacja: " ++ subject_)%string;
     html := template [
       "<h2>Nowa rezerwacja wizyty</h2>";
       "<p><strong>Pacjent:</strong> " ++ firstName_ ++ " "
         ++ lastName_ ++ "</p>";
       "<p><strong>Email:</strong> " ++ email_ ++ "</p>";
       "<p><strong>Telefon:</strong> " ++ phone_ ++ "</p>";
       "<p><strong>Usługa:</strong> " ++ service_ ++ "</p>";
       "<p><strong>Data:</strong> " ++ date_ ++ "</p>";
       "<p><strong>Godzina:</strong> " ++ time_ ++ "</p>";
       "<p><strong>Cena:</strong> " ++ price_ ++ "</p>";
       notes_;
       "<hr>";
       "<p><small>ID rezerwacji: " ++ id booking ++ "</small></p>"
     ]%string
   |})%completion.

Definition sendClinicNotification (e : env) (booking : booking)
  : M (completion bool) :=
  match clinic_mailOptions booking with
  | Throw err => ret (Throw err)
  | Normal mailOptions =>
      r <- transporter_sendMail (clinic_delivered e) mailOptions ;;
      match r with
      | Normal _ =>
          print (console_log "Clinic notification sent successfully") ;;
          ret (Normal true)
      | Throw _ =>
          print (console_error "Error sending clinic notification:") ;;
          ret (Normal false)
      end
  end.

Definition client_mailOptions (booking : booking) : completion mail :=
  (firstName_ <~ ToString (firstName booking) ;;
   lastName_ <~ ToString (lastName booking) ;;
   service_ <~ ToString (service booking) ;;
   date_ <~ ToString (date booking) ;;
   time_ <~ ToString (time booking) ;;
   price_ <~ ToString (price booking) ;;
   Normal {|
     from := emailConfig_auth_user;
     to := email booking;
     subject := "Potwierdzenie rezerwacji - HARMONIA";
     html := template [
       "<h2>Dziękujemy za rezerwację!</h2>";
       "<p>Szanowny/a " ++ firstName_ ++ " " ++ lastName_ ++ ",</p>";
       "<p>Potwierdzamy Twoją rezerwację:</p>";
       "<ul>";
       "  <li><strong>Usługa:</strong> " ++ service_ ++ "</li>";
       "  <li><strong>Data:</strong> " ++ date_ ++ "</li>";
       "  <li><strong>Godzina:</strong> " ++ time_ ++ "</li>";
       "  <li><strong>Cena:</strong> " ++ price_ ++ "</li>";
       "</ul>";
       "<p><strong>Adres:</strong> ul. Zacisze 16/1, 31-156 Kraków</p>";
       "<p>Prosimy o przybycie 5 minut przed umówioną godziną.</p>";
       "<p>W razie pytań prosimy o kontakt:</p>";
       "<ul>";
       "  <li>Tel: 692 922 926</li>";
       "  <li>Email: harmonia.sibo@gmail.com</li>";
       "</ul>";
       "<hr>";
       "<p><small>Numer rezerwacji: " ++ id booking ++ "</small></p>"
     ]%string
   |})%completion.

Definition sendClientConfirmation (e : env) (booking : booking)
  : M (completion bool) :=
  match client_mailOptions booking with
  | Throw err => ret (Throw err)
  | Normal mailOptions =>
      r <- transporter_sendMail (client_delivered e) mailOptions ;;
      match r with
      | Normal _ =>
          print (console_log "Client confirmation sent successfully") ;;
          ret (Normal true)
      | Throw _ =>
          print (console_error "Error sending client confirmation:") ;;
          ret (Normal false)
      end
  end.

(** [POST /api/bookings] of the first version: the text of the handler is
    the same, the two senders are the ones above. *)
Definition POST_api_bookings (e : env) (b : Body.t) : M response :=
  if negb (ToBoolean (Body.firstName b)) || negb (ToBoolean (Body.lastName b))
     || negb (ToBoolean (Body.email b)) || negb (ToBoolean (Body.phone b))
     || negb (ToBoolean (Body.service b)) || negb (ToBoolean (Body.date b))
     || negb (ToBoolean (Body.time b))
  then
    res_status_json 400 (Error "Wszystkie wymagane pola muszą być wypełnione")
  else
    available <- isTimeSlotAvailable (Body.date b) (Body.time b) ;;
    if negb available then
      res_status_json 409
        (Error "Ten termin jest już zajęty. Proszę wybrać inny.")
    else
      let newBooking := newBooking e b in
      data <- readBookings ;;
      let data := mkData (push (bookings data) newBooking) in
      saved <- saveBookings e data ;;
      if negb saved then
        res_status_json 500 (Error "Błąd podczas zapisywania rezerwacji")
      else
        clinic <- sendClinicNotification e newBooking ;;
        catch clinic "Failed to send clinic notification:" ;;
        client <- sendClientConfirmation e newBooking ;;
        catch client "Failed to send client confirmation:" ;;
        res_status_json 201
          (Created true "Rezerwacja została pomyślnie utworzona"
             {| Confirmation.id := id newBooking;
                Confirmation.date := date newBooking;
                Confirmation.time := time newBooking;
                Confirmation.service := service newBooking |}).

End Legacy.

(* ------------------------------------------------------------------ *)
(** *** Further concrete requests *)

Module Cases.

(** A request for a time that is not one of the eleven labels. *)
Definition at_night : Body.t :=
  Body.mk (JString "Ewa") (JString "Lis") (JString "ewa@example.com")
    (JString "600500600") (JString "Konsultacja") (JString "2025-03-10")
    (JString "23:30") JUndefined JUndefined.

(** Noon on a full disk: the write throws once the file has been opened,
    and leaves the first character of the text behind. *)
Definition full_disk : env :=
  mkEnv 1741435200000 1741435200000 (Some "ENOSPC") (Some "{") true true
    None None.

(** A body with [phone: []]. *)
Definition phone_list : Body.t :=
  Body.mk (JString "Ewa") (JString "Lis") (JString "ewa@example.com")
    (JArray []) (JString "Konsultacja") (JString "2025-03-11")
    (JString "10:00") JUndefined JUndefined.

(** A body whose first name is an object with a property [toString]. *)
Definition odd_name : Body.t :=
  Body.mk (JObject [("toString", JNumber "1")]) (JString "Lis")
    (JString "ewa@example.com") (JString "600500600") (JString "Konsultacja")
    (JString "2025-03-11") (JString "09:00") JUndefined JUndefined.

(** A data directory that does not exist yet. *)
Definition first_run : volume := mkVolume false Missing.

(** A volume holding Anna's booking. *)
Definition in_use : volume := mkVolume true (disk Sample.one_booking).

End Cases.

(** [x] occurs in [s], byte for byte. *)
Definition occurs (x s : string) : Prop :=
  exists pre post, s = (pre ++ x ++ post)%string.

(* ================================================================== *)
(** ** The booking widget (script.js) *)

Module Client.

(** The local calendar fields that a [Date] answers with: [getMonth]
    counts from 0. *)
Record Date := mkDate {
  getFullYear : Z;
  getMonth : Z;
  getDate : Z
}.

(** [String(n).padStart(2, '0')] is [padded 2 n]. *)
Definition formatDateForAPI (date : Date) : string :=
  let year := getFullYear date in
  let month := padded 2 (getMonth date + 1) in
  let day := padded 2 (getDate date) in
  (toString year ++ "-" ++ month ++ "-" ++ day)%string.

(** [API_URL], from [window.location.hostname]. *)
Definition API_URL (hostname : string) : string :=
  if (hostname =? "localhost")%string then "http://localhost:3000" else "".

(** [response.ok]: the status is in 200..299. *)
Definition ok (r : response) : bool :=
  (200 <=? status r) && (status r <=? 299).

(** [data.availableTimes || []] on the parsed body. *)
Definition data_availableTimes (data : json) : list string :=
  match data with
  | Available _ availableTimes _ => availableTimes
  | _ => []
  end.

(** The times returned when the backend cannot be asked. *)
Definition defaultTimes : list string :=
  ["08:00"; "09:00"; "10:00"; "11:00"; "12:00"; "13:00"; "14:00"; "15:00";
   "16:00"; "17:00"; "18:00"]%string.

(** [fetchAvailableTimes(date)].  [fetch] is the network: a URL is
    answered by a response, or the promise rejects.  Returned are the
    times and what was written to the console. *)
Definition fetchAvailableTimes
  (fetch : string -> completion response) (hostname : string) (date : Date)
  : list string * list log :=
  let dateStr := formatDateForAPI date in
  match fetch (API_URL hostname ++ "/api/available-times?date=" ++ dateStr)
  with
  | Normal response =>
      if negb (ok response) then
        (defaultTimes, [console_error "Error fetching available times:"])
      else (data_availableTimes (body response), [])
  | Throw _ =>
      (defaultTimes, [console_error "Error fetching available times:"])
  end.

(* ------------------------------------------------------------------ *)
(** *** String.prototype.trim *)

Definition bytes (l : list nat) : string :=
  fold_right (fun n s => String (ascii_of_nat n) s) "" l.

(** The UTF-8 encodings of the code points that [trim] removes: the
    WhiteSpace and LineTerminator productions of ECMAScript (TAB, LF, VT,
    FF, CR, SP, U+00A0, U+1680, U+2000..U+200A, U+2028, U+2029, U+202F,
    U+205F, U+3000, U+FEFF). *)
Definition whitespace : list string :=
  map bytes
    [[9]; [10]; [11]; [12]; [13]; [32]; [194; 160]; [225; 154; 128];
     [226; 128; 128]; [226; 128; 129]; [226; 128; 130]; [226; 128; 131];
     [226; 128; 132]; [226; 128; 133]; [226; 128; 134]; [226; 128; 135];
     [226; 128; 136]; [226; 128; 137]; [226; 128; 138]; [226; 128; 168];
     [226; 128; 169]; [226; 128; 175]; [226; 129; 159]; [227; 128; 128];
     [239; 187; 191]]%nat.

Fixpoint strip_prefix (p s : string) : option string :=
  match p, s with
  | EmptyString, _ => Some s
  | String a p', String c s' =>
      if Ascii.eqb a c then strip_prefix p' s' else None
  | String _ _, EmptyString => None
  end.

(** The rest of [s] after the first of [ps] that it starts with. *)
Fixpoint strip_any (ps : list string) (s : string) : option string :=
  match ps with
  | [] => None
  | p :: r =>
      match strip_prefix p s with
      | Some rest => Some rest
      | None => strip_any r s
      end
  end.

Fixpoint strip_all (fuel : nat) (ps : list string) (s : string) : string :=
  match fuel with
  | O => s
  | S k =>
      match strip_any ps s with
      | Some rest => strip_all k ps rest
      | None => s
      end
  end.

Fixpoint reverse (s : string) : string :=
  match s with
  | EmptyString => EmptyString
  | String c r => (reverse r ++ String c "")%string
  end.

Definition trimStart (s : string) : string :=
  strip_all (String.length s) whitespace s.

Definition trimEnd (s : string) : string :=
  reverse (strip_all (String.length s) (map reverse whitespace) (reverse s)).

Definition trim (s : string) : string := trimEnd (trimStart s).

(* ------------------------------------------------------------------ *)
(** *** The form and its submission *)

Record service := mkService {
  name : string;
  price : string;
  duration : string
}.

Definition services : list (string * service) :=
  [
   ("sibo", mkService "Badanie oddechowe SIBO" "350 z≈Ç" "180 min");
   ("consultation", mkService "Konsultacja dietetyczna" "150 z≈Ç" "90 min");
   ("followup", mkService "Wizyta kontrolna" "100 z≈Ç" "45 min");
   ("sports", mkService "≈ªywienie sportowc√≥w" "180 z≈Ç" "90 min");
   ("sibo-test", mkService "Test wodorowo-metanowy w kierunku SIBO / IMO" "300 z≈Ç" "180 min");
   ("sugar-intolerance", mkService "Test wodorowy w kierunku nietolerancji cukr√≥w" "160 z≈Ç" "120 min");
   ("consultation-detailed", mkService "Konsultacja dietetyczna - szczeg√≥≈Çowo" "180 z≈Ç" "90 min");
   ("consultation-followup", mkService "Konsultacja dietetyczna kontrolna" "150 z≈Ç" "45 min");
   ("monthly-package", mkService "Pakiet wsp√≥≈Çpracy na miesiƒÖc" "450 z≈Ç" "90 min");
   ("meal-plan-2weeks", mkService "Plan ≈ºywieniowy na dwa tygodnie" "250 z≈Ç" "60 min");
   ("meal-plan-1week", mkService "Plan ≈ºywieniowy na tydzie≈Ñ" "150 z≈Ç" "60 min")
  ]%string.

(** The property name that a selection gives when it indexes an
    object. *)
Definition key_of (v : jsstring) : string :=
  match v with
  | Some s => s
  | None => "null"
  end.

(** [services[key]], for the keys the object itself has. *)
Fixpoint lookup (key : string) (l : list (string * service)) : option service :=
  match l with
  | [] => None
  | (k, v) :: r => if (k =? key)%string then Some v else lookup key r
  end.

(** The state that the widget keeps: the values of the four required
    inputs and of the notes, and the three selections ([None] is
    [null]). *)
Record form := mkForm {
  firstName_value : string;
  lastName_value : string;
  email_value : string;
  phone_value : string;
  notes_value : string;
  selectedService : jsstring;
  selectedDate : option Date;
  selectedTime : jsstring
}.

(** [checkFormValidity], with the four inputs and the button on the page:
    the truth value of [valid]; the submit button is disabled when it is
    false. *)
Definition checkFormValidity (f : form) : bool :=
  truthy (Some (trim (firstName_value f)))
  && truthy (Some (trim (lastName_value f)))
  && truthy (Some (trim (email_value f)))
  && truthy (Some (trim (phone_value f)))
  && truthy (selectedService f)
  && (match selectedDate f with Some _ => true | None => false end)
  && truthy (selectedTime f).

(** A selection as a JSON value: [null] while nothing is selected. *)
Definition selection (v : jsstring) : jsval :=
  match v with
  | Some s => JString s
  | None => JNull
  end.

(** The body that the submit handler posts to [/api/bookings]; [None]
    when it posts nothing (a selection is missing, or the service is not
    in the catalogue and reading [svc.name] throws). *)
Definition submitted (f : form) : option Body.t :=
  if negb (truthy (selectedService f))
     || negb (match selectedDate f with Some _ => true | None => false end)
     || negb (truthy (selectedTime f))
  then None
  else
    match lookup (key_of (selectedService f)) services, selectedDate f with
    | Some svc, Some date_ =>
        Some (Body.mk (JString (firstName_value f))
                (JString (lastName_value f)) (JString (email_value f))
                (JString (phone_value f)) (JString (name svc))
                (JString (formatDateForAPI date_))
                (selection (selectedTime f)) (JString (notes_value f))
                (JString (price svc)))
    | _, _ => None
    end.

(* ------------------------------------------------------------------ *)
(** *** durationToMinutes *)

Definition is_digit (c : ascii) : bool :=
  (48 <=? nat_of_ascii c)%nat && (nat_of_ascii c <=? 57)%nat.

(** The string from its first decimal digit on. *)
Fixpoint from_digit (s : string) : string :=
  match s with
  | EmptyString => EmptyString
  | String c r => if is_digit c then s else from_digit r
  end.

(** The decimal digits that a string starts with. *)
Fixpoint leading_digits (s : string) : string :=
  match s with
  | EmptyString => EmptyString
  | String c r => if is_digit c then String c (leading_digits r) else ""
  end.

(** [duration.match(/(\d+)/)]: the first run of digits, if there is a
    digit. *)
Definition match_digits (s : string) : option string :=
  match from_digit s with
  | EmptyString => None
  | r => Some (leading_digits r)
  end.

(** [parseInt(digits, 10)] on a run of digits, as the exact integer
    (JavaScript rounds it to a double above 2^53). *)
Fixpoint parseInt_from (acc : Z) (digits : string) : Z :=
  match digits with
  | EmptyString => acc
  | String c r => parseInt_from (10 * acc + Z.of_nat (nat_of_ascii c - 48)) r
  end.

Definition parseInt (digits : string) : Z := parseInt_from 0 digits.

Definition durationToMinutes (duration : string) : Z :=
  match match_digits duration with
  | Some m => parseInt m
  | None => 60
  end.

(** Strings of exactly two, and of exactly four, decimal digits. *)
Definition two_digits (s : string) : bool :=
  match s with
  | String a (String b EmptyString) => is_digit a && is_digit b
  | _ => false
  end.

Definition four_digits (s : string) : bool :=
  match s with
  | String a (String b (String c (String d EmptyString))) =>
      is_digit a && is_digit b && is_digit c
      && is_digit d
  | _ => false
  end.

(* ------------------------------------------------------------------ *)
(** *** ScrollLock *)

(** The two inline style properties of [document.documentElement] that
    the lock touches. *)
Record style := mkStyle {
  overflow : string;
  paddingRight : string
}.

Record ScrollLock := mkScrollLock {
  lockCount : Z;
  original : style;
  documentElement_style : style
}.

(** [ScrollLock.lock()]; [sw] is what [getScrollbarWidth()] measures. *)
Definition lock (sw : Z) (s : ScrollLock) : ScrollLock :=
  let lockCount := lockCount s + 1 in
  if lockCount >? 1 then
    mkScrollLock lockCount (original s) (documentElement_style s)
  else
    let original := documentElement_style s in
    mkScrollLock lockCount original
      (mkStyle "hidden"
         (if sw >? 0 then (toString sw ++ "px")%string
          else paddingRight (documentElement_style s))).

(** [ScrollLock.unlock()]; [x || ''] on a string is that string. *)
Definition unlock (s : ScrollLock) : ScrollLock :=
  let lockCount := Z.max 0 (lockCount s - 1) in
  if lockCount >? 0 then
    mkScrollLock lockCount (original s) (documentElement_style s)
  else
    mkScrollLock lockCount (original s)
      (mkStyle (or_else (Some (overflow (original s))) "")
         (or_else (Some (paddingRight (original s))) "")).

Inductive lock_call :=
| Lock (sw : Z)
| Unlock.

Definition call (c : lock_call) (s : ScrollLock) : ScrollLock :=
  match c with
  | Lock sw => lock sw s
  | Unlock => unlock s
  end.

Definition calls (cs : list lock_call) (s : ScrollLock) : ScrollLock :=
  fold_left (fun s c => call c s) cs s.

(** The lock as the script creates it, on a page with inline style
    [page]. *)
Definition unlocked (page : style) : ScrollLock :=
  mkScrollLock 0 (mkStyle "" "") page.

(** Every unlock answers an earlier lock: the calls never take the
    count below its start. *)
Fixpoint paired_from (depth : nat) (cs : list lock_call) : bool :=
  match cs with
  | [] => true
  | Lock _ :: r => paired_from (S depth) r
  | Unlock :: r =>
      match depth with
      | O => false
      | S d => paired_from d r
      end
  end.

(** The locks still open after the calls. *)
Fixpoint depth_after (depth : nat) (cs : list lock_call) : nat :=
  match cs with
  | [] => depth
  | Lock _ :: r => depth_after (S depth) r
  | Unlock :: r => depth_after (Nat.pred depth) r
  end.

(** What holds of the lock while the calls are paired: the count is the
    number of open locks; with none open the page has its own style,
    otherwise that style is remembered and the overflow is hidden. *)
Definition lock_state (page : style) (depth : nat)
  (s : ScrollLock) : Prop :=
  lockCount s = Z.of_nat depth
  /\ (depth = 0%nat -> documentElement_style s = page)
  /\ (depth <> 0%nat ->
      original s = page
      /\ overflow (documentElement_style s) = "hidden"%string).

(* ------------------------------------------------------------------ *)
(** *** rafThrottle *)

Section Throttle.

(** The arguments of a call of the throttled function, and whether [fn]
    throws when it is run on them. *)
Variable args : Type.
Variable throws : args -> bool.

(** What happens to a throttled function: it is called, or the browser
    runs the animation-frame callbacks. *)
Inductive event :=
| Called (a : args)
| Frame.

(** [ticking], and the callback waiting for the frame, by the arguments
    it closes over. *)
Record throttle := mkThrottle {
  ticking : bool;
  requested : option args
}.

(** One event; the result lists the calls of [fn] that it causes.  The
    frame callback runs [fn(...args)] and then sets [ticking] to false:
    when [fn] throws, the assignment is not reached. *)
Definition step (ev : event) (t : throttle) : list args * throttle :=
  match ev with
  | Called a =>
      if ticking t then ([], t)
      else ([], mkThrottle true (Some a))
  | Frame =>
      match requested t with
      | Some a =>
          if throws a then ([a], mkThrottle (ticking t) None)
          else ([a], mkThrottle false None)
      | None => ([], t)
      end
  end.

Fixpoint run (evs : list event) (t : throttle) : list args * throttle :=
  match evs with
  | [] => ([], t)
  | ev :: r =>
      let (out, t') := step ev t in
      let (outs, t'') := run r t' in
      ((out ++ outs)%list, t'')
  end.

(** [rafThrottle(fn)] as returned: not ticking, nothing requested. *)
Definition rafThrottle : throttle := mkThrottle false None.

(** A burst of calls, then a frame. *)
Definition burst (calls : list args) : list event :=
  (map Called calls ++ [Frame])%list.

(** The throttle after [fn] has thrown: ticking, with no callback
    waiting. *)
Definition stuck : throttle := mkThrottle true None.

End Throttle.

End Client.

(** Forms as a visitor leaves them. *)
Module Forms.

Definition filled_in : Client.form :=
  Client.mkForm " Anna" "Nowak" "anna@example.com" "600 100 200" ""
    (Some "followup") (Some (Client.mkDate 2025 2 10)) (Some "09:00").

(** A resize handler that throws on a negative width. *)
Definition negative (width : Z) : bool := width <? 0.

End Forms.


(* ================================================================== *)
(** ** Basic facts *)

Lemma ToBoolean_falsy v : ToBoolean v = false <-> falsy v.
Proof.
  unfold falsy. destruct v as [| |b|repr|s|items|properties]; cbn.
  - tauto.
  - tauto.
  - destruct b; split; try discriminate; intuition congruence.
  - rewrite negb_false_iff, String.eqb_eq. split.
    + intros ->. tauto.
    + intros [H|[H|[H|[H|H]]]]; congruence.
  - rewrite negb_false_iff, String.eqb_eq. split.
    + intros ->. tauto.
    + intros [H|[H|[H|[H|H]]]]; congruence.
  - split; [discriminate|]. intros [H|[H|[H|[H|H]]]]; discriminate.
  - split; [discriminate|]. intros [H|[H|[H|[H|H]]]]; discriminate.
Qed.

Lemma ToBoolean_filled v : ToBoolean v = true <-> filled v.
Proof.
  unfold filled. rewrite <- ToBoolean_falsy.
  now destruct (ToBoolean v).
Qed.

Lemma missing_or_empty_falsy v : missing_or_empty v -> falsy v.
Proof. unfold falsy. intros [->| ->]; tauto. Qed.

(** [===] against a value holds only between equal values, and holds
    between equal values that are no array and no object. *)
Lemma strict_eq_true a b : strict_eq a b = true -> a = b.
Proof.
  destruct a, b; cbn; try discriminate; try reflexivity.
  - intros H. f_equal. now apply Bool.eqb_prop.
  - intros H. f_equal. now apply String.eqb_eq.
  - intros H. f_equal. now apply String.eqb_eq.
Qed.

Lemma strict_eq_plain a : plain a = true -> strict_eq a a = true.
Proof.
  destruct a; cbn; try discriminate; intros _.
  - apply Bool.eqb_reflx.
  - apply String.eqb_refl.
  - apply String.eqb_refl.
Qed.

Lemma strict_eq_reference a b : strict_eq a b = true -> ToBoolean a = true -> plain a = true.
Proof. destruct a, b; cbn; congruence. Qed.

Lemma strict_eq_string v s :
  strict_eq v (JString s) = true <-> v = JString s.
Proof.
  split; [apply strict_eq_true|].
  intros ->. cbn. apply String.eqb_refl.
Qed.

(** Reading back what was read back changes nothing. *)
Lemma reread_idempotent v : reread (reread v) = reread v.
Proof.
  induction v as [| |b|repr|s|items IH|properties IH] using jsval_structural;
    cbn; try reflexivity.
  - now destruct (finite repr) eqn:H; cbn; rewrite ?H.
  - f_equal. rewrite map_map. apply map_ext_Forall.
    exact IH.
  - f_equal. rewrite map_map. apply map_ext_Forall.
    eapply Forall_impl; [|exact IH].
    intros [key x]; cbn. now intros ->.
Qed.

Lemma reread_booking_idempotent b :
  reread_booking (reread_booking b) = reread_booking b.
Proof.
  unfold reread_booking. cbn. now rewrite !reread_idempotent.
Qed.

(** A string, a number or a boolean that was read back was stored as it
    is. *)
Lemma plain_reread v : plain (reread v) = true -> reread v = v.
Proof.
  destruct v; cbn; try discriminate; try reflexivity.
  now destruct (finite repr).
Qed.

(** The disk behind [stored]. *)
Lemma stored_disk f c o :
  stored (mkWorld f c o) =
  match f with
  | Contents (Document d) => map reread_booking (bookings d)
  | _ => []
  end.
Proof. now destruct f as [|code|[d|raw]]. Qed.

Lemma stored_depends_on_disk w w' : disk w = disk w' -> stored w = stored w'.
Proof.
  destruct w as [f c o], w' as [f' c' o']; simpl; intros ->.
  now rewrite !stored_disk.
Qed.

Lemma stored_of_document w l :
  disk w = Contents (Document (mkData l)) -> stored w = map reread_booking l.
Proof.
  destruct w as [f c o]; cbn. intros ->. now rewrite stored_disk.
Qed.

Lemma stored_of_garbage w raw :
  disk w = Contents (Garbage raw) -> stored w = [].
Proof.
  destruct w as [f c o]; cbn. intros ->. now rewrite stored_disk.
Qed.

(** The stored collection is as the file gives it back. *)
Lemma stored_reread w : Forall (fun x => reread_booking x = x) (stored w).
Proof.
  destruct w as [f c o]. rewrite stored_disk.
  destruct f as [|code|[d|raw]]; try constructor.
  apply Forall_forall. intros x Hx.
  apply in_map_iff in Hx as (y & <- & _). apply reread_booking_idempotent.
Qed.

Lemma map_fixed {A} (f : A -> A) l :
  Forall (fun x => f x = x) l -> map f l = l.
Proof.
  induction 1 as [|x l Hx _ IH]; cbn; [reflexivity|]. now rewrite Hx, IH.
Qed.

Lemma stored_after_push w w' x :
  disk w' = Contents (Document (mkData (stored w ++ [x]))) ->
  stored w' = (stored w ++ [reread_booking x])%list.
Proof.
  intros H. rewrite (stored_of_document _ _ H), map_app.
  now rewrite (map_fixed _ _ (stored_reread w)).
Qed.

Lemma stored_map_reread w : map reread_booking (stored w) = stored w.
Proof. apply map_fixed, stored_reread. Qed.

(** The times of stored bookings are as the file gives them back. *)
Lemma stored_times_reread w p :
  map reread (map (fun booking => time booking) (filter p (stored w)))
  = map (fun booking => time booking) (filter p (stored w)).
Proof.
  rewrite map_map. apply map_ext_in. intros x Hx.
  apply filter_In in Hx as [Hx _].
  pose proof (stored_reread w) as H. rewrite Forall_forall in H.
  exact (f_equal time (H x Hx)).
Qed.

Lemma readBookings_value w : fst (readBookings w) = mkData (stored w).
Proof.
  unfold stored. now destruct (fst (readBookings w)).
Qed.

Lemma readBookings_disk w : disk (snd (readBookings w)) = disk w.
Proof. destruct w as [[|code|[d|raw]] c o]; reflexivity. Qed.

Lemma readBookings_outbox w : outbox (snd (readBookings w)) = outbox w.
Proof. destruct w as [[|code|[d|raw]] c o]; reflexivity. Qed.

Lemma readBookings_nonempty w :
  stored w <> [] -> readBookings w = (mkData (stored w), w).
Proof.
  destruct w as [[|code|[[l]|raw]] c o]; unfold stored; cbn; congruence.
Qed.

Lemma bind_run {A B} (m : M A) (k : A -> M B) w :
  bind m k w = k (fst (m w)) (snd (m w)).
Proof. unfold bind. now destruct (m w). Qed.

(* ================================================================== *)
(** ** Availability *)

Section Availability.

Variable d : string.

(** Looking a label up among the times booked on [d] is asking whether
    some booking holds ([d], label). *)
Lemma includes_bookedTimes l t :
  includes
    (map (fun booking => time booking)
       (filter (fun booking => strict_eq (date booking) (JString d)) l))
    (JString t)
  = booked_on d l t.
Proof.
  unfold includes, booked_on.
  induction l as [|b l IH]; simpl; [reflexivity|].
  destruct (date b) as [| |x|x|d'|x|x]; cbn; try (rewrite IH; now destruct (time b)).
  destruct (d' =? d)%string; cbn; rewrite IH; [|now destruct (time b)].
  now destruct (time b).
Qed.

Lemma booked_on_iff l t :
  booked_on d l t = true <->
  exists b, In b l /\ date b = JString d /\ time b = JString t.
Proof.
  unfold booked_on. rewrite existsb_exists.
  split; intros (b & Hb & H); exists b; split; auto.
  - destruct (date b); try discriminate. destruct (time b); try discriminate.
    apply andb_true_iff in H. rewrite !String.eqb_eq in H.
    destruct H as [-> ->]. auto.
  - destruct H as [-> ->]. now rewrite !String.eqb_refl.
Qed.

Lemma spec_availableSlots_In l t :
  In t (spec_availableSlots d l) <->
  In t allTimeSlots
  /\ ~ exists b, In b l /\ date b = JString d /\ time b = JString t.
Proof.
  unfold spec_availableSlots. rewrite filter_In, negb_true_iff.
  rewrite <- booked_on_iff, not_true_iff_false. reflexivity.
Qed.

Lemma spec_availableSlots_free l :
  (forall b, In b l -> date b <> JString d) ->
  spec_availableSlots d l = allTimeSlots.
Proof.
  intros Hfree. unfold spec_availableSlots.
  assert (Hno : forall t, negb (booked_on d l t) = true).
  { intros t. apply negb_true_iff, not_true_iff_false.
    rewrite booked_on_iff. intros (b & Hb & Hd & _). now apply (Hfree b). }
  induction allTimeSlots as [|t r IH]; simpl; [reflexivity|].
  now rewrite Hno, IH.
Qed.

(** The reply of the route to a non-empty date. *)
Lemma GET_api_available_times_reply w :
  d <> ""%string ->
  fst (GET_api_available_times (JString d) w) =
  mkResponse 200
    (Available (JString d) (spec_availableSlots d (stored w))
       (map (fun booking => time booking)
          (filter (fun booking => strict_eq (date booking) (JString d))
             (stored w)))).
Proof.
  intros Hd. unfold GET_api_available_times.
  assert (Ht : ToBoolean (JString d) = true).
  { cbn. now apply negb_true_iff, String.eqb_neq. }
  rewrite Ht. cbn [negb].
  rewrite bind_run, readBookings_value.
  unfold res_json, res_status_json, ret. cbn [fst bookings sent reread].
  rewrite stored_times_reread.
  unfold spec_availableSlots. f_equal. f_equal.
  apply filter_ext. intros t. now rewrite includes_bookedTimes.
Qed.

End Availability.

(* ================================================================== *)
(** ** The booking transaction *)

(** The guard of [POST /api/bookings] fires exactly when some required
    field is falsy. *)
Lemma guard_required b :
  negb (ToBoolean (Body.firstName b)) || negb (ToBoolean (Body.lastName b))
  || negb (ToBoolean (Body.email b)) || negb (ToBoolean (Body.phone b))
  || negb (ToBoolean (Body.service b)) || negb (ToBoolean (Body.date b))
  || negb (ToBoolean (Body.time b))
  = negb (forallb ToBoolean (required b)).
Proof.
  unfold required. cbn [forallb].
  repeat (destruct (ToBoolean _); cbn [negb orb andb]; try reflexivity).
Qed.

Lemma required_complete b :
  forallb ToBoolean (required b) = true <-> complete b.
Proof.
  unfold complete. rewrite forallb_forall, Forall_forall.
  split; intros H v Hv; apply ToBoolean_filled; auto.
Qed.

Lemma required_incomplete b :
  forallb ToBoolean (required b) = false <-> Exists falsy (required b).
Proof.
  rewrite Exists_exists. split.
  - intros H. induction (required b) as [|v r IH]; [discriminate|].
    cbn [forallb] in H. apply andb_false_iff in H as [H|H].
    + exists v. split; [now left|]. now apply ToBoolean_falsy.
    + destruct (IH H) as (x & Hx & Hm). exists x. split; [now right|auto].
  - intros (v & Hv & Hm). apply not_true_iff_false. intros Hall.
    rewrite forallb_forall in Hall. specialize (Hall v Hv).
    apply ToBoolean_falsy in Hm. congruence.
Qed.

Lemma complete_date b : complete b -> ToBoolean (Body.date b) = true.
Proof.
  intros H. apply required_complete in H. rewrite forallb_forall in H.
  apply H. cbn. tauto.
Qed.

Lemma complete_time b : complete b -> ToBoolean (Body.time b) = true.
Proof.
  intros H. apply required_complete in H. rewrite forallb_forall in H.
  apply H. cbn. tauto.
Qed.

Section Slot.

Variables d t : jsval.

Lemma find_slot l :
  match
    find (fun booking => strict_eq (date booking) d
                         && strict_eq (time booking) t) l
  with
  | Some _ => false
  | None => true
  end
  = negb (taken d t l).
Proof.
  unfold taken.
  induction l as [|b l IH]; cbn; [reflexivity|].
  now destruct (strict_eq (date b) d && strict_eq (time b) t).
Qed.

Lemma taken_plain l :
  plain d = true -> plain t = true -> In (d, t) (map slot l) ->
  taken d t l = true.
Proof.
  intros Pd Pt H. apply in_map_iff in H as (b & Hs & Hb).
  unfold taken. apply existsb_exists. exists b. split; [assumption|].
  unfold slot in Hs. injection Hs as -> ->.
  now rewrite !strict_eq_plain.
Qed.

(** The slot check finds a booking exactly when the pair is stored and
    both its members are compared by content. *)
Lemma taken_slot l :
  ToBoolean d = true -> ToBoolean t = true ->
  taken d t l = true <->
  plain d = true /\ plain t = true /\ In (d, t) (map slot l).
Proof.
  intros Hd Ht. unfold taken at 1. rewrite existsb_exists. split.
  - intros (b & Hb & H). apply andb_true_iff in H as [H1 H2].
    pose proof (strict_eq_true _ _ H1) as E1.
    pose proof (strict_eq_true _ _ H2) as E2.
    rewrite E1 in H1. rewrite E2 in H2.
    split; [exact (strict_eq_reference _ _ H1 Hd)|].
    split; [exact (strict_eq_reference _ _ H2 Ht)|].
    apply in_map_iff. exists b. unfold slot. now rewrite E1, E2.
  - intros (Pd & Pt & H). apply existsb_exists.
    now apply taken_plain.
Qed.

Lemma free_slot l : ~ In (d, t) (map slot l) -> taken d t l = false.
Proof.
  intros H. apply not_true_iff_false. intros Ht. apply H.
  unfold taken in Ht. apply existsb_exists in Ht as (b & Hb & Hs).
  apply andb_true_iff in Hs as [H1 H2].
  apply strict_eq_true in H1, H2. apply in_map_iff. exists b.
  unfold slot. now rewrite H1, H2.
Qed.

Lemma isTimeSlotAvailable_run w :
  isTimeSlotAvailable d t w
  = (negb (taken d t (stored w)), snd (readBookings w)).
Proof.
  unfold isTimeSlotAvailable. rewrite bind_run, readBookings_value.
  cbn [bookings]. now rewrite find_slot.
Qed.

End Slot.

Lemma saveBookings_run e d w :
  saveBookings e d w
  = match write_error e with
    | Some _ =>
        (false,
         mkWorld (after_failed_write e (disk w))
           (console w ++ [console_error "Error saving bookings:"])
           (outbox w))
    | None => (true, mkWorld (Contents (Document d)) (console w) (outbox w))
    end.
Proof.
  unfold saveBookings, fs_writeFileSync, bind.
  now destruct (write_error e).
Qed.

Lemma saveBookings_outbox e d w :
  outbox (snd (saveBookings e d w)) = outbox w.
Proof. rewrite saveBookings_run. now destruct (write_error e). Qed.

Lemma saveBookings_value e d w :
  fst (saveBookings e d w)
  = match write_error e with Some _ => false | None => true end.
Proof. rewrite saveBookings_run. now destruct (write_error e). Qed.

Lemma catch_disk {A} (settled : completion A) msg w :
  disk (snd (catch settled msg w)) = disk w.
Proof. now destruct settled. Qed.

Lemma catch_outbox {A} (settled : completion A) msg w :
  outbox (snd (catch settled msg w)) = outbox w.
Proof. now destruct settled. Qed.

Lemma sendClinicNotification_disk e booking w :
  disk (snd (sendClinicNotification e booking w)) = disk w.
Proof.
  unfold sendClinicNotification, transporter_sendMail, bind.
  destruct (clinic_mailOptions e booking); [|reflexivity].
  now destruct (clinic_delivered e).
Qed.

Lemma sendClientConfirmation_disk e booking w :
  disk (snd (sendClientConfirmation e booking w)) = disk w.
Proof.
  unfold sendClientConfirmation, transporter_sendMail, bind.
  destruct (client_mailOptions e booking); [|reflexivity].
  now destruct (client_delivered e).
Qed.

Lemma sendClinicNotification_outbox e booking w :
  outbox (snd (sendClinicNotification e booking w))
  = (outbox w
     ++ handed_over (clinic_delivered e) (clinic_mailOptions e booking))%list.
Proof.
  unfold sendClinicNotification, transporter_sendMail, bind, handed_over.
  destruct (clinic_mailOptions e booking);
    [|cbn; now rewrite app_nil_r].
  destruct (clinic_delivered e); cbn [snd outbox print ret];
    [reflexivity|now rewrite app_nil_r].
Qed.

Lemma sendClientConfirmation_outbox e booking w :
  outbox (snd (sendClientConfirmation e booking w))
  = (outbox w
     ++ handed_over (client_delivered e) (client_mailOptions e booking))%list.
Proof.
  unfold sendClientConfirmation, transporter_sendMail, bind, handed_over.
  destruct (client_mailOptions e booking);
    [|cbn; now rewrite app_nil_r].
  destruct (client_delivered e); cbn [snd outbox print ret];
    [reflexivity|now rewrite app_nil_r].
Qed.

Section Transaction.

Variables (e : env) (b : Body.t).

Lemma POST_incomplete w :
  forallb ToBoolean (required b) = false ->
  POST_api_bookings e b w
  = (mkResponse 400 (Error "Wszystkie wymagane pola muszą być wypełnione"),
     w).
Proof.
  intros H. unfold POST_api_bookings. rewrite guard_required, H.
  reflexivity.
Qed.

Lemma POST_taken w :
  forallb ToBoolean (required b) = true ->
  taken (Body.date b) (Body.time b) (stored w) = true ->
  POST_api_bookings e b w
  = (mkResponse 409
       (Error "Ten termin jest już zajęty. Proszę wybrać inny."), w).
Proof.
  intros H Hb. unfold POST_api_bookings. rewrite guard_required, H.
  cbn [negb]. rewrite bind_run, isTimeSlotAvailable_run, Hb.
  cbn [negb fst snd]. rewrite readBookings_nonempty; [reflexivity|].
  intros Hs. rewrite Hs in Hb. discriminate.
Qed.

Lemma POST_free w :
  forallb ToBoolean (required b) = true ->
  taken (Body.date b) (Body.time b) (stored w) = false ->
  fst (POST_api_bookings e b w)
  = match write_error e with
    | Some _ => mkResponse 500 (Error "Błąd podczas zapisywania rezerwacji")
    | None =>
        mkResponse 201
          (Created true "Rezerwacja została pomyślnie utworzona"
             (Confirmation.mk (toString (now e)) (reread (Body.date b))
                (reread (Body.time b)) (reread (Body.service b))))
    end
  /\ disk (snd (POST_api_bookings e b w))
     = match write_error e with
       | Some _ => after_failed_write e (disk w)
       | None => Contents (Document (mkData (stored w ++ [newBooking e b])))
       end.
Proof.
  intros H Hb. unfold POST_api_bookings. rewrite guard_required, H.
  cbn [negb]. rewrite bind_run, isTimeSlotAvailable_run, Hb.
  cbn [negb fst snd].
  rewrite bind_run, readBookings_value.
  rewrite (stored_depends_on_disk _ w (readBookings_disk w)).
  cbn [bookings]. unfold push.
  rewrite bind_run, saveBookings_run, !readBookings_disk.
  destruct (write_error e) as [code|]; cbn [fst snd negb].
  - split; reflexivity.
  - rewrite !bind_run. split; [reflexivity|].
    cbn [snd res_status_json ret].
    now rewrite catch_disk, sendClientConfirmation_disk, catch_disk,
      sendClinicNotification_disk.
Qed.

(** The outbox after a request that gets past validation and the slot
    check. *)
Lemma POST_free_outbox w :
  forallb ToBoolean (required b) = true ->
  taken (Body.date b) (Body.time b) (stored w) = false ->
  outbox (snd (POST_api_bookings e b w))
  = match write_error e with
    | Some _ => outbox w
    | None =>
        (outbox w
         ++ handed_over (clinic_delivered e)
              (clinic_mailOptions e (newBooking e b))
         ++ handed_over (client_delivered e)
              (client_mailOptions e (newBooking e b)))%list
    end.
Proof.
  intros H Hb. unfold POST_api_bookings. rewrite guard_required, H.
  cbn [negb]. rewrite bind_run, isTimeSlotAvailable_run, Hb.
  cbn [negb fst snd]. rewrite bind_run, bind_run, saveBookings_value.
  set (w1 := snd (saveBookings _ _ _)).
  assert (Hw1 : outbox w1 = outbox w).
  { unfold w1. now rewrite saveBookings_outbox, !readBookings_outbox. }
  destruct (write_error e); cbn [negb].
  - exact Hw1.
  - rewrite !bind_run. cbn [snd res_status_json ret].
    rewrite catch_outbox, sendClientConfirmation_outbox, catch_outbox,
      sendClinicNotification_outbox, Hw1.
    now rewrite app_assoc.
Qed.

(** The status of the reply, by the checks of the handler in their
    order. *)
Lemma POST_status w :
  status (fst (POST_api_bookings e b w))
  = if negb (forallb ToBoolean (required b)) then 400
    else if taken (Body.date b) (Body.time b) (stored w) then 409
         else match write_error e with Some _ => 500 | None => 201 end.
Proof.
  destruct (forallb ToBoolean (required b)) eqn:Hreq; cbn [negb].
  - destruct (taken (Body.date b) (Body.time b) (stored w)) eqn:Hb.
    + now rewrite (POST_taken w Hreq Hb).
    + destruct (POST_free w Hreq Hb) as [-> _].
      now destruct (write_error e).
  - now rewrite (POST_incomplete w Hreq).
Qed.

End Transaction.

(* ================================================================== *)
(** ** Deletion *)

Section FindIndex.

Context {A : Type} (p : A -> bool).

Lemma findIndex_from_none l i :
  existsb p l = false -> findIndex_from p l i = -1.
Proof.
  revert i. induction l as [|x l IH]; intros i; cbn; [reflexivity|].
  destruct (p x); cbn; [discriminate|]. apply IH.
Qed.

Lemma findIndex_from_some l i :
  existsb p l = true ->
  exists n, findIndex_from p l i = i + Z.of_nat n
            /\ remove_nth n l = remove_first p l.
Proof.
  revert i. induction l as [|x l IH]; intros i; cbn; [discriminate|].
  destruct (p x); cbn.
  - intros _. exists 0%nat. split; [lia|reflexivity].
  - intros H. destruct (IH (i + 1) H) as (n & Hn & Hr).
    exists (S n). split; [lia|]. cbn. now rewrite Hr.
Qed.

Lemma findIndex_absent l : existsb p l = false -> findIndex p l = -1.
Proof. apply findIndex_from_none. Qed.

Lemma findIndex_present l :
  existsb p l = true ->
  (findIndex p l =? -1) = false
  /\ splice1 (findIndex p l) l = remove_first p l.
Proof.
  intros H. destruct (findIndex_from_some l 0 H) as (n & Hn & Hr).
  unfold findIndex, splice1. rewrite Hn. split.
  - apply Z.eqb_neq. lia.
  - now rewrite Z.add_0_l, Nat2Z.id.
Qed.

Lemma remove_first_In l x : In x (remove_first p l) -> In x l.
Proof.
  induction l as [|y l IH]; cbn; [auto|].
  destruct (p y); cbn; intuition.
Qed.

Lemma remove_first_absent l : existsb p l = false -> remove_first p l = l.
Proof.
  induction l as [|y l IH]; cbn; [reflexivity|].
  destruct (p y); cbn; [discriminate|]. intros H. now rewrite IH.
Qed.

Lemma remove_first_Forall (P : A -> Prop) l :
  Forall P l -> Forall P (remove_first p l).
Proof.
  rewrite !Forall_forall. intros H x Hx. apply H.
  now apply remove_first_In.
Qed.

Lemma remove_first_NoDup {B} (f : A -> B) (q : B -> bool) l :
  NoDup (filter q (map f l)) ->
  NoDup (filter q (map f (remove_first p l))).
Proof.
  induction l as [|y l IH]; cbn; [auto|].
  destruct (p y); cbn.
  - destruct (q (f y)); [|auto]. intros H. now apply NoDup_cons_iff in H.
  - destruct (q (f y)); [|auto]. intros H.
    apply NoDup_cons_iff in H as [Hy Hl].
    apply NoDup_cons; [|auto].
    rewrite filter_In, in_map_iff in *. intros [(x & Hx & Hin) Hq].
    apply Hy. split; [|assumption]. exists x. split; [assumption|].
    now apply remove_first_In.
Qed.

End FindIndex.

Lemma filter_all {A} (l : list A) : filter (fun _ => true) l = l.
Proof. induction l as [|x l IH]; cbn; [reflexivity|now rewrite IH]. Qed.

Lemma has_id_exists id_ l :
  existsb (has_id id_) l = true <-> exists b, In b l /\ id b = id_.
Proof.
  rewrite existsb_exists. unfold has_id.
  split; intros (b & Hb & H); exists b; split; auto; now apply String.eqb_eq.
Qed.

Lemma has_id_none id_ l :
  existsb (has_id id_) l = false <-> forall b, In b l -> id b <> id_.
Proof.
  rewrite <- not_true_iff_false, has_id_exists. split.
  - intros H b Hb Hid. apply H. now exists b.
  - intros H (b & Hb & Hid). now apply (H b).
Qed.

(** With distinct ids, removing the first booking with an id removes the
    only one. *)
Lemma remove_first_id_gone id_ l :
  NoDup (map id l) ->
  forall b, In b (remove_first (has_id id_) l) -> id b <> id_.
Proof.
  induction l as [|y l IH]; cbn; [contradiction|].
  intros H. apply NoDup_cons_iff in H as [Hy Hl].
  unfold has_id at 1. destruct (String.eqb_spec (id y) id_) as [Heq|Hne].
  - intros b Hb Hid. apply Hy. apply in_map_iff. exists b. split; congruence.
  - intros b [<-|Hb]; [assumption|]. now apply IH.
Qed.

Lemma stored_after_remove w w' p :
  disk w' = Contents (Document (mkData (remove_first p (stored w)))) ->
  stored w' = remove_first p (stored w).
Proof.
  intros H. rewrite (stored_of_document _ _ H).
  apply map_fixed, remove_first_Forall, stored_reread.
Qed.

Section Deletion.

Variables (e : env) (id_ : string).

Lemma DELETE_absent w :
  existsb (has_id id_) (stored w) = false ->
  fst (DELETE_api_bookings e id_ w)
  = mkResponse 404 (Error "Rezerwacja nie znaleziona")
  /\ disk (snd (DELETE_api_bookings e id_ w)) = disk w.
Proof.
  intros H. unfold DELETE_api_bookings.
  rewrite bind_run, readBookings_value. cbn [bookings].
  fold (has_id id_). rewrite (findIndex_absent _ _ H).
  cbn [Z.eqb Pos.eqb]. split; [reflexivity|].
  cbn [snd res_status_json ret]. apply readBookings_disk.
Qed.

Lemma DELETE_present w :
  existsb (has_id id_) (stored w) = true ->
  fst (DELETE_api_bookings e id_ w)
  = mkResponse 200 (Deleted true "Rezerwacja została usunięta")
  /\ disk (snd (DELETE_api_bookings e id_ w))
     = match write_error e with
       | Some _ => after_failed_write e (disk w)
       | None =>
           Contents
             (Document (mkData (remove_first (has_id id_) (stored w))))
       end.
Proof.
  intros H. unfold DELETE_api_bookings.
  rewrite bind_run, readBookings_value. cbn [bookings].
  fold (has_id id_).
  destruct (findIndex_present _ _ H) as [-> ->].
  rewrite bind_run, saveBookings_run, readBookings_disk.
  split; [reflexivity|].
  destruct (write_error e); reflexivity.
Qed.

End Deletion.

(** What is stored after a write that threw: the collection as it was,
    or nothing. *)
Lemma stored_after_failed_write e w w' :
  disk w' = after_failed_write e (disk w) ->
  stored w' = match cut_off e with Some _ => [] | None => stored w end.
Proof.
  unfold after_failed_write. destruct (cut_off e) as [raw|]; intros H.
  - exact (stored_of_garbage _ _ H).
  - now apply stored_depends_on_disk.
Qed.

(* ================================================================== *)
(** ** Properties of the specification *)

(** *** Availability (section 4.1) *)

Lemma availableSlots_reply d w :
  d <> ""%string ->
  availableSlots d w = Some (spec_availableSlots d (stored w)).
Proof.
  intros Hd. unfold availableSlots.
  now rewrite (GET_api_available_times_reply d w Hd).
Qed.

(** C1, as stated, fails on the empty date string: the route answers 400
    and no slot list, although no booking is stored for that date. *)
Lemma availableSlots_empty_date :
  fst (GET_api_available_times (JString ""%string) Sample.fresh)
  = mkResponse 400 (Error "Date parameter is required")
  /\ availableSlots "" Sample.fresh
     <> Some (spec_availableSlots "" (stored Sample.fresh)).
Proof.
  split; [reflexivity|]. discriminate.
Qed.

(** C1 (amended): for every non-empty date string and every stored
    collection, [availableSlots] returns the fixed ordered list less every
    label that appears in a stored booking of that date, in the fixed
    order: a label is returned exactly when it is one of the eleven and no
    stored booking holds it on that date; with no booking on the date all
    eleven labels are returned. *)
Theorem availableSlots_nonempty_date (d : string) (w : world) :
  d <> ""%string ->
  availableSlots d w = Some (spec_availableSlots d (stored w))
  /\ (forall t,
        In t (spec_availableSlots d (stored w)) <->
        In t allTimeSlots
        /\ ~ exists b, In b (stored w)
                       /\ date b = JString d /\ time b = JString t)
  /\ ((forall b, In b (stored w) -> date b <> JString d) ->
      availableSlots d w = Some allTimeSlots).
Proof.
  intros Hd. pose proof (availableSlots_reply d w Hd) as Ha.
  split; [exact Ha|]. split.
  - intros t. apply spec_availableSlots_In.
  - intros Hfree. rewrite Ha. f_equal.
    now apply spec_availableSlots_free.
Qed.

Lemma availableSlots_nonempty_date_witness :
  "2025-03-10"%string <> ""%string
  /\ availableSlots "2025-03-10" Sample.one_booking
     = Some ["08:00"; "10:00"; "11:00"; "12:00"; "13:00"; "14:00"; "15:00";
             "16:00"; "17:00"; "18:00"]%string.
Proof.
  assert (H : "2025-03-10"%string <> ""%string) by discriminate.
  split; [exact H|].
  exact (proj1 (availableSlots_nonempty_date "2025-03-10"
                  Sample.one_booking H)).
Defined.

(** *** The booking transaction (section 4.2) *)

Lemma free_slot_not_taken b w :
  ~ In (requested_slot b) (map slot (stored w)) ->
  taken (Body.date b) (Body.time b) (stored w) = false.
Proof. apply free_slot. Qed.

(** A save that fails is reported by [POST /api/bookings]; the collection
    is as it was when the file could not be opened, and lost when the
    write broke off. *)
Lemma createBooking_failed_save e b w code :
  complete b ->
  ~ In (requested_slot b) (map slot (stored w)) ->
  write_error e = Some code ->
  fst (POST_api_bookings e b w)
  = mkResponse 500 (Error "Błąd podczas zapisywania rezerwacji")
  /\ stored (snd (POST_api_bookings e b w))
     = match cut_off e with Some _ => [] | None => stored w end.
Proof.
  intros Hc Hfree He.
  apply required_complete in Hc. apply free_slot_not_taken in Hfree.
  destruct (POST_free e b w Hc Hfree) as [Hr Hd].
  rewrite He in Hr, Hd. split; [exact Hr|].
  now apply stored_after_failed_write.
Qed.




(** C3, as stated, fails for a time that is an array: the request
    [time: ["09:00"]] is stored, and the same request sent again, whose
    (date, time) pair is then that of a stored booking, is answered 201
    and stored a second time. *)
Lemma createBooking_taken_slot_in_array :
  complete Sample.time_in_array
  /\ In (requested_slot Sample.time_in_array)
        (map slot (stored (snd (POST_api_bookings Sample.noon
                                  Sample.time_in_array Sample.fresh))))
  /\ status (fst (POST_api_bookings Sample.later Sample.time_in_array
                    (snd (POST_api_bookings Sample.noon
                            Sample.time_in_array Sample.fresh)))) = 201
  /\ List.length
       (stored (snd (POST_api_bookings Sample.later Sample.time_in_array
                       (snd (POST_api_bookings Sample.noon
                               Sample.time_in_array Sample.fresh)))))
     = 2%nat.
Proof.
  split; [now apply required_complete|].
  split; [now left|]. split; reflexivity.
Qed.

(** C3 (amended): for every request with all required fields non-empty
    whose date and time are strings, numbers or booleans and whose
    (date, time) pair is that of an already stored booking, createBooking
    answers a conflict (409) and leaves the stored collection (indeed the
    whole world) unchanged. *)
Theorem createBooking_taken_slot (e : env) (b : Body.t) (w : world) :
  complete b ->
  plain (Body.date b) = true ->
  plain (Body.time b) = true ->
  In (requested_slot b) (map slot (stored w)) ->
  fst (POST_api_bookings e b w)
  = mkResponse 409 (Error "Ten termin jest już zajęty. Proszę wybrać inny.")
  /\ snd (POST_api_bookings e b w) = w
  /\ stored (snd (POST_api_bookings e b w)) = stored w.
Proof.
  intros Hc Hd Ht Htaken.
  apply required_complete in Hc.
  pose proof (taken_plain _ _ _ Hd Ht Htaken) as Hb.
  rewrite (POST_taken e b w Hc Hb). cbn [fst snd]. auto.
Qed.

Lemma createBooking_taken_slot_witness :
  complete Sample.at_9
  /\ plain (Body.date Sample.at_9) = true
  /\ plain (Body.time Sample.at_9) = true
  /\ In (requested_slot Sample.at_9) (map slot (stored Sample.one_booking))
  /\ status (fst (POST_api_bookings Sample.later Sample.at_9
                    Sample.one_booking)) = 409
  /\ stored (snd (POST_api_bookings Sample.later Sample.at_9
                    Sample.one_booking)) = stored Sample.one_booking.
Proof.
  assert (H1 : complete Sample.at_9) by now apply required_complete.
  assert (H2 : In (requested_slot Sample.at_9)
                  (map slot (stored Sample.one_booking))) by now left.
  split; [exact H1|]. split; [reflexivity|]. split; [reflexivity|].
  split; [exact H2|].
  destruct (createBooking_taken_slot Sample.later Sample.at_9
              Sample.one_booking H1 eq_refl eq_refl H2) as (Hs & _ & Hst).
  split; [exact (f_equal status Hs)|exact Hst].
Defined.

(** The scenarios of section 8: the same slot posted twice in sequence is
    answered 201, then 409; after one booking at 09:00 the date has ten
    available times, 09:00 not among them. *)
Example scenario_post_twice :
  status (fst (POST_api_bookings Sample.noon Sample.at_9 Sample.fresh)) = 201
  /\ status (fst (POST_api_bookings Sample.later Sample.at_9
                     Sample.one_booking)) = 409.
Proof. split; reflexivity. Qed.

Example scenario_ten_slots :
  option_map (@List.length string)
    (availableSlots "2025-03-10" Sample.one_booking) = Some 10%nat
  /\ option_map (existsb (String.eqb "09:00"))
       (availableSlots "2025-03-10" Sample.one_booking) = Some false.
Proof. split; reflexivity. Qed.

(** C5, as stated, fails for a required field that is present and not
    empty but falsy: with [phone: 0] no required field is missing or
    empty, and the request is answered 400. *)
Lemma createBooking_validation_zero :
  Body.phone Sample.phone_zero = JNumber "0"
  /\ ~ Exists missing_or_empty (required Sample.phone_zero)
  /\ status (fst (POST_api_bookings Sample.noon Sample.phone_zero
                    Sample.fresh)) = 400.
Proof.
  split; [reflexivity|]. split; [|reflexivity].
  rewrite Exists_exists. intros (v & Hv & Hm).
  cbn in Hv. unfold missing_or_empty in Hm.
  repeat (destruct Hv as [<-|Hv]; [destruct Hm; discriminate|]).
  contradiction.
Qed.

(** C5 (amended): createBooking answers a validation error (400) if and
    only if at least one of the required fields firstName, lastName,
    email, phone, service, date, time is missing, [null], [false], zero
    or the empty string; in that case the world, and with it the stored
    collection, is unchanged and the outcome is neither a conflict nor a
    server error. *)
Theorem createBooking_validation (e : env) (b : Body.t) (w : world) :
  (status (fst (POST_api_bookings e b w)) = 400 <->
   Exists falsy (required b))
  /\ (Exists falsy (required b) ->
      snd (POST_api_bookings e b w) = w
      /\ stored (snd (POST_api_bookings e b w)) = stored w
      /\ status (fst (POST_api_bookings e b w)) <> 409
      /\ status (fst (POST_api_bookings e b w)) <> 500).
Proof.
  rewrite <- required_incomplete.
  destruct (forallb ToBoolean (required b)) eqn:Hreq.
  - split; [|discriminate]. split; [|discriminate].
    rewrite POST_status, Hreq. cbn [negb].
    destruct (taken _ _ _); [discriminate|].
    destruct (write_error e); discriminate.
  - rewrite (POST_incomplete e b w Hreq). cbn.
    repeat split; auto; discriminate.
Qed.

Lemma createBooking_validation_witness :
  Exists falsy (required Sample.no_phone)
  /\ status (fst (POST_api_bookings Sample.noon Sample.no_phone
                    Sample.fresh)) = 400
  /\ snd (POST_api_bookings Sample.noon Sample.no_phone Sample.fresh)
     = Sample.fresh.
Proof.
  assert (H : Exists falsy (required Sample.no_phone)).
  { apply required_incomplete. reflexivity. }
  destruct (createBooking_validation Sample.noon Sample.no_phone
              Sample.fresh) as [Hiff Hrest].
  split; [exact H|]. split; [exact (proj2 Hiff H)|].
  exact (proj1 (Hrest H)).
Defined.

(** *** One booking per slot (section 3) *)

Lemma createBooking_keeps_slots e b w :
  one_booking_per_plain_slot (stored w) ->
  one_booking_per_plain_slot (stored (snd (POST_api_bookings e b w))).
Proof.
  unfold one_booking_per_plain_slot. intros Hinv.
  destruct (forallb ToBoolean (required b)) eqn:Hreq.
  - destruct (taken (Body.date b) (Body.time b) (stored w)) eqn:Hb.
    + now rewrite (POST_taken e b w Hreq Hb).
    + destruct (POST_free e b w Hreq Hb) as [_ Hd].
      destruct (write_error e).
      * rewrite (stored_after_failed_write e w _ Hd).
        destruct (cut_off e); [constructor|assumption].
      * rewrite (stored_after_push _ _ _ Hd), map_app, filter_app.
        cbn [map filter].
        destruct (plain_slot (slot (reread_booking (newBooking e b))))
          eqn:Hp; [|now rewrite app_nil_r].
        apply NoDup_app; [assumption|repeat constructor; intros []|].
        intros s Hs [<-|[]].
        apply filter_In in Hs as [Hs _].
        change (slot (reread_booking (newBooking e b)))
          with (reread (Body.date b), reread (Body.time b)) in Hp, Hs.
        unfold plain_slot in Hp. cbn [fst snd] in Hp.
        apply andb_true_iff in Hp as [Pd Pt].
        pose proof (plain_reread _ Pd) as Ed.
        pose proof (plain_reread _ Pt) as Et.
        rewrite Ed in Pd, Hs. rewrite Et in Pt, Hs.
        pose proof (taken_plain _ _ _ Pd Pt Hs). congruence.
  - now rewrite (POST_incomplete e b w Hreq).
Qed.

Lemma delete_keeps_slots e id_ w :
  one_booking_per_plain_slot (stored w) ->
  one_booking_per_plain_slot (stored (snd (DELETE_api_bookings e id_ w))).
Proof.
  unfold one_booking_per_plain_slot. intros Hinv.
  destruct (existsb (has_id id_) (stored w)) eqn:Hid.
  - destruct (DELETE_present e id_ w Hid) as [_ Hd].
    destruct (write_error e).
    + rewrite (stored_after_failed_write e w _ Hd).
      destruct (cut_off e); [constructor|assumption].
    + rewrite (stored_after_remove _ _ _ Hd). now apply remove_first_NoDup.
  - destruct (DELETE_absent e id_ w Hid) as [_ Hd].
    now rewrite (stored_depends_on_disk _ _ Hd).
Qed.

(** C4, as stated, fails for a time that is an array: from the empty
    collection, the request [time: ["09:00"]] served twice leaves two
    stored bookings with the same (date, time) pair. *)
Lemma serve_time_in_array_twice :
  one_booking_per_slot (stored Sample.fresh)
  /\ map slot
       (stored (serve [createBooking Sample.noon Sample.time_in_array;
                       createBooking Sample.later Sample.time_in_array]
                  Sample.fresh))
     = [(JString "2025-03-10", JArray [JString "09:00"]);
        (JString "2025-03-10", JArray [JString "09:00"])]
  /\ ~ one_booking_per_slot
         (stored (serve [createBooking Sample.noon Sample.time_in_array;
                         createBooking Sample.later Sample.time_in_array]
                    Sample.fresh)).
Proof.
  split; [constructor|]. split; [reflexivity|].
  unfold one_booking_per_slot. intros H.
  apply NoDup_cons_iff in H as [H _]. apply H. now left.
Qed.

(** C4 (amended): starting from any stored collection in which every
    (date, time) pair of strings, numbers or booleans occurs at most
    once, every sequence of createBooking and delete requests, served one
    at a time, leaves a stored collection in which every such pair occurs
    at most once. *)
Theorem serve_one_booking_per_slot (ms : list mutation) (w : world) :
  one_booking_per_plain_slot (stored w) ->
  one_booking_per_plain_slot (stored (serve ms w)).
Proof.
  revert w. induction ms as [|m ms IH]; intros w Hinv; cbn [serve].
  - exact Hinv.
  - apply IH. destruct m as [e b|e id_]; cbn [handle].
    + now apply createBooking_keeps_slots.
    + now apply delete_keeps_slots.
Qed.

Lemma serve_one_booking_per_slot_witness :
  one_booking_per_plain_slot (stored Sample.fresh)
  /\ one_booking_per_plain_slot
       (stored
          (serve [createBooking Sample.noon Sample.at_9;
                  createBooking Sample.later Sample.at_9;
                  createBooking Sample.later Sample.at_10;
                  delete Sample.later "1741435200000"] Sample.fresh)).
Proof.
  assert (H : one_booking_per_plain_slot (stored Sample.fresh))
    by constructor.
  split; [exact H|].
  exact (serve_one_booking_per_slot _ Sample.fresh H).
Defined.

(** On collections of bookings whose dates and times are strings the two
    invariants are one. *)
Lemma one_booking_per_plain_slot_strings l :
  Forall (fun s => plain_slot s = true) (map slot l) ->
  one_booking_per_plain_slot l <-> one_booking_per_slot l.
Proof.
  unfold one_booking_per_plain_slot, one_booking_per_slot. intros H.
  assert (E : filter plain_slot (map slot l) = map slot l).
  { induction (map slot l) as [|s r IH]; cbn; [reflexivity|].
    apply Forall_cons_iff in H as [-> H]. now rewrite IH. }
  now rewrite E.
Qed.

(** *** Deletion and failed saves (sections 6 and 7) *)

(** C6 fails on the code: [DELETE /api/bookings/:id] drops the result of
    [saveBookings].  On a read-only file system the deletion of a stored
    booking is answered 200 with success status, and the booking stays
    stored. *)
Theorem delete_failed_save_reports_success :
  fst (DELETE_api_bookings Sample.read_only "1741435200000"
         Sample.one_booking)
  = mkResponse 200 (Deleted true "Rezerwacja została usunięta")
  /\ stored (snd (DELETE_api_bookings Sample.read_only "1741435200000"
                    Sample.one_booking))
     = [newBooking Sample.noon Sample.at_9]
  /\ stored Sample.one_booking = [newBooking Sample.noon Sample.at_9].
Proof.
  repeat split; reflexivity.
Qed.

(** C7, as stated, fails when two stored bookings share the id: both were
    created within one millisecond; deleting by that id answers 200, and
    the second booking, which has that id, is still listed. *)
Lemma delete_shared_id_still_listed :
  stored Sample.same_millisecond
  = [newBooking Sample.noon Sample.at_9; newBooking Sample.noon Sample.at_10]
  /\ id (newBooking Sample.noon Sample.at_10) = "1741435200000"%string
  /\ status (fst (DELETE_api_bookings Sample.later "1741435200000"
                    Sample.same_millisecond)) = 200
  /\ fst (GET_api_bookings
            (snd (DELETE_api_bookings Sample.later "1741435200000"
                    Sample.same_millisecond)))
     = mkResponse 200 (Listing [newBooking Sample.noon Sample.at_10]).
Proof.
  repeat split; reflexivity.
Qed.

Lemma GET_api_bookings_reply w :
  fst (GET_api_bookings w) = mkResponse 200 (Listing (stored w)).
Proof.
  unfold GET_api_bookings. rewrite bind_run, readBookings_value.
  cbn. now rewrite stored_map_reread.
Qed.

(** C7 (amended): for every id, delete answers not-found (404) and leaves
    the stored collection unchanged when no stored booking has that id;
    when some stored booking has that id it answers success (200) and,
    where the save succeeds, the first stored booking with that id is
    removed and the others are kept in order: that is the next listing,
    and when the stored ids are pairwise distinct no booking with that id
    is in it. *)
Theorem delete_by_id (e : env) (id_ : string) (w : world) :
  ((forall b, In b (stored w) -> id b <> id_) ->
   fst (DELETE_api_bookings e id_ w)
   = mkResponse 404 (Error "Rezerwacja nie znaleziona")
   /\ stored (snd (DELETE_api_bookings e id_ w)) = stored w)
  /\ ((exists b, In b (stored w) /\ id b = id_) ->
      fst (DELETE_api_bookings e id_ w)
      = mkResponse 200 (Deleted true "Rezerwacja została usunięta")
      /\ (write_error e = None ->
          stored (snd (DELETE_api_bookings e id_ w))
          = remove_first (has_id id_) (stored w)
          /\ fst (GET_api_bookings (snd (DELETE_api_bookings e id_ w)))
             = mkResponse 200
                 (Listing (remove_first (has_id id_) (stored w)))
          /\ (NoDup (map id (stored w)) ->
              forall b,
                In b (stored (snd (DELETE_api_bookings e id_ w))) ->
                id b <> id_))).
Proof.
  split.
  - intros Hnone. apply has_id_none in Hnone.
    destruct (DELETE_absent e id_ w Hnone) as [Hr Hd].
    split; [exact Hr|]. now apply stored_depends_on_disk.
  - intros Hsome. apply has_id_exists in Hsome.
    destruct (DELETE_present e id_ w Hsome) as [Hr Hd].
    split; [exact Hr|]. intros He. rewrite He in Hd.
    apply stored_after_remove in Hd.
    split; [exact Hd|]. split.
    + now rewrite GET_api_bookings_reply, Hd.
    + intros Hids b. rewrite Hd. now apply remove_first_id_gone.
Qed.

Lemma delete_by_id_witness :
  (exists b, In b (stored Sample.one_booking) /\ id b = "1741435200000"%string)
  /\ write_error Sample.later = None
  /\ NoDup (map id (stored Sample.one_booking))
  /\ fst (DELETE_api_bookings Sample.later "1741435200000"
            Sample.one_booking)
     = mkResponse 200 (Deleted true "Rezerwacja została usunięta")
  /\ fst (GET_api_bookings
            (snd (DELETE_api_bookings Sample.later "1741435200000"
                    Sample.one_booking)))
     = mkResponse 200 (Listing [])
  /\ (forall b, In b (stored Sample.fresh) -> id b <> "7"%string)
  /\ fst (DELETE_api_bookings Sample.later "7" Sample.fresh)
     = mkResponse 404 (Error "Rezerwacja nie znaleziona").
Proof.
  assert (H1 : exists b, In b (stored Sample.one_booking)
                         /\ id b = "1741435200000"%string).
  { exists (newBooking Sample.noon Sample.at_9). split; [now left|reflexivity]. }
  assert (H2 : write_error Sample.later = None) by reflexivity.
  assert (H3 : NoDup (map id (stored Sample.one_booking))).
  { repeat constructor. intros []. }
  assert (H4 : forall b, In b (stored Sample.fresh) -> id b <> "7"%string).
  { intros b []. }
  destruct (delete_by_id Sample.later "1741435200000" Sample.one_booking)
    as [_ Hpresent].
  destruct (Hpresent H1) as [Hr Hsaved].
  destruct (Hsaved H2) as (_ & Hlist & _).
  destruct (delete_by_id Sample.later "7" Sample.fresh) as [Habsent _].
  split; [exact H1|]. split; [exact H2|]. split; [exact H3|].
  split; [exact Hr|]. split; [exact Hlist|]. split; [exact H4|].
  exact (proj1 (Habsent H4)).
Defined.

(** *** Notifications (sections 4.3 and 5) *)

(** C8: the outcome of createBooking for the caller (status code and
    reply body) and the persisted collection are the same in any two runs
    that differ only in whether the clinic notification and the client
    confirmation are delivered. *)
Theorem createBooking_ignores_mail_outcome
  (e : env) (b : Body.t) (w : world) (clinic client clinic' client' : bool) :
  fst (POST_api_bookings (with_delivery e clinic client) b w)
  = fst (POST_api_bookings (with_delivery e clinic' client') b w)
  /\ disk (snd (POST_api_bookings (with_delivery e clinic client) b w))
     = disk (snd (POST_api_bookings (with_delivery e clinic' client') b w))
  /\ stored (snd (POST_api_bookings (with_delivery e clinic client) b w))
     = stored (snd (POST_api_bookings (with_delivery e clinic' client') b w)).
Proof.
  assert (H : fst (POST_api_bookings (with_delivery e clinic client) b w)
              = fst (POST_api_bookings (with_delivery e clinic' client') b w)
              /\ disk (snd (POST_api_bookings
                              (with_delivery e clinic client) b w))
                 = disk (snd (POST_api_bookings
                                (with_delivery e clinic' client') b w))).
  { destruct (forallb ToBoolean (required b)) eqn:Hreq.
    - destruct (taken (Body.date b) (Body.time b) (stored w)) eqn:Hb.
      + now rewrite !(POST_taken _ b w Hreq Hb).
      + destruct (POST_free (with_delivery e clinic client) b w Hreq Hb)
          as [-> ->].
        destruct (POST_free (with_delivery e clinic' client') b w Hreq Hb)
          as [-> ->].
        split; reflexivity.
    - now rewrite !(POST_incomplete _ b w Hreq). }
  destruct H as [Hr Hd]. repeat split; try assumption.
  now apply stored_depends_on_disk.
Qed.

(** The deliveries do show, in the console and in what the transport took
    over: they are not ignored by the model. *)
Lemma mail_outcome_is_logged :
  console (snd (POST_api_bookings (with_delivery Sample.noon true false)
                  Sample.at_9 Sample.fresh))
  = [console_log "✅ Clinic notification sent successfully";
     console_error "❌ Error sending client confirmation:"]
  /\ console (snd (POST_api_bookings (with_delivery Sample.noon false true)
                     Sample.at_9 Sample.fresh))
     = [console_error "❌ Error sending clinic notification:";
        console_log "✅ Client confirmation sent successfully"]
  /\ map to (outbox (snd (POST_api_bookings
                            (with_delivery Sample.noon true true)
                            Sample.at_9 Sample.fresh)))
     = [JString "harmonia.sibo@gmail.com"; JString "anna@example.com"].
Proof.
  repeat split; reflexivity.
Qed.

(** *** Booking ids (section 3) *)

Lemma toString_inj n m : toString n = toString m -> n = m.
Proof.
  unfold toString. intros H. apply DecimalZ.to_int_inj.
  assert (Hparse : forall z,
             NilZero.int_of_string (NilZero.string_of_int (Z.to_int z))
             = Some (Z.to_int z)).
  { intros z. apply NilZero.isi; destruct z; cbn; try discriminate;
      intros [= Hnil]; now apply DecimalPos.Unsigned.to_uint_nonnil in Hnil. }
  pose proof (Hparse n) as Hn. rewrite H, Hparse in Hn. congruence.
Qed.

Lemma created_id_now e b w i :
  created_id e b w = Some i ->
  i = toString (now e)
  /\ status (fst (POST_api_bookings e b w)) = 201
  /\ stored (snd (POST_api_bookings e b w))
     = (stored w ++ [reread_booking (newBooking e b)])%list.
Proof.
  unfold created_id.
  destruct (forallb ToBoolean (required b)) eqn:Hreq.
  - destruct (taken (Body.date b) (Body.time b) (stored w)) eqn:Hb.
    + rewrite (POST_taken e b w Hreq Hb). discriminate.
    + destruct (POST_free e b w Hreq Hb) as [-> Hd].
      destruct (write_error e); [discriminate|].
      cbn. intros [= <-]. repeat split. now apply stored_after_push.
  - rewrite (POST_incomplete e b w Hreq). discriminate.
Qed.

(** C9, as stated, fails for two bookings created within one
    millisecond: both requests are answered 201, the two bookings differ
    and are both stored, and they carry the same id. *)
Lemma created_ids_same_millisecond :
  created_id Sample.noon Sample.at_9 Sample.fresh
  = Some "1741435200000"%string
  /\ created_id Sample.noon Sample.at_10 Sample.one_booking
     = Some "1741435200000"%string
  /\ newBooking Sample.noon Sample.at_9 <> newBooking Sample.noon Sample.at_10
  /\ stored Sample.same_millisecond
     = [newBooking Sample.noon Sample.at_9;
        newBooking Sample.noon Sample.at_10]
  /\ id (newBooking Sample.noon Sample.at_9)
     = id (newBooking Sample.noon Sample.at_10).
Proof.
  split; [reflexivity|]. split; [reflexivity|].
  split; [discriminate|]. split; reflexivity.
Qed.

(** C9 (amended): two bookings created by createBooking have distinct id
    strings whenever [Date.now()] gave distinct values at their creation
    (the id is the decimal rendering of that value, stored with the
    booking); the ids are equal exactly when the two readings are. *)
Theorem created_ids_distinct
  (e1 e2 : env) (b1 b2 : Body.t) (w1 w2 : world) (i1 i2 : string) :
  created_id e1 b1 w1 = Some i1 ->
  created_id e2 b2 w2 = Some i2 ->
  (i1 = i2 <-> now e1 = now e2)
  /\ id (reread_booking (newBooking e1 b1)) = i1
  /\ id (reread_booking (newBooking e2 b2)) = i2
  /\ In (reread_booking (newBooking e1 b1))
        (stored (snd (POST_api_bookings e1 b1 w1)))
  /\ In (reread_booking (newBooking e2 b2))
        (stored (snd (POST_api_bookings e2 b2 w2))).
Proof.
  intros H1 H2.
  apply created_id_now in H1 as (-> & _ & Hs1).
  apply created_id_now in H2 as (-> & _ & Hs2).
  split; [|split; [reflexivity|split; [reflexivity|]]].
  - split; [apply toString_inj|now intros ->].
  - rewrite Hs1, Hs2. split; apply in_or_app; right; now left.
Qed.

Lemma created_ids_distinct_witness :
  created_id Sample.noon Sample.at_9 Sample.fresh
  = Some "1741435200000"%string
  /\ created_id Sample.later Sample.at_10 Sample.one_booking
     = Some "1741435201000"%string
  /\ ("1741435200000"%string = "1741435201000"%string <->
      now Sample.noon = now Sample.later).
Proof.
  assert (H1 : created_id Sample.noon Sample.at_9 Sample.fresh
               = Some "1741435200000"%string) by reflexivity.
  assert (H2 : created_id Sample.later Sample.at_10 Sample.one_booking
               = Some "1741435201000"%string) by reflexivity.
  split; [exact H1|]. split; [exact H2|].
  exact (proj1 (created_ids_distinct _ _ _ _ _ _ _ _ H1 H2)).
Defined.

(** *** Reading the bookings file *)

(** What the routes answer, and the collection they leave, depends on the
    world only through the stored collection. *)
Section SameCollection.

Variables w w' : world.
Hypothesis same : stored w = stored w'.

Lemma GET_api_available_times_same date_ :
  fst (GET_api_available_times date_ w)
  = fst (GET_api_available_times date_ w').
Proof.
  unfold GET_api_available_times.
  destruct (negb (ToBoolean date_)); [reflexivity|].
  now rewrite !bind_run, !readBookings_value, same.
Qed.

Lemma GET_api_bookings_same :
  fst (GET_api_bookings w) = fst (GET_api_bookings w').
Proof. now rewrite !GET_api_bookings_reply, same. Qed.

Lemma POST_api_bookings_same e b :
  fst (POST_api_bookings e b w) = fst (POST_api_bookings e b w')
  /\ stored (snd (POST_api_bookings e b w))
     = stored (snd (POST_api_bookings e b w')).
Proof.
  destruct (forallb ToBoolean (required b)) eqn:Hreq.
  - destruct (taken (Body.date b) (Body.time b) (stored w)) eqn:Hb.
    + rewrite (POST_taken e b w Hreq Hb).
      rewrite same in Hb. now rewrite (POST_taken e b w' Hreq Hb).
    + destruct (POST_free e b w Hreq Hb) as [-> Hd].
      rewrite same in Hb.
      destruct (POST_free e b w' Hreq Hb) as [-> Hd'].
      split; [reflexivity|].
      destruct (write_error e).
      * rewrite (stored_after_failed_write e w _ Hd).
        now rewrite (stored_after_failed_write e w' _ Hd'), same.
      * rewrite (stored_after_push _ _ _ Hd).
        now rewrite (stored_after_push _ _ _ Hd'), same.
  - now rewrite !(POST_incomplete e b _ Hreq).
Qed.

Lemma DELETE_api_bookings_same e id_ :
  fst (DELETE_api_bookings e id_ w) = fst (DELETE_api_bookings e id_ w')
  /\ stored (snd (DELETE_api_bookings e id_ w))
     = stored (snd (DELETE_api_bookings e id_ w')).
Proof.
  destruct (existsb (has_id id_) (stored w)) eqn:Hid.
  - destruct (DELETE_present e id_ w Hid) as [-> Hd].
    rewrite same in Hid.
    destruct (DELETE_present e id_ w' Hid) as [-> Hd'].
    split; [reflexivity|].
    destruct (write_error e).
    + rewrite (stored_after_failed_write e w _ Hd).
      now rewrite (stored_after_failed_write e w' _ Hd'), same.
    + rewrite (stored_after_remove _ _ _ Hd).
      now rewrite (stored_after_remove _ _ _ Hd'), same.
  - destruct (DELETE_absent e id_ w Hid) as [-> Hd].
    rewrite same in Hid.
    destruct (DELETE_absent e id_ w' Hid) as [-> Hd'].
    split; [reflexivity|].
    rewrite (stored_depends_on_disk _ _ Hd).
    now rewrite (stored_depends_on_disk _ _ Hd').
Qed.

End SameCollection.

Lemma broken_stored w : broken (disk w) -> stored w = [].
Proof.
  destruct w as [f c o]. cbn [disk]. rewrite stored_disk.
  intros [->|[(code & ->)|(raw & ->)]]; reflexivity.
Qed.

(** C10: [readBookings] is total.  Whenever the bookings file is missing,
    unreadable or not valid JSON, the error raised in its [try] block is
    caught and the empty collection [{ bookings: [] }] is returned, so
    that every endpoint (availability, create, list, delete) answers, and
    leaves the collection, as it does when no booking is stored. *)
Theorem readBookings_total (w : world) :
  broken (disk w) ->
  (exists err, readBookings_try (disk w) = Throw err)
  /\ fst (readBookings w) = mkData []
  /\ (forall date_,
        fst (GET_api_available_times date_ w)
        = fst (GET_api_available_times date_ (no_bookings w)))
  /\ (forall e b,
        fst (POST_api_bookings e b w)
        = fst (POST_api_bookings e b (no_bookings w))
        /\ stored (snd (POST_api_bookings e b w))
           = stored (snd (POST_api_bookings e b (no_bookings w))))
  /\ fst (GET_api_bookings w) = mkResponse 200 (Listing [])
  /\ fst (GET_api_bookings w) = fst (GET_api_bookings (no_bookings w))
  /\ (forall e id_,
        fst (DELETE_api_bookings e id_ w)
        = fst (DELETE_api_bookings e id_ (no_bookings w))
        /\ stored (snd (DELETE_api_bookings e id_ w))
           = stored (snd (DELETE_api_bookings e id_ (no_bookings w)))).
Proof.
  intros Hbroken.
  pose proof (broken_stored w Hbroken) as Hempty.
  assert (Hsame : stored w = stored (no_bookings w)) by now rewrite Hempty.
  split.
  { destruct Hbroken as [->|[(code & ->)|(raw & ->)]]; cbn; eauto. }
  split; [now rewrite readBookings_value, Hempty|].
  split; [intros date_; now apply GET_api_available_times_same|].
  split; [intros e b; now apply POST_api_bookings_same|].
  split; [now rewrite GET_api_bookings_reply, Hempty|].
  split; [now apply GET_api_bookings_same|].
  intros e id_. now apply DELETE_api_bookings_same.
Qed.

Lemma readBookings_total_witness :
  broken (disk Sample.corrupt)
  /\ fst (readBookings Sample.corrupt) = mkData []
  /\ fst (POST_api_bookings Sample.noon Sample.at_9 Sample.corrupt)
     = fst (POST_api_bookings Sample.noon Sample.at_9
              (no_bookings Sample.corrupt)).
Proof.
  assert (H : broken (disk Sample.corrupt)).
  { right. right. now exists "{ bookings: ["%string. }
  destruct (readBookings_total Sample.corrupt H)
    as (_ & Hread & _ & Hpost & _).
  split; [exact H|]. split; [exact Hread|].
  exact (proj1 (Hpost Sample.noon Sample.at_9)).
Defined.

(* ================================================================== *)
(** ** Further properties of the server *)

Lemma slot_taken_iff b w :
  complete b ->
  taken (Body.date b) (Body.time b) (stored w) = true <-> slot_taken b w.
Proof.
  intros Hc. unfold slot_taken, requested_slot.
  apply taken_slot; [now apply complete_date|now apply complete_time].
Qed.

(** X1: the answer of [POST /api/bookings] is always one of 400, 409, 500
    and 201, decided by the first check that fails, in the order of the
    handler: 400 exactly when a required field is missing, [null],
    [false], zero or the empty string (whatever the slot); 409 exactly
    for a complete request whose date and time are strings, numbers or
    booleans and are those of a stored booking; 500 exactly for a
    complete request of which this is not so and whose write fails; 201
    exactly for such a request whose write succeeds. *)
Theorem POST_api_bookings_outcome (e : env) (b : Body.t) (w : world) :
  (status (fst (POST_api_bookings e b w)) = 400 <->
   Exists falsy (required b))
  /\ (status (fst (POST_api_bookings e b w)) = 409 <->
      complete b /\ slot_taken b w)
  /\ (status (fst (POST_api_bookings e b w)) = 500 <->
      complete b /\ ~ slot_taken b w /\ write_error e <> None)
  /\ (status (fst (POST_api_bookings e b w)) = 201 <->
      complete b /\ ~ slot_taken b w /\ write_error e = None)
  /\ (status (fst (POST_api_bookings e b w)) = 400
      \/ status (fst (POST_api_bookings e b w)) = 409
      \/ status (fst (POST_api_bookings e b w)) = 500
      \/ status (fst (POST_api_bookings e b w)) = 201).
Proof.
  rewrite POST_status, <- required_incomplete.
  destruct (forallb ToBoolean (required b)) eqn:Hreq; cbn [negb].
  - pose proof (proj1 (required_complete b) Hreq) as Hc.
    pose proof (slot_taken_iff b w Hc) as Ht.
    revert Ht. generalize (slot_taken b w) as T. intros T Ht.
    destruct (taken (Body.date b) (Body.time b) (stored w)).
    + assert (T) by now apply Ht.
      repeat split; try discriminate; try tauto.
    + assert (~ T).
      { intros H. apply Ht in H. discriminate. }
      destruct (write_error e) as [code|];
        repeat split; try discriminate; try tauto; intuition congruence.
  - assert (~ complete b).
    { intros H. apply required_complete in H. congruence. }
    generalize (slot_taken b w) as T. intros T.
    repeat split; try discriminate; try tauto.
Qed.

Ltac renderings H :=
  repeat match type of H with
         | context [ToString ?v] =>
             destruct (ToString v); cbn [and_then] in H; try discriminate
         | context [ToBoolean ?v] =>
             destruct (ToBoolean v); cbn [and_then] in H; try discriminate
         end.

Lemma clinic_mailOptions_headers e booking m :
  clinic_mailOptions e booking = Normal m ->
  to m = JString (or_else (CLINIC_EMAIL e) "harmonia.sibo@gmail.com")
  /\ from m = emailConfig_auth_user e.
Proof.
  unfold clinic_mailOptions. intros H. renderings H;
    injection H as <-; split; reflexivity.
Qed.

Lemma client_mailOptions_headers e booking m :
  client_mailOptions e booking = Normal m ->
  to m = email booking /\ from m = emailConfig_auth_user e.
Proof.
  unfold client_mailOptions. intros H. renderings H.
  injection H as <-. split; reflexivity.
Qed.

Lemma renders_string s : renders (JString s).
Proof. now exists s. Qed.

Lemma clinic_mailOptions_renders e booking :
  Forall renders
    [firstName booking; lastName booking; email booking; phone booking;
     service booking; date booking; time booking; price booking;
     notes booking] ->
  exists m, clinic_mailOptions e booking = Normal m.
Proof.
  intros H. unfold clinic_mailOptions.
  repeat (apply Forall_cons_iff in H as [(? & ->) H]).
  cbn [and_then]. destruct (ToBoolean (notes booking)); eexists; reflexivity.
Qed.

Lemma client_mailOptions_renders e booking :
  Forall renders
    [firstName booking; lastName booking; service booking; date booking;
     time booking; price booking] ->
  exists m, client_mailOptions e booking = Normal m.
Proof.
  intros H. unfold client_mailOptions.
  repeat (apply Forall_cons_iff in H as [(? & ->) H]).
  cbn [and_then]. eexists; reflexivity.
Qed.

(** X2: [POST /api/bookings] hands mail to the transport only when it
    answers 201.  Then the mails the transport took over are, in this
    order, the clinic notification (to CLINIC_EMAIL, or to the clinic
    address when that is unset or empty) if it was delivered, and the
    client confirmation (to the e-mail value of the request) if it was
    delivered, both sent from the configured account; a mail whose text
    cannot be built (a field cannot be converted to a string) is not
    handed over, and both can be built when every field of the booking
    has a text.  With any other answer the outbox is as before. *)
Theorem POST_api_bookings_mail (e : env) (b : Body.t) (w : world) :
  (status (fst (POST_api_bookings e b w)) <> 201 ->
   outbox (snd (POST_api_bookings e b w)) = outbox w)
  /\ (status (fst (POST_api_bookings e b w)) = 201 ->
      outbox (snd (POST_api_bookings e b w))
      = (outbox w
         ++ handed_over (clinic_delivered e)
              (clinic_mailOptions e (newBooking e b))
         ++ handed_over (client_delivered e)
              (client_mailOptions e (newBooking e b)))%list)
  /\ (forall clinic,
        clinic_mailOptions e (newBooking e b) = Normal clinic ->
        to clinic = JString (or_else (CLINIC_EMAIL e) "harmonia.sibo@gmail.com")
        /\ from clinic = emailConfig_auth_user e)
  /\ (forall client,
        client_mailOptions e (newBooking e b) = Normal client ->
        to client = Body.email b
        /\ from client = emailConfig_auth_user e)
  /\ (Forall renders
        [Body.firstName b; Body.lastName b; Body.email b; Body.phone b;
         Body.service b; Body.date b; Body.time b;
         price (newBooking e b); notes (newBooking e b)] ->
      exists clinic client,
        clinic_mailOptions e (newBooking e b) = Normal clinic
        /\ client_mailOptions e (newBooking e b) = Normal client).
Proof.
  split; [|split; [|split; [|split]]].
  - destruct (forallb ToBoolean (required b)) eqn:Hreq.
    + destruct (taken (Body.date b) (Body.time b) (stored w)) eqn:Hb.
      * now rewrite (POST_taken e b w Hreq Hb).
      * destruct (POST_free e b w Hreq Hb) as [Hr _].
        rewrite (POST_free_outbox e b w Hreq Hb), Hr.
        destruct (write_error e); cbn [status]; congruence.
    + now rewrite (POST_incomplete e b w Hreq).
  - destruct (forallb ToBoolean (required b)) eqn:Hreq.
    + destruct (taken (Body.date b) (Body.time b) (stored w)) eqn:Hb.
      * rewrite (POST_taken e b w Hreq Hb). discriminate.
      * destruct (POST_free e b w Hreq Hb) as [Hr _].
        rewrite (POST_free_outbox e b w Hreq Hb), Hr.
        destruct (write_error e); cbn [status]; [discriminate|auto].
    + rewrite (POST_incomplete e b w Hreq). discriminate.
  - intros clinic. apply clinic_mailOptions_headers.
  - intros client. apply client_mailOptions_headers.
  - intros H.
    destruct (clinic_mailOptions_renders e (newBooking e b)) as [clinic Hc].
    { repeat (apply Forall_cons_iff in H as [? H]).
      repeat (apply Forall_cons; [assumption|]). apply Forall_nil. }
    destruct (client_mailOptions_renders e (newBooking e b)) as [client Hk].
    { repeat (apply Forall_cons_iff in H as [? H]).
      repeat (apply Forall_cons; [assumption|]). apply Forall_nil. }
    now exists clinic, client.
Qed.

Lemma POST_api_bookings_mail_witness :
  status (fst (POST_api_bookings (with_delivery Sample.noon false true)
                 Sample.at_9 Sample.fresh)) = 201
  /\ map to (outbox (snd (POST_api_bookings
                            (with_delivery Sample.noon false true)
                            Sample.at_9 Sample.fresh)))
     = [JString "anna@example.com"]
  /\ status (fst (POST_api_bookings Sample.read_only Sample.at_9
                    Sample.fresh)) <> 201
  /\ outbox (snd (POST_api_bookings Sample.read_only Sample.at_9
                    Sample.fresh)) = [].
Proof.
  assert (H1 : status (fst (POST_api_bookings
                              (with_delivery Sample.noon false true)
                              Sample.at_9 Sample.fresh)) = 201)
    by reflexivity.
  assert (H2 : status (fst (POST_api_bookings Sample.read_only Sample.at_9
                              Sample.fresh)) <> 201) by discriminate.
  split; [exact H1|].
  destruct (POST_api_bookings_mail (with_delivery Sample.noon false true)
              Sample.at_9 Sample.fresh) as (_ & Hsent & _).
  split; [rewrite (Hsent H1); reflexivity|].
  split; [exact H2|].
  exact (proj1 (POST_api_bookings_mail Sample.read_only Sample.at_9
                  Sample.fresh) H2).
Defined.

(** A request whose first name cannot be converted to a string is stored
    and answered 201, and neither mail is handed over: both sends reject
    before they reach the transport, and the handler logs it. *)
Example odd_name_is_stored_without_mail :
  status (fst (POST_api_bookings Sample.noon Cases.odd_name Sample.fresh))
  = 201
  /\ outbox (snd (POST_api_bookings Sample.noon Cases.odd_name Sample.fresh))
     = []
  /\ console (snd (POST_api_bookings Sample.noon Cases.odd_name
                     Sample.fresh))
     = [console_error "Failed to send clinic notification:";
        console_error "Failed to send client confirmation:"].
Proof. repeat split; reflexivity. Qed.

(** An empty array is not falsy: a request with [phone: []] passes the
    validation and is stored. *)
Example empty_array_passes_validation :
  status (fst (POST_api_bookings Sample.noon Cases.phone_list Sample.fresh))
  = 201
  /\ map phone
       (stored (snd (POST_api_bookings Sample.noon Cases.phone_list
                       Sample.fresh)))
     = [JArray []].
Proof. split; reflexivity. Qed.

(** A deletion on a full disk is answered 200 as well, and the write
    that broke off leaves no booking at all. *)
Example delete_on_full_disk_loses_all :
  stored Sample.same_millisecond
  = [newBooking Sample.noon Sample.at_9; newBooking Sample.noon Sample.at_10]
  /\ status (fst (DELETE_api_bookings Cases.full_disk "1741435200000"
                    Sample.same_millisecond)) = 200
  /\ stored (snd (DELETE_api_bookings Cases.full_disk "1741435200000"
                    Sample.same_millisecond)) = [].
Proof. repeat split; reflexivity. Qed.

Lemma app_one_neq {A} (l : list A) x : (l ++ [x])%list <> l.
Proof.
  intros H. apply (f_equal (@List.length A)) in H.
  rewrite length_app in H. cbn in H. lia.
Qed.

(** X3: what [POST /api/bookings] does to the bookings file, by its
    answer.  A request answered 400 or 409 leaves the world as it was.  A
    request answered 201 has changed the file: it holds the collection
    with the new booking at its end.  A request answered 500 has tried to
    write: the file is as it was only when it could not be opened; when
    the write broke off later the file holds the cut-off text, and the
    stored collection is lost.  The two GET routes never change the file,
    and neither does a DELETE answered 404. *)
Theorem bookings_file_changes (e : env) (b : Body.t) (w : world) :
  (status (fst (POST_api_bookings e b w)) = 400
   \/ status (fst (POST_api_bookings e b w)) = 409 ->
   snd (POST_api_bookings e b w) = w)
  /\ (status (fst (POST_api_bookings e b w)) = 201 ->
      disk (snd (POST_api_bookings e b w)) <> disk w
      /\ stored (snd (POST_api_bookings e b w))
         = (stored w ++ [reread_booking (newBooking e b)])%list)
  /\ (status (fst (POST_api_bookings e b w)) = 500 ->
      disk (snd (POST_api_bookings e b w)) = after_failed_write e (disk w)
      /\ (cut_off e = None ->
          disk (snd (POST_api_bookings e b w)) = disk w)
      /\ (forall raw, cut_off e = Some raw ->
            disk (snd (POST_api_bookings e b w)) = Contents (Garbage raw)
            /\ stored (snd (POST_api_bookings e b w)) = []))
  /\ (forall date_, disk (snd (GET_api_available_times date_ w)) = disk w)
  /\ disk (snd (GET_api_bookings w)) = disk w
  /\ (forall id_,
        status (fst (DELETE_api_bookings e id_ w)) = 404 ->
        disk (snd (DELETE_api_bookings e id_ w)) = disk w).
Proof.
  split; [|split; [|split; [|split; [|split]]]].
  - rewrite POST_status.
    destruct (forallb ToBoolean (required b)) eqn:Hreq; cbn [negb].
    + destruct (taken (Body.date b) (Body.time b) (stored w)) eqn:Hb.
      * now rewrite (POST_taken e b w Hreq Hb).
      * destruct (write_error e); intros [H|H]; discriminate.
    + now rewrite (POST_incomplete e b w Hreq).
  - rewrite POST_status.
    destruct (forallb ToBoolean (required b)) eqn:Hreq; cbn [negb];
      [|discriminate].
    destruct (taken (Body.date b) (Body.time b) (stored w)) eqn:Hb;
      [discriminate|].
    destruct (POST_free e b w Hreq Hb) as [_ Hd].
    destruct (write_error e); [discriminate|]. intros _.
    pose proof (stored_after_push _ _ _ Hd) as Hs.
    split; [|exact Hs].
    intros Heq. apply stored_depends_on_disk in Heq.
    rewrite Hs in Heq. now apply app_one_neq in Heq.
  - rewrite POST_status.
    destruct (forallb ToBoolean (required b)) eqn:Hreq; cbn [negb];
      [|discriminate].
    destruct (taken (Body.date b) (Body.time b) (stored w)) eqn:Hb;
      [discriminate|].
    destruct (POST_free e b w Hreq Hb) as [_ Hd].
    destruct (write_error e); [|discriminate]. intros _.
    split; [exact Hd|]. unfold after_failed_write in Hd. split.
    + intros Hc. now rewrite Hc in Hd.
    + intros raw Hc. rewrite Hc in Hd. split; [exact Hd|].
      exact (stored_of_garbage _ _ Hd).
  - intros date_. unfold GET_api_available_times.
    destruct (ToBoolean date_); cbn [negb]; [|reflexivity].
    rewrite bind_run. cbn [snd res_json res_status_json ret].
    apply readBookings_disk.
  - unfold GET_api_bookings. rewrite bind_run.
    cbn [snd res_json res_status_json ret]. apply readBookings_disk.
  - intros id_. destruct (existsb (has_id id_) (stored w)) eqn:Hid.
    + destruct (DELETE_present e id_ w Hid) as [-> _]. discriminate.
    + intros _. exact (proj2 (DELETE_absent e id_ w Hid)).
Qed.

Lemma bookings_file_changes_witness :
  status (fst (POST_api_bookings Sample.noon Sample.at_9 Sample.fresh)) = 201
  /\ disk (snd (POST_api_bookings Sample.noon Sample.at_9 Sample.fresh))
     <> disk Sample.fresh
  /\ status (fst (POST_api_bookings Cases.full_disk Sample.at_10
                    Sample.one_booking)) = 500
  /\ stored Sample.one_booking = [newBooking Sample.noon Sample.at_9]
  /\ stored (snd (POST_api_bookings Cases.full_disk Sample.at_10
                    Sample.one_booking)) = []
  /\ status (fst (DELETE_api_bookings Sample.noon "7" Sample.one_booking))
     = 404
  /\ disk (snd (DELETE_api_bookings Sample.noon "7" Sample.one_booking))
     = disk Sample.one_booking.
Proof.
  assert (H1 : status (fst (POST_api_bookings Sample.noon Sample.at_9
                              Sample.fresh)) = 201) by reflexivity.
  assert (H2 : status (fst (POST_api_bookings Cases.full_disk Sample.at_10
                              Sample.one_booking)) = 500) by reflexivity.
  assert (H3 : status (fst (DELETE_api_bookings Sample.noon "7"
                              Sample.one_booking)) = 404) by reflexivity.
  destruct (bookings_file_changes Sample.noon Sample.at_9 Sample.fresh)
    as (_ & Hcreated & _).
  destruct (bookings_file_changes Cases.full_disk Sample.at_10
              Sample.one_booking) as (_ & _ & Hfailed & _).
  destruct (bookings_file_changes Sample.noon Sample.at_9 Sample.one_booking)
    as (_ & _ & _ & _ & _ & Hdel).
  split; [exact H1|]. split; [exact (proj1 (Hcreated H1))|].
  split; [exact H2|]. split; [reflexivity|].
  split; [exact (proj2 (proj2 (proj2 (Hfailed H2)) "{"%string eq_refl))|].
  split; [exact H3|]. exact (Hdel "7"%string H3).
Defined.

(** [saveBookings] returns [true] exactly when the write goes through.
    What [readBookings] returns next is then the document just saved, as
    the file holds it, whatever the file was before (missing, unreadable,
    not JSON); after [false] it returns what it returned before the
    attempt when the file could not be opened, and the empty collection
    when the write broke off. *)
Lemma saveBookings_then_readBookings (e : env) (d : data) (w : world) :
  (fst (saveBookings e d w) = true <-> write_error e = None)
  /\ (fst (saveBookings e d w) = true ->
      stored (snd (saveBookings e d w)) = map reread_booking (bookings d))
  /\ (fst (saveBookings e d w) = false ->
      stored (snd (saveBookings e d w))
      = match cut_off e with Some _ => [] | None => stored w end).
Proof.
  rewrite saveBookings_run.
  destruct (write_error e) as [code|]; cbn [fst snd].
  - split; [split; discriminate|]. split; [discriminate|]. intros _.
    now apply stored_after_failed_write.
  - split; [tauto|]. split; [|discriminate]. intros _.
    destruct d as [l]. now apply stored_of_document.
Qed.

Lemma saveBookings_then_readBookings_witness :
  fst (saveBookings Sample.noon (mkData [newBooking Sample.noon Sample.at_9])
         Sample.corrupt) = true
  /\ stored (snd (saveBookings Sample.noon
                    (mkData [newBooking Sample.noon Sample.at_9])
                    Sample.corrupt))
     = [newBooking Sample.noon Sample.at_9].
Proof.
  assert (H : fst (saveBookings Sample.noon
                     (mkData [newBooking Sample.noon Sample.at_9])
                     Sample.corrupt) = true) by reflexivity.
  split; [exact H|].
  destruct (saveBookings_then_readBookings Sample.noon
              (mkData [newBooking Sample.noon Sample.at_9]) Sample.corrupt)
    as (_ & Hok & _).
  exact (Hok H).
Defined.

(** *** The two lists of the availability reply *)

Lemma includes_In l s : includes l (JString s) = true <-> In (JString s) l.
Proof.
  unfold includes. rewrite existsb_exists. split.
  - intros (x & Hx & Heq). apply strict_eq_string in Heq. now subst.
  - intros H. exists (JString s). split; [assumption|].
    now apply strict_eq_string.
Qed.

Lemma allTimeSlots_NoDup : NoDup allTimeSlots.
Proof.
  unfold allTimeSlots.
  repeat (apply NoDup_cons; [cbn; intuition discriminate|]).
  apply NoDup_nil.
Qed.

Lemma bookedTimes_reply d w :
  d <> ""%string ->
  bookedTimes d w
  = Some (map (fun booking => time booking)
            (filter (fun booking => strict_eq (date booking) (JString d))
               (stored w))).
Proof.
  intros Hd. unfold bookedTimes.
  now rewrite (GET_api_available_times_reply d w Hd).
Qed.

Lemma booked_on_bookedTimes d l t :
  booked_on d l t = true <->
  In (JString t)
    (map (fun booking => time booking)
       (filter (fun booking => strict_eq (date booking) (JString d)) l)).
Proof. now rewrite <- includes_bookedTimes, includes_In. Qed.

(** X4: for a non-empty date the availability reply carries two lists.
    [bookedTimes] holds the times of the stored bookings of that date, in
    stored order; [availableTimes] holds, without repetition, exactly the
    fixed labels that are not in [bookedTimes]. *)
Theorem availableTimes_and_bookedTimes (d : string) (w : world) :
  d <> ""%string ->
  exists available booked,
    availableSlots d w = Some available
    /\ bookedTimes d w = Some booked
    /\ booked = map (fun booking => time booking)
                  (filter (fun booking => strict_eq (date booking) (JString d))
                     (stored w))
    /\ (forall v, strict_eq v (JString d) = true <-> v = JString d)
    /\ (forall t, In t available <->
                  In t allTimeSlots /\ ~ In (JString t) booked)
    /\ NoDup available.
Proof.
  intros Hd. eexists. eexists.
  split; [exact (availableSlots_reply d w Hd)|].
  split; [exact (bookedTimes_reply d w Hd)|].
  split; [reflexivity|]. split; [|split].
  - intros v. apply strict_eq_string.
  - intros t. unfold spec_availableSlots.
    rewrite filter_In, negb_true_iff, <- booked_on_bookedTimes.
    now rewrite not_true_iff_false.
  - unfold spec_availableSlots. apply NoDup_filter, allTimeSlots_NoDup.
Qed.

Lemma availableTimes_and_bookedTimes_witness :
  "2025-03-10"%string <> ""%string
  /\ exists available booked,
       availableSlots "2025-03-10" Sample.same_millisecond = Some available
       /\ bookedTimes "2025-03-10" Sample.same_millisecond = Some booked
       /\ booked = [JString "09:00"; JString "10:00"]
       /\ List.length available = 9%nat.
Proof.
  assert (H : "2025-03-10"%string <> ""%string) by discriminate.
  split; [exact H|].
  destruct (availableTimes_and_bookedTimes "2025-03-10"
              Sample.same_millisecond H)
    as (available & booked & Ha & Hb & Heq & _).
  exists available, booked.
  split; [exact Ha|]. split; [exact Hb|]. split; [exact Heq|].
  injection Ha as <-. reflexivity.
Defined.

Lemma filter_length_split {A} (p : A -> bool) l :
  (List.length (filter (fun x => negb (p x)) l)
   + List.length (filter p l))%nat = List.length l.
Proof.
  induction l as [|x l IH]; cbn; [reflexivity|].
  destruct (p x); cbn; lia.
Qed.

(** The slots of the bookings of one date whose times are strings are
    among the slots of strings, numbers and booleans, in the same
    order. *)
Lemma dated_slots d l :
  (forall b, In b l -> date b = JString d -> exists t, time b = JString t) ->
  map slot (filter (fun booking => strict_eq (date booking) (JString d)) l)
  = filter (fun s => strict_eq (fst s) (JString d))
      (filter plain_slot (map slot l)).
Proof.
  induction l as [|x l IH]; intros Hall; cbn [map filter]; [reflexivity|].
  assert (Hl : forall b, In b l -> date b = JString d ->
                         exists t, time b = JString t).
  { intros b Hb. apply Hall. now right. }
  specialize (IH Hl).
  destruct (strict_eq (date x) (JString d)) eqn:Hx.
  - pose proof (proj1 (strict_eq_string _ _) Hx) as Hdate.
    destruct (Hall x (or_introl eq_refl) Hdate) as (t & Ht).
    assert (Hp : plain_slot (slot x) = true).
    { unfold plain_slot, slot. cbn [fst snd]. now rewrite Hdate, Ht. }
    rewrite Hp. cbn [filter map].
    change (fst (slot x)) with (date x). now rewrite Hx, IH.
  - destruct (plain_slot (slot x)) eqn:Hp; [|exact IH].
    cbn [filter]. change (fst (slot x)) with (date x). now rewrite Hx.
Qed.

Lemma same_date_times_NoDup d r :
  (forall y, In y r -> date y = d) ->
  NoDup (map slot r) -> NoDup (map (fun booking => time booking) r).
Proof.
  induction r as [|x r IH]; cbn; intros Hall H; constructor.
  - apply NoDup_cons_iff in H as [Hx _]. rewrite in_map_iff in *.
    intros (y & Hy & Hin). apply Hx. exists y. split; [|assumption].
    unfold slot. rewrite Hy. f_equal.
    rewrite (Hall y) by now right. now rewrite (Hall x) by now left.
  - apply NoDup_cons_iff in H as [_ Hr]. apply IH; auto.
Qed.

(** The times booked on one date are pairwise distinct when no slot of
    strings is taken twice. *)
Lemma bookedTimes_NoDup d l :
  one_booking_per_plain_slot l ->
  (forall b, In b l -> date b = JString d -> exists t, time b = JString t) ->
  NoDup (map (fun booking => time booking)
           (filter (fun booking => strict_eq (date booking) (JString d)) l)).
Proof.
  unfold one_booking_per_plain_slot. intros H Hall.
  apply (same_date_times_NoDup (JString d)).
  - intros y Hy. apply filter_In in Hy as [_ Hy].
    now apply strict_eq_string.
  - rewrite (dated_slots d l Hall). now apply NoDup_filter.
Qed.

Lemma NoDup_map_JString l : NoDup l -> NoDup (map JString l).
Proof.
  induction 1 as [|x l Hx _ IH]; cbn; constructor; [|assumption].
  rewrite in_map_iff. intros (y & [= ->] & Hy). contradiction.
Qed.

(** X5: when no (date, time) pair of strings, numbers or booleans is
    stored twice and every booking of a non-empty date sits on one of the
    eleven labels, the availability reply for that date splits the
    labels: the lengths of [availableTimes] and [bookedTimes] add up to
    11. *)
Theorem availableTimes_count
  (d : string) (w : world) (available : list string) (booked : list jsval) :
  d <> ""%string ->
  one_booking_per_plain_slot (stored w) ->
  (forall b, In b (stored w) -> date b = JString d ->
             exists t, time b = JString t /\ In t allTimeSlots) ->
  availableSlots d w = Some available ->
  bookedTimes d w = Some booked ->
  (List.length available + List.length booked)%nat = 11%nat.
Proof.
  intros Hd Hinv Hlabels Ha Hb.
  rewrite (availableSlots_reply d w Hd) in Ha. injection Ha as <-.
  rewrite (bookedTimes_reply d w Hd) in Hb. injection Hb as <-.
  unfold spec_availableSlots.
  pose proof (filter_length_split (booked_on d (stored w)) allTimeSlots)
    as Hsplit.
  change (List.length allTimeSlots) with 11%nat in Hsplit.
  assert (Hperm : List.length (filter (booked_on d (stored w)) allTimeSlots)
                  = List.length
                      (map (fun booking => time booking)
                         (filter (fun booking =>
                                    strict_eq (date booking) (JString d))
                            (stored w)))).
  { rewrite <- (length_map JString).
    apply Permutation_length, NoDup_Permutation.
    - apply NoDup_map_JString, NoDup_filter, allTimeSlots_NoDup.
    - apply bookedTimes_NoDup; [assumption|].
      intros b Hin Hdate. destruct (Hlabels b Hin Hdate) as (t & Ht & _).
      now exists t.
    - intros v. rewrite in_map_iff. split.
      + intros (t & <- & Ht). apply filter_In in Ht as [_ Ht].
        now apply booked_on_bookedTimes.
      + intros Hin. pose proof Hin as Hin'.
        apply in_map_iff in Hin' as (b & <- & Hb).
        apply filter_In in Hb as [Hb Hdate].
        apply strict_eq_string in Hdate.
        destruct (Hlabels b Hb Hdate) as (t & Ht & Hl).
        exists t. split; [now rewrite Ht|].
        apply filter_In. split; [assumption|].
        apply booked_on_bookedTimes. now rewrite <- Ht. }
  lia.
Qed.

Lemma availableTimes_count_witness :
  "2025-03-10"%string <> ""%string
  /\ one_booking_per_plain_slot (stored Sample.same_millisecond)
  /\ (List.length
        ["08:00"; "11:00"; "12:00"; "13:00"; "14:00"; "15:00"; "16:00";
         "17:00"; "18:00"]%string
      + List.length [JString "09:00"; JString "10:00"])%nat = 11%nat.
Proof.
  assert (H1 : "2025-03-10"%string <> ""%string) by discriminate.
  assert (H2 : one_booking_per_plain_slot (stored Sample.same_millisecond)).
  { repeat (apply NoDup_cons; [cbn; intuition discriminate|]).
    apply NoDup_nil. }
  assert (H3 : forall b, In b (stored Sample.same_millisecond) ->
                         date b = JString "2025-03-10" ->
                         exists t, time b = JString t /\ In t allTimeSlots).
  { intros b [<-|[<-|[]]] _; eexists; (split; [reflexivity|cbn; tauto]). }
  split; [exact H1|]. split; [exact H2|].
  exact (availableTimes_count "2025-03-10" Sample.same_millisecond _ _
           H1 H2 H3 eq_refl eq_refl).
Defined.

(** *** The availability route against the booking route *)

(** X6: the two routes agree on what is free for requests that name date
    and time by strings.  For a complete request whose date is a string
    and whose time is one of the eleven labels, [POST /api/bookings]
    answers 409 exactly when that label is missing from the
    [availableTimes] that [GET /api/available-times] reports for the
    requested date. *)
Theorem conflict_iff_not_offered
  (e : env) (b : Body.t) (w : world) (d t : string)
  (available : list string) :
  complete b ->
  Body.date b = JString d ->
  Body.time b = JString t ->
  In t allTimeSlots ->
  availableSlots d w = Some available ->
  (status (fst (POST_api_bookings e b w)) = 409 <-> ~ In t available).
Proof.
  intros Hc Hdate Htime Hlabel Ha.
  assert (Hne : d <> ""%string).
  { pose proof (complete_date b Hc) as Hd. rewrite Hdate in Hd. cbn in Hd.
    now apply negb_true_iff, String.eqb_neq in Hd. }
  rewrite (availableSlots_reply _ w Hne) in Ha. injection Ha as <-.
  rewrite POST_status, spec_availableSlots_In.
  pose proof (slot_taken_iff b w Hc) as Ht.
  apply required_complete in Hc. rewrite Hc. cbn [negb].
  assert (Hstored : slot_taken b w <->
                    exists x, In x (stored w)
                              /\ date x = JString d /\ time x = JString t).
  { unfold slot_taken, requested_slot. rewrite Hdate, Htime, in_map_iff.
    unfold slot. split.
    - intros (_ & _ & x & [= H1 H2] & Hx). now exists x.
    - intros (x & Hx & H1 & H2). split; [reflexivity|].
      split; [reflexivity|]. exists x. now rewrite H1, H2. }
  destruct (taken (Body.date b) (Body.time b) (stored w)).
  - split; [|reflexivity]. intros _ [_ H]. apply H, Hstored, Ht.
    reflexivity.
  - split; [now destruct (write_error e)|].
    intros H. exfalso. apply H. split; [assumption|].
    intros Hx. apply Hstored, Ht in Hx. discriminate.
Qed.

Lemma conflict_iff_not_offered_witness :
  complete Sample.at_9
  /\ In "09:00"%string allTimeSlots
  /\ (status (fst (POST_api_bookings Sample.later Sample.at_9
                     Sample.one_booking)) = 409 <->
      ~ In "09:00"%string
          ["08:00"; "10:00"; "11:00"; "12:00"; "13:00"; "14:00"; "15:00";
           "16:00"; "17:00"; "18:00"]%string).
Proof.
  assert (H1 : complete Sample.at_9) by now apply required_complete.
  assert (H2 : In "09:00"%string allTimeSlots) by (cbn; tauto).
  split; [exact H1|]. split; [exact H2|].
  exact (conflict_iff_not_offered Sample.later Sample.at_9
           Sample.one_booking "2025-03-10" "09:00" _ H1 eq_refl eq_refl
           H2 eq_refl).
Defined.

(** The routes do not agree on a date given as a number: the number is
    stored and found again by the slot check, but no query names it. *)
Example numeric_date_is_taken_yet_offered :
  status (fst (POST_api_bookings Sample.later Sample.numeric_date
                 (snd (POST_api_bookings Sample.noon Sample.numeric_date
                         Sample.fresh)))) = 409
  /\ availableSlots "20250310"
       (snd (POST_api_bookings Sample.noon Sample.numeric_date Sample.fresh))
     = Some allTimeSlots.
Proof. split; reflexivity. Qed.

Lemma availableSlots_empty_date_none w : availableSlots "" w = None.
Proof. reflexivity. Qed.

Lemma reread_string v s : reread v = JString s -> v = JString s.
Proof.
  destruct v; cbn; try discriminate; try congruence.
  now destruct (finite repr).
Qed.

(** X7: the time of a request is not checked against the eleven labels.
    A complete request for any other time on a free slot is stored like
    any booking (201 when the write succeeds), and it changes no
    availability answer: for every date [availableTimes] is what it was
    before. *)
Theorem unlisted_time_is_stored (e : env) (b : Body.t) (w : world) :
  complete b ->
  (forall t, In t allTimeSlots -> Body.time b <> JString t) ->
  ~ In (requested_slot b) (map slot (stored w)) ->
  write_error e = None ->
  status (fst (POST_api_bookings e b w)) = 201
  /\ In (reread_booking (newBooking e b))
        (stored (snd (POST_api_bookings e b w)))
  /\ forall d,
       availableSlots d (snd (POST_api_bookings e b w)) = availableSlots d w.
Proof.
  intros Hc Hlabel Hfree He.
  apply required_complete in Hc.
  pose proof (free_slot_not_taken b w Hfree) as Hb.
  destruct (POST_free e b w Hc Hb) as [Hr Hd].
  rewrite He in Hr, Hd. apply stored_after_push in Hd.
  split; [now rewrite Hr|]. split.
  - rewrite Hd. apply in_or_app. right. now left.
  - intros d. destruct (String.eqb_spec d "") as [->|Hne].
    + now rewrite !availableSlots_empty_date_none.
    + rewrite !availableSlots_reply by assumption. rewrite Hd. f_equal.
      unfold spec_availableSlots. apply filter_ext_in. intros t Ht.
      f_equal. unfold booked_on. rewrite existsb_app. cbn [existsb].
      change (time (reread_booking (newBooking e b)))
        with (reread (Body.time b)).
      destruct (date (reread_booking (newBooking e b)));
        try now rewrite !orb_false_r.
      destruct (reread (Body.time b)) eqn:Htime;
        try now rewrite !orb_false_r.
      apply reread_string in Htime.
      destruct (String.eqb_spec s0 t) as [->|Hn].
      * exfalso. now apply (Hlabel t).
      * now rewrite andb_false_r, !orb_false_r.
Qed.

Lemma unlisted_time_is_stored_witness :
  complete Cases.at_night
  /\ (forall t, In t allTimeSlots -> Body.time Cases.at_night <> JString t)
  /\ ~ In (requested_slot Cases.at_night)
         (map slot (stored Sample.one_booking))
  /\ write_error Sample.later = None
  /\ status (fst (POST_api_bookings Sample.later Cases.at_night
                    Sample.one_booking)) = 201
  /\ availableSlots "2025-03-10"
       (snd (POST_api_bookings Sample.later Cases.at_night
               Sample.one_booking))
     = availableSlots "2025-03-10" Sample.one_booking.
Proof.
  assert (H1 : complete Cases.at_night) by now apply required_complete.
  assert (H2 : forall t, In t allTimeSlots ->
                         Body.time Cases.at_night <> JString t).
  { intros t Ht. cbn in Ht. intuition (subst; discriminate). }
  assert (H3 : ~ In (requested_slot Cases.at_night)
                    (map slot (stored Sample.one_booking)))
    by (cbn; intuition discriminate).
  assert (H4 : write_error Sample.later = None) by reflexivity.
  destruct (unlisted_time_is_stored Sample.later Cases.at_night
              Sample.one_booking H1 H2 H3 H4) as (Hs & _ & Ha).
  split; [exact H1|]. split; [exact H2|]. split; [exact H3|].
  split; [exact H4|]. split; [exact Hs|]. exact (Ha "2025-03-10"%string).
Defined.

(** *** Creation followed by deletion *)

Lemma remove_first_app_fresh {A} (p : A -> bool) l x :
  existsb p l = false -> p x = true ->
  remove_first p (l ++ [x]) = l.
Proof.
  induction l as [|y l IH]; cbn; intros Hl Hx.
  - now rewrite Hx.
  - destruct (p y); [discriminate|]. cbn in Hl. now rewrite IH.
Qed.

Lemma remove_first_app_old {A} (p : A -> bool) l x :
  existsb p l = true ->
  remove_first p (l ++ [x]) = (remove_first p l ++ [x])%list.
Proof.
  induction l as [|y l IH]; cbn; intros Hl; [discriminate|].
  destruct (p y); [reflexivity|]. cbn in Hl. now rewrite IH.
Qed.

(** What the pair of requests leaves, both writes succeeding. *)
Lemma create_then_delete e e' b w :
  complete b ->
  ~ In (requested_slot b) (map slot (stored w)) ->
  write_error e = None ->
  write_error e' = None ->
  status (fst (DELETE_api_bookings e' (toString (now e))
                 (snd (POST_api_bookings e b w)))) = 200
  /\ stored (snd (DELETE_api_bookings e' (toString (now e))
                    (snd (POST_api_bookings e b w))))
     = remove_first (has_id (toString (now e)))
         (stored w ++ [reread_booking (newBooking e b)]).
Proof.
  intros Hc Hfree He He'.
  apply required_complete in Hc.
  pose proof (free_slot_not_taken b w Hfree) as Hb.
  destruct (POST_free e b w Hc Hb) as [_ Hd].
  rewrite He in Hd. apply stored_after_push in Hd.
  assert (Hid : existsb (has_id (toString (now e)))
                  (stored (snd (POST_api_bookings e b w))) = true).
  { rewrite Hd, existsb_app. cbn [existsb]. unfold has_id at 2.
    cbn [id reread_booking newBooking].
    now rewrite String.eqb_refl, !orb_true_r. }
  destruct (DELETE_present e' _ _ Hid) as [Hr Hdel].
  rewrite He' in Hdel. apply stored_after_remove in Hdel.
  split; [now rewrite Hr|]. now rewrite Hdel, Hd.
Qed.

(** X8: a booking can be taken back by the id of its 201 reply.  When no
    stored booking has the id that the new booking gets, creating it and
    then deleting by that id (both writes succeeding) gives back the
    stored collection as it was. *)
Theorem create_then_delete_restores
  (e e' : env) (b : Body.t) (w : world) :
  complete b ->
  ~ In (requested_slot b) (map slot (stored w)) ->
  write_error e = None ->
  write_error e' = None ->
  (forall x, In x (stored w) -> id x <> toString (now e)) ->
  created_id e b w = Some (toString (now e))
  /\ status (fst (DELETE_api_bookings e' (toString (now e))
                    (snd (POST_api_bookings e b w)))) = 200
  /\ stored (snd (DELETE_api_bookings e' (toString (now e))
                    (snd (POST_api_bookings e b w))))
     = stored w.
Proof.
  intros Hc Hfree He He' Hfresh.
  destruct (create_then_delete e e' b w Hc Hfree He He') as [Hs Hst].
  split.
  - unfold created_id. apply required_complete in Hc.
    pose proof (free_slot_not_taken b w Hfree) as Hb.
    destruct (POST_free e b w Hc Hb) as [-> _]. now rewrite He.
  - split; [exact Hs|]. rewrite Hst.
    apply remove_first_app_fresh.
    + now apply has_id_none.
    + unfold has_id. cbn. apply String.eqb_refl.
Qed.

Lemma create_then_delete_restores_witness :
  complete Sample.at_10
  /\ ~ In (requested_slot Sample.at_10)
         (map slot (stored Sample.one_booking))
  /\ write_error Sample.later = None
  /\ (forall x, In x (stored Sample.one_booking) ->
                id x <> toString (now Sample.later))
  /\ stored (snd (DELETE_api_bookings Sample.later
                    (toString (now Sample.later))
                    (snd (POST_api_bookings Sample.later Sample.at_10
                            Sample.one_booking))))
     = stored Sample.one_booking.
Proof.
  assert (H1 : complete Sample.at_10) by now apply required_complete.
  assert (H2 : ~ In (requested_slot Sample.at_10)
                    (map slot (stored Sample.one_booking)))
    by (cbn; intuition discriminate).
  assert (H3 : write_error Sample.later = None) by reflexivity.
  assert (H4 : forall x, In x (stored Sample.one_booking) ->
                         id x <> toString (now Sample.later)).
  { intros x [<-|[]]. discriminate. }
  split; [exact H1|]. split; [exact H2|]. split; [exact H3|].
  split; [exact H4|].
  exact (proj2 (proj2 (create_then_delete_restores Sample.later Sample.later
                         Sample.at_10 Sample.one_booking H1 H2 H3 H3 H4))).
Defined.

(** X9: deletion by id can hit another booking.  When a stored booking
    already has the id that the new booking gets (it was created in the
    same millisecond), deleting by the id of the 201 reply removes the
    oldest stored booking with that id and leaves the new booking
    stored. *)
Theorem delete_by_shared_id_removes_older
  (e e' : env) (b : Body.t) (w : world) :
  complete b ->
  ~ In (requested_slot b) (map slot (stored w)) ->
  write_error e = None ->
  write_error e' = None ->
  (exists x, In x (stored w) /\ id x = toString (now e)) ->
  status (fst (DELETE_api_bookings e' (toString (now e))
                 (snd (POST_api_bookings e b w)))) = 200
  /\ stored (snd (DELETE_api_bookings e' (toString (now e))
                    (snd (POST_api_bookings e b w))))
     = (remove_first (has_id (toString (now e))) (stored w)
        ++ [reread_booking (newBooking e b)])%list
  /\ In (reread_booking (newBooking e b))
        (stored (snd (DELETE_api_bookings e' (toString (now e))
                        (snd (POST_api_bookings e b w))))).
Proof.
  intros Hc Hfree He He' Hold.
  destruct (create_then_delete e e' b w Hc Hfree He He') as [Hs Hst].
  apply has_id_exists in Hold.
  rewrite (remove_first_app_old _ _ _ Hold) in Hst.
  split; [exact Hs|]. split; [exact Hst|].
  rewrite Hst. apply in_or_app. right. now left.
Qed.

Lemma delete_by_shared_id_removes_older_witness :
  complete Sample.at_10
  /\ ~ In (requested_slot Sample.at_10)
         (map slot (stored Sample.one_booking))
  /\ write_error Sample.noon = None
  /\ (exists x, In x (stored Sample.one_booking)
                /\ id x = toString (now Sample.noon))
  /\ stored (snd (DELETE_api_bookings Sample.noon
                    (toString (now Sample.noon))
                    (snd (POST_api_bookings Sample.noon Sample.at_10
                            Sample.one_booking))))
     = [newBooking Sample.noon Sample.at_10].
Proof.
  assert (H1 : complete Sample.at_10) by now apply required_complete.
  assert (H2 : ~ In (requested_slot Sample.at_10)
                    (map slot (stored Sample.one_booking)))
    by (cbn; intuition discriminate).
  assert (H3 : write_error Sample.noon = None) by reflexivity.
  assert (H4 : exists x, In x (stored Sample.one_booking)
                         /\ id x = toString (now Sample.noon)).
  { exists (newBooking Sample.noon Sample.at_9).
    split; [now left|reflexivity]. }
  split; [exact H1|]. split; [exact H2|]. split; [exact H3|].
  split; [exact H4|].
  exact (proj1 (proj2 (delete_by_shared_id_removes_older Sample.noon
                         Sample.noon Sample.at_10 Sample.one_booking
                         H1 H2 H3 H3 H4))).
Defined.

(** X10: with pairwise distinct stored ids, a deletion whose write
    succeeds is final: the same id deleted again is answered 404, whether
    the first deletion found the booking (200) or not (404). *)
Theorem delete_twice (e e' : env) (id_ : string) (w : world) :
  NoDup (map id (stored w)) ->
  write_error e = None ->
  fst (DELETE_api_bookings e' id_ (snd (DELETE_api_bookings e id_ w)))
  = mkResponse 404 (Error "Rezerwacja nie znaleziona").
Proof.
  intros Hids He.
  apply DELETE_absent, has_id_none.
  destruct (existsb (has_id id_) (stored w)) eqn:Hid.
  - destruct (DELETE_present e id_ w Hid) as [_ Hd].
    rewrite He in Hd. rewrite (stored_after_remove _ _ _ Hd).
    now apply remove_first_id_gone.
  - destruct (DELETE_absent e id_ w Hid) as [_ Hd].
    rewrite (stored_depends_on_disk _ _ Hd). now apply has_id_none.
Qed.

Lemma delete_twice_witness :
  NoDup (map id (stored Sample.one_booking))
  /\ write_error Sample.later = None
  /\ fst (DELETE_api_bookings Sample.later "1741435200000"
            (snd (DELETE_api_bookings Sample.later "1741435200000"
                    Sample.one_booking)))
     = mkResponse 404 (Error "Rezerwacja nie znaleziona").
Proof.
  assert (H1 : NoDup (map id (stored Sample.one_booking))).
  { repeat constructor. intros []. }
  assert (H2 : write_error Sample.later = None) by reflexivity.
  split; [exact H1|]. split; [exact H2|].
  exact (delete_twice Sample.later Sample.later "1741435200000"
           Sample.one_booking H1 H2).
Defined.

(** *** Start-up *)

(** X11: loading server.js is safe to repeat.  A start-up that does not
    throw leaves a data directory and a bookings file in place and the
    collection that [readBookings] finds as it was (empty when the file
    had to be created); when directory and file are already there it
    writes nothing, so it cannot fail and leaves the volume untouched,
    and starting again after a start-up changes nothing. *)
Theorem startup_keeps_collection
  (mkdir_error write_error : option string) (v : volume) :
  (forall v', startup mkdir_error write_error v = Normal v' ->
     data_dir v' = true
     /\ fs_existsSync (bookings_file v') = true
     /\ collection v' = collection v
     /\ (fs_existsSync (bookings_file v) = true ->
         bookings_file v' = bookings_file v)
     /\ forall mkdir_error' write_error',
          startup mkdir_error' write_error' v' = Normal v')
  /\ (data_dir v = true -> fs_existsSync (bookings_file v) = true ->
      startup mkdir_error write_error v = Normal v).
Proof.
  destruct v as [dir f]. unfold startup, collection.
  split.
  - intros v'. cbn [data_dir bookings_file].
    destruct dir; cbn [negb]; [|destruct mkdir_error; [discriminate|]];
      cbn [bookings_file data_dir];
      (destruct f as [|code|t]; cbn [fs_existsSync negb];
       [destruct write_error; [discriminate|]|..]);
      intros [= <-]; cbn [data_dir bookings_file fs_existsSync negb];
      repeat split; try reflexivity; try discriminate.
  - cbn [data_dir bookings_file]. intros -> Hf.
    destruct f; [discriminate|reflexivity..].
Qed.

Lemma startup_keeps_collection_witness :
  startup None None Cases.first_run
  = Normal (mkVolume true (Contents (Document (mkData []))))
  /\ collection (mkVolume true (Contents (Document (mkData []))))
     = collection Cases.first_run
  /\ data_dir Cases.in_use = true
  /\ fs_existsSync (bookings_file Cases.in_use) = true
  /\ startup (Some "EACCES") (Some "EROFS") Cases.in_use
     = Normal Cases.in_use.
Proof.
  assert (H1 : startup None None Cases.first_run
               = Normal (mkVolume true (Contents (Document (mkData [])))))
    by reflexivity.
  assert (H2 : data_dir Cases.in_use = true) by reflexivity.
  assert (H3 : fs_existsSync (bookings_file Cases.in_use) = true)
    by reflexivity.
  split; [exact H1|].
  destruct (startup_keeps_collection None None Cases.first_run)
    as [Hrun _].
  destruct (Hrun _ H1) as (_ & _ & Hcoll & _).
  split; [exact Hcoll|]. split; [exact H2|]. split; [exact H3|].
  exact (proj2 (startup_keeps_collection (Some "EACCES"%string)
                  (Some "EROFS"%string) Cases.in_use) H2 H3).
Defined.

(** *** The two versions of the server *)

Lemma or_else_falsy v d : truthy v = false -> or_else v d = d.
Proof. destruct v as [s|]; cbn; [now intros ->|reflexivity]. Qed.

Section Versions.

Variable e : env.
Hypothesis no_user : truthy (EMAIL_USER e) = false.
Hypothesis no_clinic : truthy (CLINIC_EMAIL e) = false.

Lemma clinic_mailOptions_versions booking :
  clinic_mailOptions e booking = Legacy.clinic_mailOptions booking.
Proof.
  unfold clinic_mailOptions, Legacy.clinic_mailOptions,
    emailConfig_auth_user, Legacy.emailConfig_auth_user.
  now rewrite !or_else_falsy by assumption.
Qed.

Lemma client_mailOptions_versions booking :
  client_mailOptions e booking = Legacy.client_mailOptions booking.
Proof.
  unfold client_mailOptions, Legacy.client_mailOptions,
    emailConfig_auth_user, Legacy.emailConfig_auth_user.
  now rewrite !or_else_falsy by assumption.
Qed.

Lemma sendClinicNotification_versions booking w w' :
  disk w = disk w' -> outbox w = outbox w' ->
  fst (sendClinicNotification e booking w)
  = fst (Legacy.sendClinicNotification e booking w')
  /\ disk (snd (sendClinicNotification e booking w))
     = disk (snd (Legacy.sendClinicNotification e booking w'))
  /\ outbox (snd (sendClinicNotification e booking w))
     = outbox (snd (Legacy.sendClinicNotification e booking w')).
Proof.
  intros Hd Ho.
  unfold sendClinicNotification, Legacy.sendClinicNotification.
  rewrite clinic_mailOptions_versions.
  destruct (Legacy.clinic_mailOptions booking) as [m|err];
    [|cbn; auto].
  unfold transporter_sendMail, bind.
  destruct (clinic_delivered e); cbn [fst snd disk outbox print ret];
    rewrite ?Ho; auto.
Qed.

Lemma sendClientConfirmation_versions booking w w' :
  disk w = disk w' -> outbox w = outbox w' ->
  fst (sendClientConfirmation e booking w)
  = fst (Legacy.sendClientConfirmation e booking w')
  /\ disk (snd (sendClientConfirmation e booking w))
     = disk (snd (Legacy.sendClientConfirmation e booking w'))
  /\ outbox (snd (sendClientConfirmation e booking w))
     = outbox (snd (Legacy.sendClientConfirmation e booking w')).
Proof.
  intros Hd Ho.
  unfold sendClientConfirmation, Legacy.sendClientConfirmation.
  rewrite client_mailOptions_versions.
  destruct (Legacy.client_mailOptions booking) as [m|err];
    [|cbn; auto].
  unfold transporter_sendMail, bind.
  destruct (client_delivered e); cbn [fst snd disk outbox print ret];
    rewrite ?Ho; auto.
Qed.

(** X12: the server that reads its mail settings from process.env and the
    first version, which has them as constants, do the same when
    EMAIL_USER and CLINIC_EMAIL are unset or empty: for every request the
    reply, the bookings file and the mails handed to the transport are
    the same (the console lines differ in their wording). *)
Theorem versions_agree (b : Body.t) (w : world) :
  fst (POST_api_bookings e b w) = fst (Legacy.POST_api_bookings e b w)
  /\ disk (snd (POST_api_bookings e b w))
     = disk (snd (Legacy.POST_api_bookings e b w))
  /\ outbox (snd (POST_api_bookings e b w))
     = outbox (snd (Legacy.POST_api_bookings e b w)).
Proof.
  unfold POST_api_bookings, Legacy.POST_api_bookings.
  destruct (_ || _); [auto|].
  rewrite !bind_run.
  destruct (negb (fst (isTimeSlotAvailable _ _ w))); [auto|].
  rewrite !bind_run.
  destruct (negb (fst (saveBookings _ _ _))); [auto|].
  rewrite !bind_run.
  set (w1 := snd (saveBookings _ _ _)).
  destruct (sendClinicNotification_versions (newBooking e b) w1 w1
              eq_refl eq_refl) as (Hf1 & Hd1 & Ho1).
  rewrite <- Hf1.
  set (c1 := catch (fst (sendClinicNotification e (newBooking e b) w1)) _).
  assert (Hd1' : disk (snd (c1 (snd (sendClinicNotification e
                                       (newBooking e b) w1))))
                 = disk (snd (c1 (snd (Legacy.sendClinicNotification e
                                         (newBooking e b) w1))))).
  { unfold c1. now rewrite !catch_disk. }
  assert (Ho1' : outbox (snd (c1 (snd (sendClinicNotification e
                                         (newBooking e b) w1))))
                 = outbox (snd (c1 (snd (Legacy.sendClinicNotification e
                                           (newBooking e b) w1))))).
  { unfold c1. now rewrite !catch_outbox. }
  destruct (sendClientConfirmation_versions (newBooking e b) _ _ Hd1' Ho1')
    as (Hf2 & Hd2 & Ho2).
  rewrite <- Hf2.
  cbn [fst snd res_status_json ret].
  rewrite !catch_disk, !catch_outbox. auto.
Qed.

End Versions.

Lemma versions_agree_witness :
  truthy (EMAIL_USER Sample.noon) = false
  /\ truthy (CLINIC_EMAIL Sample.noon) = false
  /\ outbox (snd (POST_api_bookings Sample.noon Sample.at_9 Sample.fresh))
     = outbox (snd (Legacy.POST_api_bookings Sample.noon Sample.at_9
                      Sample.fresh)).
Proof.
  assert (H1 : truthy (EMAIL_USER Sample.noon) = false) by reflexivity.
  assert (H2 : truthy (CLINIC_EMAIL Sample.noon) = false) by reflexivity.
  split; [exact H1|]. split; [exact H2|].
  exact (proj2 (proj2 (versions_agree Sample.noon H1 H2 Sample.at_9
                         Sample.fresh))).
Defined.

(** *** Requests in sequence *)

(** X13: a booking whose date and time are strings cannot be submitted
    twice.  Once a complete request with a string date and a string time
    for a free slot has been stored, the same body posted again, at any
    later moment and whatever the disk and the mail do then, is answered
    409 and changes nothing. *)
Theorem double_submission_rejected
  (e e' : env) (b : Body.t) (w : world) (d t : string) :
  complete b ->
  Body.date b = JString d ->
  Body.time b = JString t ->
  ~ In (requested_slot b) (map slot (stored w)) ->
  write_error e = None ->
  fst (POST_api_bookings e' b (snd (POST_api_bookings e b w)))
  = mkResponse 409 (Error "Ten termin jest już zajęty. Proszę wybrać inny.")
  /\ snd (POST_api_bookings e' b (snd (POST_api_bookings e b w)))
     = snd (POST_api_bookings e b w).
Proof.
  intros Hc Hdate Htime Hfree He. apply required_complete in Hc.
  pose proof (free_slot_not_taken b w Hfree) as Hb.
  destruct (POST_free e b w Hc Hb) as [_ Hd].
  rewrite He in Hd. apply stored_after_push in Hd.
  rewrite (POST_taken e' b _ Hc); [auto|].
  apply taken_plain; [now rewrite Hdate|now rewrite Htime|].
  rewrite Hd, map_app. apply in_or_app. right.
  left. unfold slot. cbn. now rewrite Hdate, Htime.
Qed.

Lemma double_submission_rejected_witness :
  complete Sample.at_9
  /\ ~ In (requested_slot Sample.at_9) (map slot (stored Sample.fresh))
  /\ write_error Sample.noon = None
  /\ fst (POST_api_bookings Sample.read_only Sample.at_9
            (snd (POST_api_bookings Sample.noon Sample.at_9 Sample.fresh)))
     = mkResponse 409
         (Error "Ten termin jest już zajęty. Proszę wybrać inny.").
Proof.
  assert (H1 : complete Sample.at_9) by now apply required_complete.
  assert (H2 : ~ In (requested_slot Sample.at_9)
                    (map slot (stored Sample.fresh))) by (intros []).
  assert (H3 : write_error Sample.noon = None) by reflexivity.
  split; [exact H1|]. split; [exact H2|]. split; [exact H3|].
  exact (proj1 (double_submission_rejected Sample.noon Sample.read_only
                  Sample.at_9 Sample.fresh "2025-03-10" "09:00"
                  H1 eq_refl eq_refl H2 H3)).
Defined.

Lemma remove_first_frees_slot l x :
  NoDup (map id l) -> NoDup (map slot l) -> In x l ->
  ~ In (slot x) (map slot (remove_first (has_id (id x)) l)).
Proof.
  induction l as [|y l IH]; cbn [map remove_first]; [contradiction|].
  intros Hid Hslot Hin.
  apply NoDup_cons_iff in Hid as [Hy Hid].
  apply NoDup_cons_iff in Hslot as [Hsy Hslot].
  unfold has_id at 1. destruct (String.eqb_spec (id y) (id x)) as [Heq|Hne].
  - destruct Hin as [->|Hin]; [assumption|].
    exfalso. apply Hy. rewrite Heq. now apply in_map.
  - destruct Hin as [->|Hin]; [congruence|].
    cbn [map]. intros [Hs|Hs]; [|now apply (IH Hid Hslot Hin)].
    apply Hsy. rewrite Hs. now apply in_map.
Qed.

(** X14: deleting a booking frees its slot.  With pairwise distinct ids
    and at most one booking per slot, after the deletion of a stored
    booking by its id (the write succeeding) no stored booking holds its
    (date, time) pair, so that a complete request for that pair is not
    answered 409. *)
Theorem delete_frees_slot
  (e e' : env) (x : booking) (b : Body.t) (w : world) :
  NoDup (map id (stored w)) ->
  one_booking_per_slot (stored w) ->
  In x (stored w) ->
  write_error e = None ->
  complete b ->
  requested_slot b = slot x ->
  ~ In (slot x) (map slot (stored (snd (DELETE_api_bookings e (id x) w))))
  /\ status (fst (POST_api_bookings e' b
                    (snd (DELETE_api_bookings e (id x) w)))) <> 409.
Proof.
  intros Hids Hslots Hin He Hc Hreq.
  assert (Hex : existsb (has_id (id x)) (stored w) = true).
  { apply has_id_exists. now exists x. }
  destruct (DELETE_present e (id x) w Hex) as [_ Hd].
  rewrite He in Hd. apply stored_after_remove in Hd.
  assert (Hfree : ~ In (slot x)
                      (map slot (stored (snd (DELETE_api_bookings e (id x)
                                                w))))).
  { rewrite Hd. now apply remove_first_frees_slot. }
  split; [exact Hfree|].
  rewrite POST_status. apply required_complete in Hc. rewrite Hc.
  cbn [negb]. rewrite <- Hreq in Hfree.
  rewrite (free_slot_not_taken _ _ Hfree).
  now destruct (write_error e').
Qed.

Lemma delete_frees_slot_witness :
  NoDup (map id (stored Sample.one_booking))
  /\ one_booking_per_slot (stored Sample.one_booking)
  /\ In (newBooking Sample.noon Sample.at_9) (stored Sample.one_booking)
  /\ write_error Sample.later = None
  /\ complete Sample.at_9
  /\ requested_slot Sample.at_9 = slot (newBooking Sample.noon Sample.at_9)
  /\ status (fst (POST_api_bookings Sample.later Sample.at_9
                    (snd (DELETE_api_bookings Sample.later
                            (id (newBooking Sample.noon Sample.at_9))
                            Sample.one_booking)))) <> 409.
Proof.
  assert (H1 : NoDup (map id (stored Sample.one_booking))).
  { repeat constructor. intros []. }
  assert (H2 : one_booking_per_slot (stored Sample.one_booking)).
  { repeat constructor. intros []. }
  assert (H3 : In (newBooking Sample.noon Sample.at_9)
                  (stored Sample.one_booking)) by now left.
  assert (H4 : write_error Sample.later = None) by reflexivity.
  assert (H5 : complete Sample.at_9) by now apply required_complete.
  assert (H6 : requested_slot Sample.at_9
               = slot (newBooking Sample.noon Sample.at_9)) by reflexivity.
  split; [exact H1|]. split; [exact H2|]. split; [exact H3|].
  split; [exact H4|]. split; [exact H5|]. split; [exact H6|].
  exact (proj2 (delete_frees_slot Sample.later Sample.later _ Sample.at_9
                  Sample.one_booking H1 H2 H3 H4 H5 H6)).
Defined.

(** *** What the mails carry *)

Lemma occurs_here x pre post : occurs x (pre ++ x ++ post).
Proof. now exists pre, post. Qed.

Lemma string_app_assoc (a b c : string) :
  ((a ++ b) ++ c)%string = (a ++ b ++ c)%string.
Proof. induction a as [|x a IH]; cbn; [reflexivity|now rewrite IH]. Qed.

Lemma occurs_app_l x s t : occurs x s -> occurs x (s ++ t).
Proof.
  intros (pre & post & ->). exists pre, (post ++ t)%string.
  now rewrite !string_app_assoc.
Qed.

Lemma occurs_app_r x s t : occurs x t -> occurs x (s ++ t).
Proof.
  intros (pre & post & ->). exists (s ++ pre)%string, post.
  now rewrite !string_app_assoc.
Qed.

Lemma occurs_concat x (f : string -> string) lines l :
  In l lines -> occurs x (f l) ->
  occurs x (String.concat "" (map f lines)).
Proof.
  induction lines as [|y lines IH]; [contradiction|].
  intros [->|Hin] Hocc; cbn [map String.concat].
  - destruct (map f lines); [assumption|]. now apply occurs_app_l.
  - specialize (IH Hin Hocc). destruct (map f lines) eqn:Hm.
    + destruct lines; [contradiction|discriminate].
    + now apply occurs_app_r, occurs_app_r.
Qed.

Lemma occurs_template x lines l pre post :
  In l lines -> l = (pre ++ x ++ post)%string ->
  occurs x (template lines).
Proof.
  intros Hin ->. unfold template.
  apply occurs_app_r, occurs_app_l.
  apply (occurs_concat x _ lines _ Hin).
  apply occurs_app_r, occurs_app_l, occurs_here.
Qed.

Lemma occurs_prefix x post : occurs x (x ++ post).
Proof. now exists ""%string, post. Qed.

Lemma occurs_refl x : occurs x x.
Proof.
  exists ""%string, ""%string. cbn [append].
  induction x as [|c x IH]; cbn; [reflexivity|now rewrite <- IH].
Qed.

Lemma occurs_in_template x lines l :
  In l lines -> occurs x l -> occurs x (template lines).
Proof.
  intros Hin (pre & post & ->).
  exact (occurs_template x lines _ pre post Hin eq_refl).
Qed.

Ltac occurs_in_line :=
  first [ apply occurs_prefix
        | apply occurs_app_r; occurs_in_line ].

Tactic Notation "occurs_in_mail" integer(n) :=
  eapply occurs_in_template; [do n right; left; reflexivity|occurs_in_line].

(** X15: the mails carry the fields of the booking byte for byte, without
    any escaping.  In the html of a delivered clinic notification occur
    the texts of the first name, last name, e-mail, phone, service, date,
    time and price of the booking (a string field is its own text) and
    its id, and that of the notes, in their own paragraph, when they are
    not empty; in the html of a delivered client confirmation, addressed
    to the e-mail value of the booking, occur the texts of the first
    name, last name, service, date, time and price, and the id.  (Markup
    in a field is therefore markup in the mail.)  When a field has no
    text, no mail is handed over. *)
Theorem mails_embed_fields (e : env) (booking : booking) (w : world) :
  (forall first last mail_ phone_ service_ date_ time_ price_,
     clinic_delivered e = true ->
     ToString (firstName booking) = Normal first ->
     ToString (lastName booking) = Normal last ->
     ToString (email booking) = Normal mail_ ->
     ToString (phone booking) = Normal phone_ ->
     ToString (service booking) = Normal service_ ->
     ToString (date booking) = Normal date_ ->
     ToString (time booking) = Normal time_ ->
     ToString (price booking) = Normal price_ ->
     (ToBoolean (notes booking) = true -> renders (notes booking)) ->
     exists m,
       outbox (snd (sendClinicNotification e booking w))
       = (outbox w ++ [m])%list
       /\ Forall (fun v => occurs v (html m))
            [first; last; mail_; phone_; service_; date_; time_; price_;
             id booking]
       /\ (forall notes_,
             ToBoolean (notes booking) = true ->
             ToString (notes booking) = Normal notes_ ->
             occurs ("<p><strong>Notatki:</strong> " ++ notes_ ++ "</p>")
               (html m)))
  /\ (forall first last service_ date_ time_ price_,
        client_delivered e = true ->
        ToString (firstName booking) = Normal first ->
        ToString (lastName booking) = Normal last ->
        ToString (service booking) = Normal service_ ->
        ToString (date booking) = Normal date_ ->
        ToString (time booking) = Normal time_ ->
        ToString (price booking) = Normal price_ ->
        exists m,
          outbox (snd (sendClientConfirmation e booking w))
          = (outbox w ++ [m])%list
          /\ to m = email booking
          /\ Forall (fun v => occurs v (html m))
               [first; last; service_; date_; time_; price_; id booking])
  /\ (forall err,
        clinic_mailOptions e booking = Throw err ->
        outbox (snd (sendClinicNotification e booking w)) = outbox w)
  /\ (forall err,
        client_mailOptions e booking = Throw err ->
        outbox (snd (sendClientConfirmation e booking w)) = outbox w).
Proof.
  split; [|split; [|split]].
  - intros first last mail_ phone_ service_ date_ time_ price_
      Hsent H1 H2 H3 H4 H5 H6 H7 H8 Hnotes.
    unfold sendClinicNotification, clinic_mailOptions.
    rewrite H1, H2, H3, H4, H5, H6, H7, H8. cbn [and_then].
    destruct (ToBoolean (notes booking)) eqn:Hn.
    + destruct (Hnotes eq_refl) as (n & Hn'). rewrite Hn'. cbn [and_then].
      unfold transporter_sendMail, bind.
      rewrite Hsent. cbn [snd outbox print ret].
      eexists. split; [reflexivity|]. cbn [html]. split.
      * repeat apply Forall_cons; try apply Forall_nil.
        -- occurs_in_mail 1.
        -- occurs_in_mail 1.
        -- occurs_in_mail 2.
        -- occurs_in_mail 3.
        -- occurs_in_mail 4.
        -- occurs_in_mail 5.
        -- occurs_in_mail 6.
        -- occurs_in_mail 7.
        -- occurs_in_mail 10.
      * intros notes_ _ [= <-].
        eapply occurs_in_template; [do 8 right; left; reflexivity|].
        apply occurs_refl.
    + cbn [and_then]. unfold transporter_sendMail, bind.
      rewrite Hsent. cbn [snd outbox print ret].
      eexists. split; [reflexivity|]. cbn [html]. split.
      * repeat apply Forall_cons; try apply Forall_nil.
        -- occurs_in_mail 1.
        -- occurs_in_mail 1.
        -- occurs_in_mail 2.
        -- occurs_in_mail 3.
        -- occurs_in_mail 4.
        -- occurs_in_mail 5.
        -- occurs_in_mail 6.
        -- occurs_in_mail 7.
        -- occurs_in_mail 10.
      * intros notes_ Habs. discriminate.
  - intros first last service_ date_ time_ price_
      Hsent H1 H2 H3 H4 H5 H6.
    unfold sendClientConfirmation, client_mailOptions.
    rewrite H1, H2, H3, H4, H5, H6. cbn [and_then].
    unfold transporter_sendMail, bind.
    rewrite Hsent. cbn [snd outbox print ret].
    eexists. split; [reflexivity|]. split; [reflexivity|]. cbn [html].
    repeat apply Forall_cons; try apply Forall_nil.
    + occurs_in_mail 1.
    + occurs_in_mail 1.
    + occurs_in_mail 4.
    + occurs_in_mail 5.
    + occurs_in_mail 6.
    + occurs_in_mail 7.
    + occurs_in_mail 17.
  - intros err H. rewrite sendClinicNotification_outbox, H. cbn.
    apply app_nil_r.
  - intros err H. rewrite sendClientConfirmation_outbox, H. cbn.
    apply app_nil_r.
Qed.

Lemma mails_embed_fields_witness :
  clinic_delivered Sample.noon = true
  /\ client_delivered Sample.noon = true
  /\ exists m,
       outbox (snd (sendClientConfirmation Sample.noon
                      (newBooking Sample.noon Sample.at_10) Sample.fresh))
       = [m]
       /\ to m = JString "jan@example.com"
       /\ occurs "Kowalski" (html m).
Proof.
  assert (H1 : clinic_delivered Sample.noon = true) by reflexivity.
  assert (H2 : client_delivered Sample.noon = true) by reflexivity.
  split; [exact H1|]. split; [exact H2|].
  destruct (proj1 (proj2 (mails_embed_fields Sample.noon
                            (newBooking Sample.noon Sample.at_10)
                            Sample.fresh))
              "Jan"%string "Kowalski"%string "Terapia"%string
              "2025-03-10"%string "10:00"%string ""%string
              H2 eq_refl eq_refl eq_refl eq_refl eq_refl eq_refl)
    as (m & Hout & Hto & Hall).
  exists m. split; [exact Hout|]. split; [exact Hto|].
  apply Forall_cons_iff in Hall as [_ Hall].
  apply Forall_cons_iff in Hall as [Hlast _]. exact Hlast.
Defined.


(* ================================================================== *)
(** ** Properties of the booking widget *)

(** *** formatDateForAPI *)

Lemma below_seq (P : Z -> bool) (lo hi : Z) :
  forallb (fun k => P (lo + Z.of_nat k)) (seq 0 (Z.to_nat (hi - lo))) = true ->
  forall z, lo <= z < hi -> P z = true.
Proof.
  intros H z Hz. rewrite forallb_forall in H.
  replace z with (lo + Z.of_nat (Z.to_nat (z - lo))) by lia.
  apply H, in_seq. lia.
Qed.

Lemma padded_two_digits n : 0 <= n <= 99 -> Client.two_digits (padded 2 n) = true.
Proof.
  intros Hn. apply (below_seq (fun z => Client.two_digits (padded 2 z)) 0 100).
  - vm_compute. reflexivity.
  - lia.
Qed.

Lemma toString_four_digits y :
  1000 <= y <= 9999 -> Client.four_digits (toString y) = true.
Proof.
  intros Hy. apply (below_seq (fun z => Client.four_digits (toString z)) 1000 10000).
  - vm_compute. reflexivity.
  - lia.
Qed.

(** X16: for a date of a four-digit year, [formatDateForAPI] gives the
    ten characters YYYY-MM-DD: four digits, a dash, two digits, a dash,
    two digits.  (A year below 1000 is not padded and gives a shorter
    string.) *)
Theorem formatDateForAPI_shape (date : Client.Date) :
  1000 <= Client.getFullYear date <= 9999 ->
  0 <= Client.getMonth date <= 11 ->
  1 <= Client.getDate date <= 31 ->
  exists yyyy mm dd,
    Client.formatDateForAPI date = (yyyy ++ "-" ++ mm ++ "-" ++ dd)%string
    /\ Client.four_digits yyyy = true
    /\ Client.two_digits mm = true
    /\ Client.two_digits dd = true
    /\ String.length (Client.formatDateForAPI date) = 10%nat.
Proof.
  intros Hy Hm Hd. unfold Client.formatDateForAPI.
  pose proof (toString_four_digits _ Hy) as H4.
  assert (Hm2 : Client.two_digits (padded 2 (Client.getMonth date + 1)) = true)
    by (apply padded_two_digits; lia).
  assert (Hd2 : Client.two_digits (padded 2 (Client.getDate date)) = true)
    by (apply padded_two_digits; lia).
  exists (toString (Client.getFullYear date)),
    (padded 2 (Client.getMonth date + 1)), (padded 2 (Client.getDate date)).
  repeat (split; [first [reflexivity|assumption]|]).
  destruct (toString (Client.getFullYear date))
    as [|a [|b [|c [|d [|? ?]]]]]; try discriminate.
  destruct (padded 2 (Client.getMonth date + 1)) as [|e [|f [|? ?]]];
    try discriminate.
  destruct (padded 2 (Client.getDate date)) as [|g [|h [|? ?]]];
    try discriminate.
  reflexivity.
Qed.

Lemma formatDateForAPI_shape_witness :
  1000 <= Client.getFullYear (Client.mkDate 2025 2 10) <= 9999
  /\ 0 <= Client.getMonth (Client.mkDate 2025 2 10) <= 11
  /\ 1 <= Client.getDate (Client.mkDate 2025 2 10) <= 31
  /\ exists yyyy mm dd,
       "2025-03-10"%string = (yyyy ++ "-" ++ mm ++ "-" ++ dd)%string
       /\ Client.four_digits yyyy = true
       /\ Client.two_digits mm = true
       /\ Client.two_digits dd = true
       /\ String.length "2025-03-10" = 10%nat.
Proof.
  assert (H1 : 1000 <= Client.getFullYear (Client.mkDate 2025 2 10) <= 9999)
    by (cbn; lia).
  assert (H2 : 0 <= Client.getMonth (Client.mkDate 2025 2 10) <= 11)
    by (cbn; lia).
  assert (H3 : 1 <= Client.getDate (Client.mkDate 2025 2 10) <= 31)
    by (cbn; lia).
  split; [exact H1|]. split; [exact H2|]. split; [exact H3|].
  exact (formatDateForAPI_shape (Client.mkDate 2025 2 10) H1 H2 H3).
Defined.

Lemma append_inj (a b c d : string) :
  String.length a = String.length c ->
  (a ++ b)%string = (c ++ d)%string -> a = c /\ b = d.
Proof.
  revert c. induction a as [|x a IH]; intros [|y c]; cbn;
    try discriminate; intros Hlen H.
  - auto.
  - injection H as -> H. injection Hlen as Hlen.
    destruct (IH c Hlen H) as [-> ->]. auto.
Qed.

Lemma append_length (a b : string) :
  String.length (a ++ b) = (String.length a + String.length b)%nat.
Proof. induction a as [|x a IH]; cbn; [reflexivity|now rewrite IH]. Qed.

Lemma padded_two_length n :
  0 <= n <= 99 -> String.length (padded 2 n) = 2%nat.
Proof.
  intros Hn. pose proof (padded_two_digits n Hn) as H.
  destruct (padded 2 n) as [|a [|b [|? ?]]]; try discriminate. reflexivity.
Qed.

Lemma padded_two_inj n m :
  0 <= n <= 99 -> 0 <= m <= 99 -> padded 2 n = padded 2 m -> n = m.
Proof.
  intros Hn Hm H.
  assert (Hback : forall z, 0 <= z <= 99 ->
                            Client.parseInt (padded 2 z) = z).
  { intros z Hz. apply Z.eqb_eq.
    apply (below_seq (fun z => Client.parseInt (padded 2 z) =? z) 0 100);
      [vm_compute; reflexivity|lia]. }
  rewrite <- (Hback n Hn), <- (Hback m Hm). now rewrite H.
Qed.

(** X17: [formatDateForAPI] tells days apart: two dates with a month
    index in 0..11 and a day in 1..31 get the same string only when
    year, month and day are the same. *)
Theorem formatDateForAPI_inj (d1 d2 : Client.Date) :
  0 <= Client.getMonth d1 <= 11 -> 1 <= Client.getDate d1 <= 31 ->
  0 <= Client.getMonth d2 <= 11 -> 1 <= Client.getDate d2 <= 31 ->
  Client.formatDateForAPI d1 = Client.formatDateForAPI d2 ->
  d1 = d2.
Proof.
  destruct d1 as [y1 m1 a1], d2 as [y2 m2 a2].
  unfold Client.formatDateForAPI. cbn [Client.getFullYear Client.getMonth
    Client.getDate]. intros Hm1 Ha1 Hm2 Ha2 H.
  assert (Hlen : String.length (toString y1) = String.length (toString y2)).
  { apply (f_equal String.length) in H.
    rewrite !append_length in H.
    rewrite !padded_two_length in H by lia. cbn in H. lia. }
  apply append_inj in H as [Hy H]; [|exact Hlen].
  apply (append_inj "-" _ "-" _ eq_refl) in H as [_ H].
  apply append_inj in H as [Hm H];
    [|now rewrite !padded_two_length by lia].
  apply (append_inj "-" _ "-" _ eq_refl) in H as [_ H].
  apply toString_inj in Hy. apply padded_two_inj in Hm; [|lia..].
  apply padded_two_inj in H; [|lia..].
  f_equal; lia.
Qed.

Lemma formatDateForAPI_inj_witness :
  0 <= Client.getMonth (Client.mkDate 2025 2 10) <= 11
  /\ 1 <= Client.getDate (Client.mkDate 2025 2 10) <= 31
  /\ (Client.formatDateForAPI (Client.mkDate 2025 2 10)
      = Client.formatDateForAPI (Client.mkDate 2025 2 10) ->
      Client.mkDate 2025 2 10 = Client.mkDate 2025 2 10).
Proof.
  assert (H1 : 0 <= Client.getMonth (Client.mkDate 2025 2 10) <= 11)
    by (cbn; lia).
  assert (H2 : 1 <= Client.getDate (Client.mkDate 2025 2 10) <= 31)
    by (cbn; lia).
  split; [exact H1|]. split; [exact H2|].
  exact (formatDateForAPI_inj _ _ H1 H2 H1 H2).
Defined.

(** *** fetchAvailableTimes *)

Lemma formatDateForAPI_nonempty date :
  Client.formatDateForAPI date <> ""%string.
Proof.
  unfold Client.formatDateForAPI. intros H.
  apply (f_equal String.length) in H.
  rewrite !append_length in H. cbn in H. lia.
Qed.

(** X18: when the backend cannot be asked, the widget offers every slot.
    If the request fails on the network, or is answered with a status
    outside 200..299, [fetchAvailableTimes] logs the error and returns the
    eleven labels of the server's fixed list, booked or not. *)
Theorem fetchAvailableTimes_fallback
  (fetch : string -> completion response) (hostname : string)
  (date : Client.Date) :
  match
    fetch (Client.API_URL hostname ++ "/api/available-times?date="
           ++ Client.formatDateForAPI date)%string
  with
  | Normal response => status response < 200 \/ 299 < status response
  | Throw _ => True
  end ->
  Client.fetchAvailableTimes fetch hostname date
  = (allTimeSlots, [console_error "Error fetching available times:"]).
Proof.
  unfold Client.fetchAvailableTimes.
  destruct (fetch _) as [r|err]; [|reflexivity].
  intros H. unfold Client.ok.
  destruct (200 <=? status r) eqn:H1; [|reflexivity].
  destruct (status r <=? 299) eqn:H2; [|reflexivity]. lia.
Qed.

Lemma fetchAvailableTimes_fallback_witness :
  fst (Client.fetchAvailableTimes (fun _ => Throw TransportError)
         "localhost" (Client.mkDate 2025 2 10)) = allTimeSlots
  /\ fst (Client.fetchAvailableTimes
            (fun _ => Normal (mkResponse 500 (Error "Internal server error")))
            "harmonia.example" (Client.mkDate 2025 2 10)) = allTimeSlots.
Proof.
  split.
  - exact (f_equal fst
             (fetchAvailableTimes_fallback (fun _ => Throw TransportError)
                "localhost" (Client.mkDate 2025 2 10) I)).
  - refine (f_equal fst
              (fetchAvailableTimes_fallback
                 (fun _ => Normal (mkResponse 500
                                     (Error "Internal server error")))
                 "harmonia.example" (Client.mkDate 2025 2 10) _)).
    right. reflexivity.
Defined.

(** X19: the widget against the server.  When the request of
    [fetchAvailableTimes] is answered by [GET /api/available-times] on the
    date string it sent, the widget gets, for every date, exactly the
    free labels of that date: the date string is never empty, so the
    route never answers 400, and nothing is logged. *)
Theorem fetchAvailableTimes_from_server
  (fetch : string -> completion response) (hostname : string)
  (date : Client.Date) (w : world) :
  fetch (Client.API_URL hostname ++ "/api/available-times?date="
         ++ Client.formatDateForAPI date)%string
  = Normal (fst (GET_api_available_times
                   (JString (Client.formatDateForAPI date)) w)) ->
  Client.fetchAvailableTimes fetch hostname date
  = (spec_availableSlots (Client.formatDateForAPI date) (stored w), []).
Proof.
  intros H. unfold Client.fetchAvailableTimes. rewrite H.
  now rewrite (GET_api_available_times_reply _ w
                 (formatDateForAPI_nonempty date)).
Qed.

Lemma fetchAvailableTimes_from_server_witness :
  Client.fetchAvailableTimes
    (fun _ => Normal (fst (GET_api_available_times (JString "2025-03-10")
                             Sample.one_booking)))
    "localhost" (Client.mkDate 2025 2 10)
  = (["08:00"; "10:00"; "11:00"; "12:00"; "13:00"; "14:00"; "15:00";
      "16:00"; "17:00"; "18:00"]%string, []).
Proof.
  exact (fetchAvailableTimes_from_server
           (fun _ => Normal (fst (GET_api_available_times
                                    (JString "2025-03-10")
                                    Sample.one_booking)))
           "localhost" (Client.mkDate 2025 2 10) Sample.one_booking
           eq_refl).
Defined.

(** *** The form *)

Lemma trim_nonempty s :
  truthy (Some (Client.trim s)) = true -> s <> ""%string.
Proof. intros H ->. discriminate. Qed.

Lemma services_named key svc :
  Client.lookup key Client.services = Some svc ->
  Client.name svc <> ""%string.
Proof.
  unfold Client.services. cbn [Client.lookup].
  repeat (destruct (_ =? key)%string; [intros [= <-]; discriminate|]).
  discriminate.
Qed.

(** X20: a form that the widget lets through is never sent back for a
    missing field.  When [checkFormValidity] enables the submit button
    and the selected service is in the catalogue, the submit handler
    posts a body whose seven required fields are all non-empty strings,
    so [POST /api/bookings] does not answer 400. *)
Theorem valid_form_is_complete (f : Client.form) :
  Client.checkFormValidity f = true ->
  (exists svc,
     Client.lookup (Client.key_of (Client.selectedService f)) Client.services
     = Some svc) ->
  exists b,
    Client.submitted f = Some b
    /\ complete b
    /\ Forall (fun v => exists s, v = JString s /\ s <> ""%string)
         (required b)
    /\ forall e w, status (fst (POST_api_bookings e b w)) <> 400.
Proof.
  unfold Client.checkFormValidity. intros Hvalid (svc & Hsvc).
  repeat (apply andb_true_iff in Hvalid as [Hvalid ?]).
  unfold Client.submitted. rewrite Hsvc.
  destruct (Client.selectedDate f) as [date_|]; [|discriminate].
  destruct (truthy (Client.selectedService f)); [|discriminate].
  destruct (Client.selectedTime f) as [time_|] eqn:Htime; [|discriminate].
  cbn [truthy] in *.
  destruct (negb (time_ =? "")%string) eqn:Hne; [|discriminate].
  cbn [negb orb Client.selection]. eexists. split; [reflexivity|].
  assert (Hs : Forall (fun v => exists s, v = JString s /\ s <> ""%string)
                 (required
                    (Body.mk (JString (Client.firstName_value f))
                       (JString (Client.lastName_value f))
                       (JString (Client.email_value f))
                       (JString (Client.phone_value f))
                       (JString (Client.name svc))
                       (JString (Client.formatDateForAPI date_))
                       (JString time_)
                       (JString (Client.notes_value f))
                       (JString (Client.price svc))))).
  { unfold required. cbn.
    repeat (apply Forall_cons; [eexists; split; [reflexivity|]|]);
      try apply Forall_nil.
    - now apply trim_nonempty.
    - now apply trim_nonempty.
    - now apply trim_nonempty.
    - now apply trim_nonempty.
    - exact (services_named _ _ Hsvc).
    - apply formatDateForAPI_nonempty.
    - now apply negb_true_iff, String.eqb_neq in Hne. }
  assert (Hc : complete
                 (Body.mk (JString (Client.firstName_value f))
                    (JString (Client.lastName_value f))
                    (JString (Client.email_value f))
                    (JString (Client.phone_value f))
                    (JString (Client.name svc))
                    (JString (Client.formatDateForAPI date_))
                    (JString time_)
                    (JString (Client.notes_value f))
                    (JString (Client.price svc)))).
  { unfold complete. eapply Forall_impl; [|exact Hs].
    intros v (s & -> & Hv). apply ToBoolean_filled. cbn.
    now apply negb_true_iff, String.eqb_neq. }
  split; [exact Hc|]. split; [exact Hs|]. intros e w. rewrite POST_status.
  apply required_complete in Hc. rewrite Hc. cbn [negb].
  destruct (taken _ _ _); [discriminate|].
  now destruct (write_error e).
Qed.

Lemma valid_form_is_complete_witness :
  Client.checkFormValidity Forms.filled_in = true
  /\ (exists svc,
        Client.lookup (Client.key_of (Client.selectedService Forms.filled_in))
          Client.services = Some svc)
  /\ exists b,
       Client.submitted Forms.filled_in = Some b
       /\ complete b
       /\ Forall (fun v => exists s, v = JString s /\ s <> ""%string)
            (required b)
       /\ forall e w, status (fst (POST_api_bookings e b w)) <> 400.
Proof.
  assert (H1 : Client.checkFormValidity Forms.filled_in = true)
    by reflexivity.
  assert (H2 : exists svc,
             Client.lookup
               (Client.key_of (Client.selectedService Forms.filled_in))
               Client.services = Some svc) by (eexists; reflexivity).
  split; [exact H1|]. split; [exact H2|].
  exact (valid_form_is_complete Forms.filled_in H1 H2).
Defined.

(** *** durationToMinutes *)

Lemma parseInt_from_acc d acc :
  Z.pos (Pos.of_uint_acc d acc)
  = Client.parseInt_from (Z.pos acc) (NilEmpty.string_of_uint d).
Proof.
  revert acc. induction d; intros acc;
    cbn [Pos.of_uint_acc NilEmpty.string_of_uint Client.parseInt_from];
    [reflexivity|rewrite IHd; f_equal; rewrite ?Pos2Z.inj_add, ?Pos2Z.inj_mul;
                 match goal with
                 | |- context [Z.of_nat ?n] =>
                     let v := eval vm_compute in (Z.of_nat n) in
                     change (Z.of_nat n) with v
                 end; lia..].
Qed.

Lemma parseInt_of_uint d :
  Z.of_N (Pos.of_uint d)
  = Client.parseInt_from 0 (NilEmpty.string_of_uint d).
Proof.
  induction d;
    cbn [Pos.of_uint NilEmpty.string_of_uint Client.parseInt_from Z.of_N];
    [reflexivity|exact IHd|rewrite parseInt_from_acc; f_equal..].
Qed.

Lemma leading_digits_uint d :
  Client.leading_digits (NilEmpty.string_of_uint d)
  = NilEmpty.string_of_uint d.
Proof.
  induction d; cbn [NilEmpty.string_of_uint Client.leading_digits];
    [reflexivity|cbn [Client.is_digit]; cbn; now rewrite IHd..].
Qed.

(** The decimal rendering of a natural number: digits only, at least
    one, and read back by [parseInt]. *)
Lemma toString_digits n :
  0 <= n ->
  exists c r,
    toString n = String c r
    /\ Client.is_digit c = true
    /\ Client.leading_digits (toString n) = toString n
    /\ Client.parseInt (toString n) = n.
Proof.
  intros Hn. destruct n as [|p|p]; [| |lia].
  - exists "0"%char, ""%string. repeat split.
  - unfold toString. cbn [Z.to_int NilZero.string_of_int].
    pose proof (DecimalPos.Unsigned.to_uint_nonnil p) as Hnil.
    assert (Heq : NilZero.string_of_uint (Pos.to_uint p)
                  = NilEmpty.string_of_uint (Pos.to_uint p)).
    { destruct (Pos.to_uint p); [contradiction|reflexivity..]. }
    rewrite Heq.
    assert (Hlead := leading_digits_uint (Pos.to_uint p)).
    assert (Hparse : Client.parseInt (NilEmpty.string_of_uint (Pos.to_uint p))
                     = Z.pos p).
    { unfold Client.parseInt. rewrite <- parseInt_of_uint.
      now rewrite DecimalPos.Unsigned.of_to. }
    destruct (NilEmpty.string_of_uint (Pos.to_uint p)) as [|c r] eqn:Hs.
    + destruct (Pos.to_uint p); [contradiction|discriminate..].
    + exists c, r. repeat split; try assumption.
      cbn [Client.leading_digits] in Hlead.
      destruct (Client.is_digit c); [reflexivity|discriminate].
Qed.

Lemma from_digit_skip pre s :
  Client.from_digit pre = ""%string ->
  Client.from_digit (pre ++ s) = Client.from_digit s.
Proof.
  induction pre as [|c pre IH]; cbn; [reflexivity|].
  destruct (Client.is_digit c); [discriminate|exact IH].
Qed.

Lemma leading_digits_app ds rest :
  Client.leading_digits ds = ds ->
  Client.leading_digits rest = ""%string ->
  Client.leading_digits (ds ++ rest) = ds.
Proof.
  intros Hds Hrest. induction ds as [|c ds IH]; cbn in *; [exact Hrest|].
  destruct (Client.is_digit c); [|discriminate].
  injection Hds as Hds. now rewrite IH.
Qed.

Lemma match_digits_skip pre s :
  Client.from_digit pre = ""%string ->
  Client.match_digits (pre ++ s) = Client.match_digits s.
Proof.
  intros H. unfold Client.match_digits. now rewrite (from_digit_skip _ _ H).
Qed.

Lemma match_digits_start s c r :
  s = String c r -> Client.is_digit c = true ->
  Client.match_digits s = Some (Client.leading_digits s).
Proof.
  intros -> Hc. unfold Client.match_digits. cbn [Client.from_digit].
  now rewrite Hc.
Qed.

(** X21: [durationToMinutes] reads the first number of the text.  A
    duration written as some text without digits, a natural number
    below 2^53 in decimal, and a rest that does not go on with a digit
    ("180 min") gives that number; a text without any digit gives 60;
    the result is never negative. *)
Theorem durationToMinutes_reads (pre rest : string) (n : Z) :
  (0 <= n < 2 ^ 53 ->
   Client.from_digit pre = ""%string ->
   Client.leading_digits rest = ""%string ->
   Client.durationToMinutes (pre ++ toString n ++ rest) = n)
  /\ (Client.from_digit pre = ""%string ->
      Client.durationToMinutes pre = 60)
  /\ 0 <= Client.durationToMinutes rest.
Proof.
  split; [|split].
  - intros Hn Hpre Hrest. unfold Client.durationToMinutes.
    rewrite (match_digits_skip _ _ Hpre).
    destruct (toString_digits n (proj1 Hn)) as (c & r & Hs & Hc & Hl & Hp).
    rewrite (match_digits_start (toString n ++ rest) c (r ++ rest)).
    + now rewrite (leading_digits_app _ _ Hl Hrest).
    + now rewrite Hs.
    + exact Hc.
  - intros Hpre. unfold Client.durationToMinutes, Client.match_digits.
    now rewrite Hpre.
  - unfold Client.durationToMinutes, Client.match_digits.
    destruct (Client.from_digit rest); [lia|].
    unfold Client.parseInt.
    assert (Hnn : forall x acc, 0 <= acc -> 0 <= Client.parseInt_from acc x).
    { intros x. induction x as [|ch x IH]; intros acc Hacc;
        cbn [Client.parseInt_from]; [assumption|].
      apply IH. lia. }
    apply Hnn. lia.
Qed.

Lemma durationToMinutes_reads_witness :
  0 <= 180 < 2 ^ 53
  /\ Client.from_digit "" = ""%string
  /\ Client.leading_digits " min" = ""%string
  /\ Client.durationToMinutes "180 min" = 180
  /\ Client.from_digit "brak" = ""%string
  /\ Client.durationToMinutes "brak" = 60.
Proof.
  assert (H1 : 0 <= 180 < 2 ^ 53) by (cbn; lia).
  assert (H2 : Client.from_digit "" = ""%string) by reflexivity.
  assert (H3 : Client.leading_digits " min" = ""%string) by reflexivity.
  assert (H4 : Client.from_digit "brak" = ""%string) by reflexivity.
  split; [exact H1|]. split; [exact H2|]. split; [exact H3|].
  split; [exact (proj1 (durationToMinutes_reads "" " min" 180) H1 H2 H3)|].
  split; [exact H4|].
  exact (proj1 (proj2 (durationToMinutes_reads "brak" "" 0)) H4).
Defined.

(** *** ScrollLock *)

Lemma or_else_self s : or_else (Some s) "" = s.
Proof.
  unfold or_else, truthy.
  destruct (String.eqb_spec s ""); cbn; [now subst|reflexivity].
Qed.

Lemma lock_state_calls page cs :
  forall depth s,
    Client.lock_state page depth s ->
    Client.paired_from depth cs = true ->
    Client.lock_state page (Client.depth_after depth cs) (Client.calls cs s).
Proof.
  unfold Client.calls.
  induction cs as [|c cs IH]; intros depth s Hs Hp; [exact Hs|].
  destruct Hs as (Hcount & Hzero & Hopen).
  destruct c as [sw|]; cbn [fold_left Client.call Client.paired_from
                              Client.depth_after] in *.
  - apply IH; [|exact Hp]. unfold Client.lock. rewrite Hcount.
    destruct depth as [|d].
    + replace (Z.of_nat 0 + 1 >? 1) with false by reflexivity.
      split; [cbn; lia|]. split; [discriminate|]. intros _.
      cbn. split; [now apply Hzero|reflexivity].
    + replace (Z.of_nat (S d) + 1 >? 1) with true
        by (symmetry; apply Z.gtb_lt; lia).
      split; [cbn [Client.lockCount]; lia|]. split; [discriminate|].
      intros _. cbn. now apply Hopen.
  - destruct depth as [|d]; [discriminate|]. cbn [Nat.pred].
    apply IH; [|exact Hp]. unfold Client.unlock. rewrite Hcount.
    destruct (Hopen ltac:(discriminate)) as [Horig Hhidden].
    destruct d as [|d].
    + replace (Z.max 0 (Z.of_nat 1 - 1) >? 0) with false by reflexivity.
      split; [reflexivity|]. split; [|intros H; now elim H].
      intros _. cbn [Client.documentElement_style].
      rewrite !or_else_self, Horig. now destruct page.
    + replace (Z.max 0 (Z.of_nat (S (S d)) - 1) >? 0) with true
        by (symmetry; apply Z.gtb_lt; lia).
      split; [cbn [Client.lockCount]; lia|]. split; [discriminate|].
      intros _. cbn. auto.
Qed.

(** X22: locks nest.  Starting from the unlocked state of a page, after
    any calls in which every unlock answers an earlier lock, the count is
    the number of locks still open; while one is open the overflow of the
    page is hidden, and once all are answered the page has exactly the
    inline overflow and padding it had before the first lock. *)
Theorem ScrollLock_paired (page : Client.style) (cs : list Client.lock_call) :
  Client.paired_from 0 cs = true ->
  Client.lockCount (Client.calls cs (Client.unlocked page))
  = Z.of_nat (Client.depth_after 0 cs)
  /\ (Client.depth_after 0 cs = 0%nat ->
      Client.documentElement_style (Client.calls cs (Client.unlocked page))
      = page)
  /\ (Client.depth_after 0 cs <> 0%nat ->
      Client.overflow
        (Client.documentElement_style
           (Client.calls cs (Client.unlocked page))) = "hidden"%string).
Proof.
  intros Hp.
  assert (H0 : Client.lock_state page 0 (Client.unlocked page)).
  { split; [reflexivity|]. split; [reflexivity|]. intros H; now elim H. }
  destruct (lock_state_calls page cs 0 _ H0 Hp) as (Hc & Hz & Ho).
  split; [exact Hc|]. split; [exact Hz|]. intros H. now apply Ho.
Qed.

Lemma ScrollLock_paired_witness :
  Client.paired_from 0 [Client.Lock 15; Client.Lock 0; Client.Unlock;
                        Client.Unlock] = true
  /\ Client.documentElement_style
       (Client.calls [Client.Lock 15; Client.Lock 0; Client.Unlock;
                      Client.Unlock]
          (Client.unlocked (Client.mkStyle "auto" "4px")))
     = Client.mkStyle "auto" "4px".
Proof.
  assert (H : Client.paired_from 0 [Client.Lock 15; Client.Lock 0;
                                    Client.Unlock; Client.Unlock] = true)
    by reflexivity.
  split; [exact H|].
  exact (proj1 (proj2 (ScrollLock_paired (Client.mkStyle "auto" "4px") _ H))
           eq_refl).
Defined.

(** X23: whatever the calls, paired or not, the count never goes below
    zero and the overflow of the page is hidden whenever the count is
    positive.  An unlock that answers no lock is not harmless, though:
    on a fresh lock it sets the inline overflow and padding of the page
    to the empty string, whatever they were. *)
Theorem ScrollLock_any_calls (page : Client.style)
  (cs : list Client.lock_call) :
  0 <= Client.lockCount (Client.calls cs (Client.unlocked page))
  /\ (0 < Client.lockCount (Client.calls cs (Client.unlocked page)) ->
      Client.overflow
        (Client.documentElement_style
           (Client.calls cs (Client.unlocked page))) = "hidden"%string)
  /\ Client.documentElement_style (Client.unlock (Client.unlocked page))
     = Client.mkStyle "" "".
Proof.
  assert (Hinv : forall s,
             (0 <= Client.lockCount s
              /\ (0 < Client.lockCount s ->
                  Client.overflow (Client.documentElement_style s)
                  = "hidden"%string)) ->
             0 <= Client.lockCount (Client.calls cs s)
             /\ (0 < Client.lockCount (Client.calls cs s) ->
                 Client.overflow
                   (Client.documentElement_style (Client.calls cs s))
                 = "hidden"%string)).
  { unfold Client.calls. induction cs as [|c cs IH]; intros s Hs;
      [exact Hs|]. cbn [fold_left]. apply IH.
    destruct Hs as [Hc Hh]. destruct c as [sw|]; cbn [Client.call].
    - unfold Client.lock.
      destruct (Client.lockCount s + 1 >? 1) eqn:Hgt;
        cbn [Client.lockCount Client.documentElement_style Client.overflow].
      + apply Z.gtb_lt in Hgt. split; [lia|]. intros _. apply Hh. lia.
      + split; [lia|reflexivity].
    - unfold Client.unlock.
      destruct (Z.max 0 (Client.lockCount s - 1) >? 0) eqn:Hgt;
        cbn [Client.lockCount Client.documentElement_style Client.overflow].
      + apply Z.gtb_lt in Hgt. split; [lia|]. intros _. apply Hh. lia.
      + split; [lia|]. intros H. rewrite Z.gtb_ltb in Hgt.
        apply Z.ltb_ge in Hgt. lia. }
  destruct (Hinv (Client.unlocked page)) as [Hc Hh].
  { cbn. split; [lia|intros H; lia]. }
  split; [exact Hc|]. split; [exact Hh|]. reflexivity.
Qed.

Lemma ScrollLock_any_calls_witness :
  0 < Client.lockCount
        (Client.calls [Client.Unlock; Client.Lock 0; Client.Lock 15]
           (Client.unlocked (Client.mkStyle "scroll" "")))
  /\ Client.overflow
       (Client.documentElement_style
          (Client.calls [Client.Unlock; Client.Lock 0; Client.Lock 15]
             (Client.unlocked (Client.mkStyle "scroll" ""))))
     = "hidden"%string.
Proof.
  assert (H : 0 < Client.lockCount
                    (Client.calls [Client.Unlock; Client.Lock 0;
                                   Client.Lock 15]
                       (Client.unlocked (Client.mkStyle "scroll" ""))))
    by (cbn; lia).
  split; [exact H|].
  exact (proj1 (proj2 (ScrollLock_any_calls (Client.mkStyle "scroll" "")
                         [Client.Unlock; Client.Lock 0; Client.Lock 15]))
           H).
Defined.

(** *** rafThrottle *)

Section ThrottleFacts.

Variable args : Type.
Variable throws : args -> bool.

Lemma run_app (evs evs' : list (Client.event args)) t :
  Client.run args throws (evs ++ evs') t
  = (fst (Client.run args throws evs t)
     ++ fst (Client.run args throws evs'
               (snd (Client.run args throws evs t))),
     snd (Client.run args throws evs'
            (snd (Client.run args throws evs t))))%list.
Proof.
  revert t. induction evs as [|ev evs IH]; intros t; cbn [Client.run app].
  - cbn [fst snd app]. now destruct (Client.run args throws evs' t).
  - destruct (Client.step args throws ev t) as [out t1]. rewrite IH.
    destruct (Client.run args throws evs t1) as [outs t2]. cbn [fst snd].
    destruct (Client.run args throws evs' t2). cbn [fst snd].
    now rewrite app_assoc.
Qed.

(** Calls while a frame is awaited change nothing. *)
Lemma run_calls_ticking calls r :
  Client.run args throws (map (Client.Called args) calls)
    (Client.mkThrottle args true r)
  = ([], Client.mkThrottle args true r).
Proof.
  induction calls as [|c calls IH]; cbn [map Client.run]; [reflexivity|].
  cbn [Client.step Client.ticking]. now rewrite IH.
Qed.

(** A burst whose first call does not make [fn] throw. *)
Lemma run_burst calls :
  (forall a, hd_error calls = Some a -> throws a = false) ->
  Client.run args throws (Client.burst args calls) (Client.rafThrottle args)
  = (firstn 1 calls, Client.rafThrottle args).
Proof.
  intros Hok. unfold Client.burst. rewrite run_app.
  destruct calls as [|a calls]; [reflexivity|].
  cbn [map Client.run Client.step Client.ticking Client.rafThrottle].
  rewrite run_calls_ticking.
  cbn [fst snd app Client.run Client.step Client.requested Client.ticking].
  now rewrite (Hok a eq_refl).
Qed.

(** Once [fn] has thrown, nothing enters the throttle any more. *)
Lemma run_stuck evs :
  Client.run args throws evs (Client.stuck args) = ([], Client.stuck args).
Proof.
  induction evs as [|ev evs IH]; [reflexivity|].
  cbn [Client.run]. destruct ev as [a|];
    cbn [Client.step Client.stuck Client.ticking Client.requested];
    fold (Client.stuck args); now rewrite IH.
Qed.

(** X24: a throttled function runs once per frame, with the arguments of
    the first call, as long as it returns.  Whatever bursts of calls come
    between the animation frames, if [fn] throws on the first call of
    none of them, then at each frame [fn] is run exactly once if the
    burst before it had a call, with the arguments of the first call of
    that burst, and not at all otherwise, and after each frame the
    throttle is as new.  If [fn] throws on the first call of a burst, it
    is run on it at the next frame and never again, whatever calls and
    frames follow: the throttle stays ticking. *)
Theorem rafThrottle_bursts :
  (forall bursts,
     (forall calls a,
        In calls bursts -> hd_error calls = Some a -> throws a = false) ->
     Client.run args throws (flat_map (Client.burst args) bursts)
       (Client.rafThrottle args)
     = (flat_map (firstn 1) bursts, Client.rafThrottle args))
  /\ (forall a calls evs,
        throws a = true ->
        Client.run args throws (Client.burst args (a :: calls) ++ evs)
          (Client.rafThrottle args)
        = ([a], Client.stuck args)).
Proof.
  split.
  - induction bursts as [|calls bursts IH]; intros Hok; [reflexivity|].
    cbn [flat_map]. rewrite run_app, run_burst.
    + cbn [fst snd]. rewrite IH; [reflexivity|].
      intros calls' a Hin. apply Hok. now right.
    + intros a. apply Hok. now left.
  - intros a calls evs Ha. rewrite run_app. unfold Client.burst.
    rewrite run_app.
    cbn [map Client.run Client.step Client.ticking Client.rafThrottle].
    rewrite run_calls_ticking.
    cbn [fst snd app Client.run Client.step Client.requested Client.ticking].
    rewrite Ha. cbn [fst snd app]. fold (Client.stuck args).
    now rewrite run_stuck.
Qed.

End ThrottleFacts.

Lemma rafThrottle_bursts_witness :
  Client.run Z Forms.negative
    (flat_map (Client.burst Z) [[1280; 1024; 800]; []; [640]])
    (Client.rafThrottle Z)
  = ([1280; 640], Client.rafThrottle Z)
  /\ Client.run Z Forms.negative
       (Client.burst Z [-1; 1024] ++ Client.burst Z [800; 640])
       (Client.rafThrottle Z)
     = ([-1], Client.stuck Z).
Proof.
  destruct (rafThrottle_bursts Z Forms.negative) as [Hruns Hstuck].
  split.
  - apply (Hruns [[1280; 1024; 800]; []; [640]]).
    intros calls a [<-|[<-|[<-|[]]]] [= <-]; reflexivity.
  - exact (Hstuck (-1) [1024] (Client.burst Z [800; 640]) eq_refl).
Defined.
